(** * CSProCompile: the command-line driver and its engine adapter

    A shallow embedding of [src/CompilerInterface.cpp] (the engine adapter
    [CSProEngineImpl]), of [include/CompilerInterface.h] (the value types) and
    of [src/CSProCompile.cpp] (the driver [CSProCommandLineCompiler] and
    [main]), followed by the properties of the reporting pipeline.

    Conventions.
    - [int] values are integers in [Z]; the only conversion the code performs,
      [static_cast<int>] of a [size_t], is written out as two's-complement
      wrap-around ([to_int]).   The two counters are incremented once per
      drained message and are kept in [Z] (a message list shorter than 2^31).
    - [std::string] is [string]; [std::wstring] is a list of 16-bit units.
    - A [double] duration is a rational in [Q]; nothing below depends on its
      rounding, and how one is printed is left to the platform
      ([show_double]).
    - The SDK engine, the C runtime and [std::filesystem] are external: every
      call into them is answered by an [Environment] record (what the call
      returns, or which exception it throws), and the pure path operations by
      the [Platform] class.
    - The process state touched by the code (working directory, locale,
      standard streams, files written) is the record [World], threaded
      explicitly; the [try] block of [compile] is written in a small
      state-and-exception monad so that a [throw] keeps the mutations made
      before it, as in C++. *)

From Stdlib Require Import String Ascii List ZArith NArith QArith Lia Bool.
From Stdlib Require Import DecimalString.
From Stdlib Require DecimalFacts DecimalPos.
Import ListNotations.

Local Open Scope Z_scope.
Local Open Scope string_scope.
Local Open Scope list_scope.

(** ** Primitive data *)

Definition wchar_t := N.
Definition wstring := list wchar_t.

(** [std::wstring(s.begin(), s.end())]: each [char] converts to [wchar_t];
    [char] is signed under MSVC, so bytes above 127 sign-extend. *)
Definition widen_char (c : ascii) : wchar_t :=
  let n := N_of_ascii c in
  if (n <? 128)%N then n else (n + 65280)%N.

Definition widen (s : string) : wstring :=
  map widen_char (list_ascii_of_string s).

(** [std::string(w.begin(), w.end())]: each unit is truncated to one byte. *)
Definition narrow_char (w : wchar_t) : ascii := ascii_of_N (w mod 256)%N.

Definition narrow (w : wstring) : string :=
  string_of_list_ascii (map narrow_char w).

(** [static_cast<int>(size_t)]. *)
Definition to_int (n : Z) : Z := (n + 2147483648) mod 4294967296 - 2147483648.

(** [operator<<(std::ostream&, int)]. *)
Definition show_int (z : Z) : string := NilZero.string_of_int (Z.to_int z).

Definition empty (s : string) : bool :=
  match s with EmptyString => true | String _ _ => false end.

(** The newline character, written by [std::endl] and by a literal line feed. *)
Definition nl : string := String (ascii_of_nat 10) EmptyString.
Definition endl : string := nl.
Definition dquote : string := String (ascii_of_nat 34) EmptyString.

(** ** The platform: [std::filesystem::path], [double] output, build macros *)

Class Platform := {
  path : Type;
  path_of_string : string -> path;
  path_of_wstring : wstring -> path;
  path_string : path -> string;
  path_is_relative : path -> bool;
  path_append : path -> path -> path;          (* operator/ *)
  path_filename : path -> path;
  path_remove_filename : path -> path;
  path_parent_path : path -> path;
  path_extension : path -> path;
  path_replace_extension : path -> string -> path;
  show_double : Q -> string;                    (* operator<<(ostream&, double) *)
  macro_DATE : string;                          (* __DATE__ *)
  macro_TIME : string;                          (* __TIME__ *)
  CSPRO_SDK_AVAILABLE : bool                    (* the build flag *)
}.

(** ** include/CompilerInterface.h *)

Module CSProCompiler.

Inductive Severity := Error | Warning | Info.

Record DiagnosticMessage := {
  file : string;
  line : Z;
  column : Z;
  message : string;
  procName : string;
  severity : Severity
}.

Definition getSeverityString (d : DiagnosticMessage) : string :=
  match severity d with
  | Error => "error"
  | Warning => "warning"
  | Info => "info"
  end.

Record CompilerOptions := {
  inputFile : string;
  outputDirectory : string;
  checkSyntaxOnly : bool;
  verboseOutput : bool;
  generateDebugInfo : bool
}.

(** [CompilerOptions()] *)
Definition CompilerOptions_default : CompilerOptions :=
  {| inputFile := ""; outputDirectory := ""; checkSyntaxOnly := false;
     verboseOutput := false; generateDebugInfo := true |}.

Record CompilationResult := {
  success : bool;
  errorCount : Z;
  warningCount : Z;
  diagnostics : list DiagnosticMessage;
  compiledOutput : string;
  compilationTimeMs : Q
}.

(** [CompilationResult()] *)
Definition CompilationResult_default : CompilationResult :=
  {| success := false; errorCount := 0; warningCount := 0; diagnostics := [];
     compiledOutput := ""; compilationTimeMs := 0%Q |}.

Definition set_success (b : bool) (r : CompilationResult) :=
  {| success := b; errorCount := errorCount r; warningCount := warningCount r;
     diagnostics := diagnostics r; compiledOutput := compiledOutput r;
     compilationTimeMs := compilationTimeMs r |}.

Definition set_errorCount (n : Z) (r : CompilationResult) :=
  {| success := success r; errorCount := n; warningCount := warningCount r;
     diagnostics := diagnostics r; compiledOutput := compiledOutput r;
     compilationTimeMs := compilationTimeMs r |}.

Definition set_warningCount (n : Z) (r : CompilationResult) :=
  {| success := success r; errorCount := errorCount r; warningCount := n;
     diagnostics := diagnostics r; compiledOutput := compiledOutput r;
     compilationTimeMs := compilationTimeMs r |}.

Definition set_compiledOutput (s : string) (r : CompilationResult) :=
  {| success := success r; errorCount := errorCount r;
     warningCount := warningCount r; diagnostics := diagnostics r;
     compiledOutput := s; compilationTimeMs := compilationTimeMs r |}.

Definition set_compilationTimeMs (t : Q) (r : CompilationResult) :=
  {| success := success r; errorCount := errorCount r;
     warningCount := warningCount r; diagnostics := diagnostics r;
     compiledOutput := compiledOutput r; compilationTimeMs := t |}.

(** [result.diagnostics.push_back(d)] *)
Definition push_back (d : DiagnosticMessage) (r : CompilationResult) :=
  {| success := success r; errorCount := errorCount r;
     warningCount := warningCount r; diagnostics := diagnostics r ++ [d];
     compiledOutput := compiledOutput r;
     compilationTimeMs := compilationTimeMs r |}.

End CSProCompiler.
Import CSProCompiler.

(** ** The engine boundary: [Logic::ParserMessage] *)

Inductive ParserMessageType :=
  | Type_Error | Type_Warning | Type_DeprecationMajor | Type_DeprecationMinor.

Record ParserMessage := {
  line_number : Z;                (* size_t *)
  position_in_line : Z;           (* size_t *)
  type : ParserMessageType;
  message_text : wstring;
  what : string;                  (* the generic description, [what()] *)
  proc_name : wstring;
  compilation_unit_name : wstring
}.

(** ** Exceptions and the outcome of an external call *)

Inductive exception :=
  | std_exception (what_ : string)     (* anything derived from std::exception *)
  | other_exception.                   (* anything else, caught by [catch (...)] *)

Inductive outcome (A : Type) :=
  | Normal (a : A)
  | Throws (e : exception).
Arguments Normal {A} a.
Arguments Throws {A} e.

(** ** A state-and-exception monad for code inside [try] blocks

    A computation takes the current state and yields an outcome together
    with the state reached; a [Throws] outcome keeps the state as it was at
    the point of the [throw]. *)

Definition M (S A : Type) : Type := S -> outcome A * S.

Definition ret {S A} (a : A) : M S A := fun s => (Normal a, s).

Definition bind {S A B} (c : M S A) (k : A -> M S B) : M S B :=
  fun s =>
    match c s with
    | (Normal a, s') => k a s'
    | (Throws e, s') => (Throws e, s')
    end.

Definition get {S} : M S S := fun s => (Normal s, s).

Definition modify {S} (f : S -> S) : M S unit := fun s => (Normal tt, f s).

(** An external call: the environment has already decided how it ends. *)
Definition call {S A} (o : outcome A) : M S A := fun s => (o, s).

(** [try { body } catch (...) { handler }] *)
Definition try_catch {S A} (body : M S A) (handler : exception -> M S A) : M S A :=
  fun s =>
    match body s with
    | (Normal a, s') => (Normal a, s')
    | (Throws e, s') => handler e s'
    end.

(** Running a computation on a component of a larger state. *)
Definition zoom {S T A} (proj : T -> S) (inj : S -> T -> T) (c : M S A) : M T A :=
  fun t => let '(o, s') := c (proj t) in (o, inj s' t).

Declare Scope cxx_scope.
Delimit Scope cxx_scope with cxx.
Notation "x <- c ;; k" := (bind c (fun x => k))
  (at level 61, c at next level, right associativity) : cxx_scope.
Notation "c ;; k" := (bind c (fun _ => k))
  (at level 61, right associativity) : cxx_scope.

Section Program.

Context {P : Platform}.

(** ** Process state and the answers of the outside world *)

Record World := {
  cwd : path;                      (* the process working directory *)
  locale_user_default : bool;      (* [setlocale(LC_ALL, "")] is in effect *)
  mbcp_locale : bool;              (* [_setmbcp(_MB_CP_LOCALE)] is in effect *)
  AfxWinInit_calls : nat;          (* runtime bootstraps performed *)
  LoadMessages_calls : nat;        (* message-catalog registrations performed *)
  stdout : string;
  stderr : string;
  opened : list path;              (* [std::ofstream] constructions, in order *)
  written : list (path * string)   (* files opened successfully, with the text written *)
}.

Definition set_cwd (p : path) (w : World) : World :=
  {| cwd := p; locale_user_default := locale_user_default w;
     mbcp_locale := mbcp_locale w; AfxWinInit_calls := AfxWinInit_calls w;
     LoadMessages_calls := LoadMessages_calls w; stdout := stdout w;
     stderr := stderr w; opened := opened w; written := written w |}.

(** [setlocale(LC_ALL, "")] *)
Definition setlocale_LC_ALL (w : World) : World :=
  {| cwd := cwd w; locale_user_default := true;
     mbcp_locale := mbcp_locale w; AfxWinInit_calls := AfxWinInit_calls w;
     LoadMessages_calls := LoadMessages_calls w; stdout := stdout w;
     stderr := stderr w; opened := opened w; written := written w |}.

(** [_setmbcp(_MB_CP_LOCALE)] *)
Definition setmbcp_MB_CP_LOCALE (w : World) : World :=
  {| cwd := cwd w; locale_user_default := locale_user_default w;
     mbcp_locale := true; AfxWinInit_calls := AfxWinInit_calls w;
     LoadMessages_calls := LoadMessages_calls w; stdout := stdout w;
     stderr := stderr w; opened := opened w; written := written w |}.

Definition count_AfxWinInit (w : World) : World :=
  {| cwd := cwd w; locale_user_default := locale_user_default w;
     mbcp_locale := mbcp_locale w; AfxWinInit_calls := S (AfxWinInit_calls w);
     LoadMessages_calls := LoadMessages_calls w; stdout := stdout w;
     stderr := stderr w; opened := opened w; written := written w |}.

Definition count_LoadMessages (w : World) : World :=
  {| cwd := cwd w; locale_user_default := locale_user_default w;
     mbcp_locale := mbcp_locale w; AfxWinInit_calls := AfxWinInit_calls w;
     LoadMessages_calls := S (LoadMessages_calls w); stdout := stdout w;
     stderr := stderr w; opened := opened w; written := written w |}.

(** [std::cout << s] *)
Definition cout (s : string) (w : World) : World :=
  {| cwd := cwd w; locale_user_default := locale_user_default w;
     mbcp_locale := mbcp_locale w; AfxWinInit_calls := AfxWinInit_calls w;
     LoadMessages_calls := LoadMessages_calls w; stdout := stdout w ++ s;
     stderr := stderr w; opened := opened w; written := written w |}.

(** [std::cerr << s] *)
Definition cerr (s : string) (w : World) : World :=
  {| cwd := cwd w; locale_user_default := locale_user_default w;
     mbcp_locale := mbcp_locale w; AfxWinInit_calls := AfxWinInit_calls w;
     LoadMessages_calls := LoadMessages_calls w; stdout := stdout w;
     stderr := stderr w ++ s; opened := opened w; written := written w |}.

(** What each call into the SDK, the runtime and the file system answers
    during one run.  Every call below is made at most once per call of the
    method that contains it. *)
Record Environment := {
  (* initialize *)
  AfxGetApp : bool;                                  (* non-null? *)
  AfxWinInit : outcome unit;
  SystemMessages_LoadMessages : outcome unit;
  (* compile *)
  Application_new : outcome unit;                    (* std::make_unique<Application>() *)
  Versioning_SetCompiledLogicVersion : outcome unit;
  fs_current_path : outcome unit;                    (* the query may throw *)
  fs_canonical : path -> outcome path;
  fs_set_current_path : path -> outcome unit;        (* throws when the change fails *)
  Application_Open : path -> outcome unit;
  Application_LogicSettings : outcome unit;          (* Get/SetLogicSettings *)
  BuildApplication : outcome unit;
  CSourceCode_new : outcome unit;
  CSourceCode_Load : outcome bool;
  Application_SetAppSrcCode : outcome unit;
  CCompiler_new : outcome unit;                      (* constructor and the two setters *)
  CCompiler_FullCompile : outcome unit;
  GetParserMessages : outcome (list ParserMessage);
  clock_elapsed_ms : Q;                              (* endTime - startTime *)
  (* the driver *)
  fs_exists : string -> outcome bool;                (* the throwing overload *)
  ofstream_is_open : path -> bool;
  indeterminate_line : Z;                            (* an [int] never assigned *)
  indeterminate_column : Z
}.

(** ** src/CompilerInterface.cpp: [CSProEngineImpl] *)

Record CSProEngineImpl := {
  m_initialized : bool;
  m_application : bool;       (* the pointer owns an object *)
  m_compiler : bool
}.

(** [CSProEngineImpl()] *)
Definition CSProEngineImpl_new : CSProEngineImpl :=
  {| m_initialized := false; m_application := false; m_compiler := false |}.

(** An engine object together with the process it lives in. *)
Record Machine := { self : CSProEngineImpl; world : World }.

Definition on_world (f : World -> World) : M Machine unit :=
  modify (fun m => {| self := self m; world := f (world m) |}).

Definition on_self (f : CSProEngineImpl -> CSProEngineImpl) : M Machine unit :=
  modify (fun m => {| self := f (self m); world := world m |}).

Definition set_m_initialized (b : bool) (e : CSProEngineImpl) :=
  {| m_initialized := b; m_application := m_application e;
     m_compiler := m_compiler e |}.

Definition set_m_application (b : bool) (e : CSProEngineImpl) :=
  {| m_initialized := m_initialized e; m_application := b;
     m_compiler := m_compiler e |}.

Definition set_m_compiler (b : bool) (e : CSProEngineImpl) :=
  {| m_initialized := m_initialized e; m_application := m_application e;
     m_compiler := b |}.

Local Open Scope cxx_scope.

(** [bool initialize()] *)
Definition initialize (env : Environment) : M Machine bool :=
  on_world setlocale_LC_ALL ;;
  on_world setmbcp_MB_CP_LOCALE ;;
  m <- get ;;
  if m_initialized (self m) then ret true
  else if CSPRO_SDK_AVAILABLE then
    try_catch
      ((if negb (AfxGetApp env)
        then on_world count_AfxWinInit ;; call (AfxWinInit env)
        else ret tt) ;;
       try_catch
         (on_world count_LoadMessages ;; call (SystemMessages_LoadMessages env))
         (fun _ => ret tt) ;;
       on_self (set_m_initialized true) ;;
       ret true)
      (fun _ => ret false)
  else ret false.

(** [void shutdown()] *)
Definition shutdown : M Machine unit :=
  (if CSPRO_SDK_AVAILABLE
   then on_self (set_m_compiler false) ;; on_self (set_m_application false)
   else ret tt) ;;
  on_self (set_m_initialized false).

(** *** [compile]: translating one drained message *)

(** The fields of [msg] as the body of the [for] loop assigns them. *)
Definition translate_message (parserMsg : ParserMessage) : string :=
  if (what parserMsg =? "Logic - Parser Message")%string
     && negb (match message_text parserMsg with [] => true | _ => false end)
  then narrow (message_text parserMsg)
  else what parserMsg.

Definition translate_procName (parserMsg : ParserMessage) : string :=
  match proc_name parserMsg with
  | _ :: _ => narrow (proc_name parserMsg)
  | [] =>
      match compilation_unit_name parserMsg with
      | _ :: _ => narrow (compilation_unit_name parserMsg)
      | [] => ""
      end
  end.

Definition translate_severity (t : ParserMessageType) : Severity :=
  match t with
  | Type_Error => Error
  | Type_Warning | Type_DeprecationMajor | Type_DeprecationMinor => Warning
  end.

Definition translate_file (options : CompilerOptions) (parserMsg : ParserMessage)
  : string :=
  match compilation_unit_name parserMsg with
  | _ :: _ => narrow (compilation_unit_name parserMsg)
  | [] => inputFile options
  end.

Definition translate (options : CompilerOptions) (parserMsg : ParserMessage)
  : DiagnosticMessage :=
  {| file := translate_file options parserMsg;
     line := to_int (line_number parserMsg);
     column := to_int (position_in_line parserMsg);
     message := translate_message parserMsg;
     procName := translate_procName parserMsg;
     severity := translate_severity (type parserMsg) |}.

(** One iteration: the [switch] bumps the matching counter, then the
    message is appended. *)
Definition drain_one (options : CompilerOptions) (result : CompilationResult)
  (parserMsg : ParserMessage) : CompilationResult :=
  let result :=
    match type parserMsg with
    | Type_Error => set_errorCount (errorCount result + 1) result
    | Type_Warning | Type_DeprecationMajor | Type_DeprecationMinor =>
        set_warningCount (warningCount result + 1) result
    end in
  push_back (translate options parserMsg) result.

(** [for (const auto& parserMsg : allMessages) ...] *)
Definition drain (options : CompilerOptions) (allMessages : list ParserMessage)
  (result : CompilationResult) : CompilationResult :=
  fold_left (drain_one options) allMessages result.

(** The [if (result.errorCount == 0)] that closes the [try] block. *)
Definition conclude (options : CompilerOptions) (result : CompilationResult)
  : CompilationResult :=
  if (errorCount result =? 0)%Z then
    let inputPath := path_of_string (inputFile options) in
    let outputPath := path_replace_extension inputPath ".pen" in
    set_compiledOutput (path_string outputPath) (set_success true result)
  else set_success false result.

(** *** [compile]: the whole method *)

(** The local [result] and the machine, as seen from inside [compile]. *)
Record Frame := { result : CompilationResult; machine : Machine }.

Definition on_result (f : CompilationResult -> CompilationResult) : M Frame unit :=
  modify (fun fr => {| result := f (result fr); machine := machine fr |}).

Definition on_machine {A} (c : M Machine A) : M Frame A :=
  zoom machine (fun m fr => {| result := result fr; machine := m |}) c.

(** [std::filesystem::current_path()] *)
Definition current_path (env : Environment) : M Frame path :=
  call (fs_current_path env) ;;
  fr <- get ;;
  ret (cwd (world (machine fr))).

(** [std::filesystem::current_path(p)] *)
Definition set_current_path (env : Environment) (p : path) : M Frame unit :=
  call (fs_set_current_path env p) ;;
  on_machine (on_world (set_cwd p)).

(** How a block ends when it does not throw: it runs off its end, or it
    executes [return result;]. *)
Inductive flow := FallThrough | Return.

Definition Failed_to_load (options : CompilerOptions) : DiagnosticMessage :=
  {| file := inputFile options; line := 0; column := 0;
     message := "Failed to load application source code"; procName := "";
     severity := Error |}.

(** The statements between [try {] and [}]. *)
Definition try_block (env : Environment) (options : CompilerOptions) : M Frame flow :=
  let wInputFile := widen (inputFile options) in
  call (Application_new env) ;;
  on_machine (on_self (set_m_application true)) ;;
  call (Versioning_SetCompiledLogicVersion env) ;;
  originalCwd <- current_path env ;;
  let appDir := path_of_wstring wInputFile in
  let appDir :=
    if path_is_relative appDir then path_append originalCwd appDir else appDir in
  appDir <- call (fs_canonical env appDir) ;;
  let appFileName := path_filename appDir in
  let appDir := path_remove_filename appDir in
  set_current_path env appDir ;;
  let absoluteAppPath := path_append appDir appFileName in
  call (Application_Open env absoluteAppPath) ;;
  call (Application_LogicSettings env) ;;
  set_current_path env originalCwd ;;
  call (BuildApplication env) ;;
  call (CSourceCode_new env) ;;
  loaded <- call (CSourceCode_Load env) ;;
  if negb loaded then
    on_result (push_back (Failed_to_load options)) ;;
    on_result (set_success false) ;;
    ret Return
  else
    call (Application_SetAppSrcCode env) ;;
    call (CCompiler_new env) ;;
    on_machine (on_self (set_m_compiler true)) ;;
    call (CCompiler_FullCompile env) ;;
    allMessages <- call (GetParserMessages env) ;;
    on_result (drain options allMessages) ;;
    on_result (conclude options) ;;
    ret FallThrough.

Definition Exception_diagnostic (options : CompilerOptions) (e : exception)
  : DiagnosticMessage :=
  {| file := inputFile options; line := 0; column := 0;
     message :=
       match e with
       | std_exception what_ => "Exception: " ++ what_
       | other_exception => "Unknown exception during compilation"
       end;
     procName := ""; severity := Error |}.

(** The two [catch] clauses. *)
Definition catch_clauses (options : CompilerOptions) (e : exception) : M Frame flow :=
  on_result (push_back (Exception_diagnostic options e)) ;;
  on_result (set_success false) ;;
  ret FallThrough.

Definition Failed_to_initialize : DiagnosticMessage :=
  {| file := ""; line := 0; column := 0;
     message := "Failed to initialize CSPro engine"; procName := "";
     severity := Error |}.

(** [CompilationResult compile(const CompilerOptions& options)], from the
    declaration of [result] to the [return]. *)
Definition compile_body (env : Environment) (options : CompilerOptions)
  : M Frame CompilationResult :=
  fr <- get ;;
  initialized <-
    (if negb (m_initialized (self (machine fr)))
     then on_machine (initialize env)
     else ret true) ;;
  if negb initialized then
    on_result (set_success false) ;;
    on_result (push_back Failed_to_initialize) ;;
    fr <- get ;; ret (result fr)
  else
    fl <-
      (if CSPRO_SDK_AVAILABLE
       then try_catch (try_block env options) (catch_clauses options)
       else on_result (set_success false) ;; ret FallThrough) ;;
    match fl with
    | Return => fr <- get ;; ret (result fr)
    | FallThrough =>
        on_result (set_compilationTimeMs (clock_elapsed_ms env)) ;;
        fr <- get ;; ret (result fr)
    end.

(** A call of [engine->compile(options)]: what the caller observes is
    either a returned result or an exception leaving the method, and the
    machine afterwards. *)
Definition compile (env : Environment) (options : CompilerOptions) (m : Machine)
  : outcome CompilationResult * Machine :=
  let '(o, fr) :=
    compile_body env options
      {| result := CompilationResult_default; machine := m |} in
  (o, machine fr).

(** ** src/CSProCompile.cpp: [CSProCommandLineCompiler] *)

Record CSProCommandLineCompiler := {
  cl_inputFile : string;         (* the member [inputFile] *)
  cl_outputFile : string;        (* the member [outputFile] *)
  verboseMode : bool;
  checkOnly : bool;
  jsonOutput : bool
}.

(** [CSProCommandLineCompiler()] *)
Definition CSProCommandLineCompiler_new : CSProCommandLineCompiler :=
  {| cl_inputFile := ""; cl_outputFile := ""; verboseMode := false;
     checkOnly := false; jsonOutput := false |}.

Definition setInputFile (f : string) (c : CSProCommandLineCompiler) :=
  {| cl_inputFile := f; cl_outputFile := cl_outputFile c;
     verboseMode := verboseMode c; checkOnly := checkOnly c;
     jsonOutput := jsonOutput c |}.

Definition setOutputFile (f : string) (c : CSProCommandLineCompiler) :=
  {| cl_inputFile := cl_inputFile c; cl_outputFile := f;
     verboseMode := verboseMode c; checkOnly := checkOnly c;
     jsonOutput := jsonOutput c |}.

Definition setVerboseMode (b : bool) (c : CSProCommandLineCompiler) :=
  {| cl_inputFile := cl_inputFile c; cl_outputFile := cl_outputFile c;
     verboseMode := b; checkOnly := checkOnly c; jsonOutput := jsonOutput c |}.

Definition setCheckOnly (b : bool) (c : CSProCommandLineCompiler) :=
  {| cl_inputFile := cl_inputFile c; cl_outputFile := cl_outputFile c;
     verboseMode := verboseMode c; checkOnly := b; jsonOutput := jsonOutput c |}.

Definition setJsonOutput (b : bool) (c : CSProCommandLineCompiler) :=
  {| cl_inputFile := cl_inputFile c; cl_outputFile := cl_outputFile c;
     verboseMode := verboseMode c; checkOnly := checkOnly c; jsonOutput := b |}.

(** Constructing a [std::ofstream] on [p]. *)
Definition ofstream_open (p : path) (w : World) : World :=
  {| cwd := cwd w; locale_user_default := locale_user_default w;
     mbcp_locale := mbcp_locale w; AfxWinInit_calls := AfxWinInit_calls w;
     LoadMessages_calls := LoadMessages_calls w; stdout := stdout w;
     stderr := stderr w; opened := opened w ++ [p]; written := written w |}.

(** Everything streamed into an open [std::ofstream] on [p] up to its
    [close()]. *)
Definition ofstream_put (p : path) (text : string) (w : World) : World :=
  {| cwd := cwd w; locale_user_default := locale_user_default w;
     mbcp_locale := mbcp_locale w; AfxWinInit_calls := AfxWinInit_calls w;
     LoadMessages_calls := LoadMessages_calls w; stdout := stdout w;
     stderr := stderr w; opened := opened w;
     written := written w ++ [(p, text)] |}.

(** [bool validateInputFile()] *)
Definition validateInputFile (env : Environment) (c : CSProCommandLineCompiler)
  : M World bool :=
  found <- call (fs_exists env (cl_inputFile c)) ;;
  if negb found then
    modify (cerr ("Error: Input file not found: " ++ cl_inputFile c ++ endl)) ;;
    ret false
  else
    let ext := path_string (path_extension (path_of_string (cl_inputFile c))) in
    if negb (ext =? ".ent")%string && negb (ext =? ".bch")%string
       && negb (ext =? ".pff")%string
    then
      modify (cerr ("Error: Invalid file type. Expected .ent, .bch, or .pff" ++ endl)) ;;
      ret false
    else ret true.

(** The upper-case literal both log writers choose with
    [(diag.severity == Severity::Error) ? ... : ...]. *)
Definition SEVERITY (diag : DiagnosticMessage) : string :=
  match severity diag with Error => "ERROR" | _ => "WARNING" end.

(** The lower-case literal of [outputJson] and [outputText]. *)
Definition severity_lower (diag : DiagnosticMessage) : string :=
  match severity diag with Error => "error" | _ => "warning" end.

(** One record of [compileErrors.txt]. *)
Definition detailed_record (diag : DiagnosticMessage) : string :=
  SEVERITY diag ++ " at line " ++ show_int (line diag) ++ ", column "
    ++ show_int (column diag) ++ ":" ++ nl
    ++ "  " ++ message diag ++ nl
    ++ "  Location: " ++ file diag ++ nl
    ++ nl.

(** The text streamed into [errorFile]. *)
Definition detailed_log (c : CSProCommandLineCompiler) (result : CompilationResult)
  : string :=
  "CSPro Compilation Errors/Warnings" ++ nl
    ++ "==================================" ++ nl
    ++ "File: " ++ cl_inputFile c ++ nl
    ++ "Date: " ++ macro_DATE ++ " " ++ macro_TIME ++ nl
    ++ "Total Errors: " ++ show_int (errorCount result) ++ nl
    ++ "Total Warnings: " ++ show_int (warningCount result) ++ nl
    ++ nl
    ++ String.concat "" (map detailed_record (diagnostics result)).

(** One line of [compileErrorsFormatted.txt]. *)
Definition formatted_line (diag : DiagnosticMessage) : string :=
  let severity := SEVERITY diag in
  if negb (empty (procName diag)) && (line diag >? 0)%Z then
    severity ++ "(" ++ procName diag ++ ", " ++ show_int (line diag) ++ "): "
      ++ message diag ++ nl
  else if negb (empty (procName diag)) then
    severity ++ "(" ++ procName diag ++ "): " ++ message diag ++ nl
  else if (line diag >? 0)%Z then
    severity ++ "(" ++ show_int (line diag) ++ "): " ++ message diag ++ nl
  else
    severity ++ ": " ++ message diag ++ nl.

(** The text streamed into [formattedFile]. *)
Definition formatted_log (result : CompilationResult) : string :=
  String.concat "" (map formatted_line (diagnostics result)).

Definition errorFilePath (c : CSProCommandLineCompiler) : path :=
  path_append (path_parent_path (path_of_string (cl_inputFile c)))
    (path_of_string "compileErrors.txt").

Definition formattedFilePath (c : CSProCommandLineCompiler) : path :=
  path_append (path_parent_path (path_of_string (cl_inputFile c)))
    (path_of_string "compileErrorsFormatted.txt").

(** The block guarded by [if (!result.diagnostics.empty())]. *)
Definition save_errors (env : Environment) (c : CSProCommandLineCompiler)
  (result : CompilationResult) : M World unit :=
  match diagnostics result with
  | [] => ret tt
  | _ :: _ =>
      modify (ofstream_open (errorFilePath c)) ;;
      (if ofstream_is_open env (errorFilePath c) then
         modify (ofstream_put (errorFilePath c) (detailed_log c result)) ;;
         if verboseMode c then
           modify (cout ("Errors/warnings saved to: "
                         ++ path_string (errorFilePath c) ++ endl))
         else ret tt
       else ret tt) ;;
      modify (ofstream_open (formattedFilePath c)) ;;
      (if ofstream_is_open env (formattedFilePath c) then
         modify (ofstream_put (formattedFilePath c) (formatted_log result)) ;;
         if verboseMode c then
           modify (cout ("Formatted errors saved to: "
                         ++ path_string (formattedFilePath c) ++ endl))
         else ret tt
       else ret tt)
  end.

(** The result built when [engine->initialize()] fails. *)
Definition Failed_to_initialize_compiler (env : Environment) : CompilationResult :=
  let msg :=
    {| file := ""; line := indeterminate_line env;
       column := indeterminate_column env;
       message := "Failed to initialize CSPro compiler"; procName := "";
       severity := Error |} in
  set_errorCount 1
    (push_back msg
       (set_compilationTimeMs 0%Q (set_success false CompilationResult_default))).

(** [CSPro::CompilationResult compile()], run on the engine made by
    [createCompilerEngine()]. *)
Definition driver_compile_on_engine (env : Environment) (c : CSProCommandLineCompiler)
  : M Machine CompilationResult :=
  (if verboseMode c then
     on_world (cout ("Compiling: " ++ cl_inputFile c ++ endl)) ;;
     if checkOnly c
     then on_world (cout ("Mode: Syntax check only" ++ endl))
     else ret tt
   else ret tt) ;;
  initialized <- initialize env ;;
  if negb initialized then ret (Failed_to_initialize_compiler env)
  else
    let options :=
      {| inputFile := cl_inputFile c;
         outputDirectory := outputDirectory CompilerOptions_default;
         checkSyntaxOnly := checkOnly c;
         verboseOutput := verboseMode c;
         generateDebugInfo := generateDebugInfo CompilerOptions_default |} in
    result <- compile env options ;;
    shutdown ;;
    zoom world (fun w m => {| self := self m; world := w |})
      (save_errors env c result) ;;
    ret result.

Definition driver_compile (env : Environment) (c : CSProCommandLineCompiler)
  : M World CompilationResult :=
  zoom (fun w => {| self := CSProEngineImpl_new; world := w |})
       (fun m _ => world m)
       (driver_compile_on_engine env c).

(** *** The report writers of the driver *)

(** One element of the ["errors"] array, from its opening brace to its
    closing brace. *)
Definition json_entry (diag : DiagnosticMessage) : string :=
  "    {" ++ nl
    ++ "      " ++ dquote ++ "file" ++ dquote ++ ": "
         ++ dquote ++ file diag ++ dquote ++ "," ++ nl
    ++ "      " ++ dquote ++ "line" ++ dquote ++ ": "
         ++ show_int (line diag) ++ "," ++ nl
    ++ "      " ++ dquote ++ "column" ++ dquote ++ ": "
         ++ show_int (column diag) ++ "," ++ nl
    ++ "      " ++ dquote ++ "message" ++ dquote ++ ": "
         ++ dquote ++ message diag ++ dquote ++ "," ++ nl
    ++ "      " ++ dquote ++ "severity" ++ dquote ++ ": "
         ++ dquote ++ severity_lower diag ++ dquote ++ nl
    ++ "    }".

(** The [for] loop of [outputJson]: a comma after every element but the
    last. *)
Fixpoint json_entries (ds : list DiagnosticMessage) : string :=
  match ds with
  | [] => ""
  | diag :: rest =>
      json_entry diag
        ++ (match rest with [] => "" | _ :: _ => "," end) ++ nl
        ++ json_entries rest
  end.

(** Everything [outputJson] streams into [*out]. *)
Definition json_text (result : CompilationResult) : string :=
  "{" ++ nl
    ++ "  " ++ dquote ++ "success" ++ dquote ++ ": "
         ++ (if success result then "true" else "false") ++ "," ++ nl
    ++ "  " ++ dquote ++ "compilationTime" ++ dquote ++ ": "
         ++ show_double (compilationTimeMs result / 1000)%Q ++ "," ++ nl
    ++ "  " ++ dquote ++ "errors" ++ dquote ++ ": [" ++ nl
    ++ json_entries (diagnostics result)
    ++ "  ]" ++ nl
    ++ "}" ++ nl.

(** [void outputJson(const CSPro::CompilationResult& result)] *)
Definition outputJson (env : Environment) (c : CSProCommandLineCompiler)
  (result : CompilationResult) : M World unit :=
  if negb (empty (cl_outputFile c)) then
    let file := path_of_string (cl_outputFile c) in
    modify (ofstream_open file) ;;
    if ofstream_is_open env file
    then modify (ofstream_put file (json_text result))
    else ret tt
  else modify (cout (json_text result)).

(** One line of the failure listing of [outputText]. *)
Definition text_line (diag : DiagnosticMessage) : string :=
  file diag ++ "(" ++ show_int (line diag) ++ "," ++ show_int (column diag)
    ++ "): " ++ severity_lower diag ++ ": " ++ message diag ++ endl.

(** [void outputText(const CSPro::CompilationResult& result)] *)
Definition outputText (c : CSProCommandLineCompiler) (result : CompilationResult)
  : M World unit :=
  if success result then
    modify (cout ("Compilation successful!" ++ endl)) ;;
    if verboseMode c then
      modify (cout ("Compilation time: "
                    ++ show_double (compilationTimeMs result / 1000)%Q
                    ++ " seconds" ++ endl))
    else ret tt
  else
    modify (cerr ("Compilation failed with " ++ show_int (errorCount result)
                  ++ " error(s)")) ;;
    (if (warningCount result >? 0)%Z then
       modify (cerr (" and " ++ show_int (warningCount result) ++ " warning(s)"))
     else ret tt) ;;
    modify (cerr (":" ++ endl)) ;;
    modify (cerr (String.concat "" (map text_line (diagnostics result)))).

(** [void outputResults(const CSPro::CompilationResult& result)] *)
Definition outputResults (env : Environment) (c : CSProCommandLineCompiler)
  (result : CompilationResult) : M World unit :=
  if jsonOutput c then outputJson env c result else outputText c result.

(** ** src/CSProCompile.cpp: [printUsage] and [main] *)

Definition usage (programName : string) : string :=
  "CSProCompile - Command-line CSPro Application Compiler" ++ nl ++ nl
    ++ "Usage:" ++ nl
    ++ "  " ++ programName ++ " <application.ent|.bch|.pff> [options]" ++ nl ++ nl
    ++ "Options:" ++ nl
    ++ "  -o <file>     Output compilation results to JSON file" ++ nl
    ++ "  -v            Verbose mode" ++ nl
    ++ "  --check-only  Only check syntax, don't generate binaries" ++ nl
    ++ "  --json        Output errors in JSON format (for VS Code)" ++ nl
    ++ "  -h, --help    Show this help message" ++ nl ++ nl
    ++ "Examples:" ++ nl
    ++ "  " ++ programName ++ " myapp.ent" ++ nl
    ++ "  " ++ programName ++ " myapp.bch -v --json" ++ nl
    ++ "  " ++ programName ++ " myapp.pff -o results.json" ++ nl.

(** [void printUsage(const char* programName)] *)
Definition printUsage (programName : string) : M World unit :=
  modify (cout (usage programName)).

(** [arg[0] != '-'], where [arg[0]] of an empty [std::string] is the
    terminating null character. *)
Definition first_is_not_dash (arg : string) : bool :=
  match arg with
  | EmptyString => true
  | String c _ => negb (Ascii.eqb c "-"%char)
  end.

(** How the argument loop ends: it runs off the end of [argv] with the
    compiler configured, or it executes [return code;]. *)
Inductive parsed :=
  | Configured (compiler : CSProCommandLineCompiler)
  | Exit (code : Z).

(** The [for] loop of [main] over [argv[i..argc-1]]; the [-o] case
    advances [i] once more. *)
Fixpoint parse_arguments (programName : string)
  (compiler : CSProCommandLineCompiler) (args : list string) : M World parsed :=
  match args with
  | [] => ret (Configured compiler)
  | arg :: rest =>
      if (arg =? "-h")%string || (arg =? "--help")%string then
        printUsage programName ;; ret (Exit 0)
      else if (arg =? "-v")%string then
        parse_arguments programName (setVerboseMode true compiler) rest
      else if (arg =? "--check-only")%string then
        parse_arguments programName (setCheckOnly true compiler) rest
      else if (arg =? "--json")%string then
        parse_arguments programName (setJsonOutput true compiler) rest
      else if (arg =? "-o")%string then
        match rest with
        | value :: rest' =>
            parse_arguments programName (setOutputFile value compiler) rest'
        | [] =>
            modify (cerr ("Error: -o requires an output filename" ++ nl)) ;;
            ret (Exit 1)
        end
      else if first_is_not_dash arg then
        parse_arguments programName (setInputFile arg compiler) rest
      else
        modify (cerr ("Unknown option: " ++ arg ++ endl)) ;;
        printUsage programName ;;
        ret (Exit 1)
  end.

(** The [try] block of [main]; [argv] is [programName :: args]. *)
Definition main_try_block (env : Environment) (programName : string)
  (args : list string) : M World Z :=
  match args with
  | [] => printUsage programName ;; ret 1            (* argc < 2 *)
  | _ :: _ =>
      p <- parse_arguments programName CSProCommandLineCompiler_new args ;;
      match p with
      | Exit code => ret code
      | Configured compiler =>
          valid <- validateInputFile env compiler ;;
          if negb valid then ret 1
          else
            result <- driver_compile env compiler ;;
            outputResults env compiler result ;;
            ret (if success result then 0 else 1)
      end
  end.

Definition main_catch_clauses (e : exception) : M World Z :=
  match e with
  | std_exception what_ =>
      modify (cerr ("Error: " ++ what_ ++ endl)) ;; ret 1
  | other_exception =>
      modify (cerr ("Error: Unknown exception occurred" ++ endl)) ;; ret 1
  end.

(** [int main(int argc, char* argv[])] *)
Definition main (env : Environment) (programName : string) (args : list string)
  : M World Z :=
  try_catch (main_try_block env programName args) main_catch_clauses.

End Program.

(** ** What the properties speak about *)

Definition is_Error (d : DiagnosticMessage) : bool :=
  match severity d with Error => true | _ => false end.

Definition is_Warning (d : DiagnosticMessage) : bool :=
  match severity d with Warning => true | _ => false end.

(** The number of entries of a diagnostics sequence that satisfy [p]. *)
Definition count (p : DiagnosticMessage -> bool) (ds : list DiagnosticMessage) : Z :=
  Z.of_nat (length (filter p ds)).

(** The number of line feeds in a text. *)
Fixpoint count_nl (s : string) : nat :=
  match s with
  | EmptyString => O
  | String c rest =>
      if Ascii.eqb c (ascii_of_nat 10) then S (count_nl rest) else count_nl rest
  end.

(** The positional arguments of a command line: those that do not start
    with a dash and are not the value that follows [-o]. *)
Fixpoint positionals (args : list string) : list string :=
  match args with
  | [] => []
  | arg :: rest =>
      if (arg =? "-o")%string then
        match rest with
        | _ :: rest' => positionals rest'
        | [] => []
        end
      else if first_is_not_dash arg then arg :: positionals rest
      else positionals rest
  end.

(** Arguments each of which is a recognized option ([-o] together with the
    argument after it, which is its value whatever it is) or a positional
    argument. *)
Fixpoint passed_over (args : list string) : bool :=
  match args with
  | [] => true
  | arg :: rest =>
      if (arg =? "-o")%string then
        match rest with
        | _ :: rest' => passed_over rest'
        | [] => false
        end
      else
        ((arg =? "-v")%string || (arg =? "--check-only")%string
         || (arg =? "--json")%string || first_is_not_dash arg)
        && passed_over rest
  end.

(** A flag the argument loop has no case for. *)
Definition unrecognized (arg : string) : bool :=
  negb (first_is_not_dash arg)
  && negb (arg =? "-h")%string && negb (arg =? "--help")%string
  && negb (arg =? "-v")%string && negb (arg =? "--check-only")%string
  && negb (arg =? "--json")%string && negb (arg =? "-o")%string.

(** ** A concrete platform for running the model on examples

    Paths in the generic format with [/] as the only separator.  [show_double]
    prints integral values as [operator<<] does below 10^6; the examples use
    no other value. *)

Module Sample.

Fixpoint has (x : ascii) (s : string) : bool :=
  match s with
  | EmptyString => false
  | String c rest => Ascii.eqb c x || has x rest
  end.

Fixpoint filename (s : string) : string :=
  match s with
  | EmptyString => EmptyString
  | String _ rest => if has "/"%char s then filename rest else s
  end.

Fixpoint remove_filename (s : string) : string :=
  match s with
  | EmptyString => EmptyString
  | String c rest =>
      if has "/"%char s then String c (remove_filename rest) else EmptyString
  end.

Definition parent_path (s : string) : string :=
  let d := remove_filename s in
  if (d =? "/")%string then d
  else String.substring 0 (String.length d - 1) d.

Fixpoint from_last_dot (s : string) : string :=
  match s with
  | EmptyString => EmptyString
  | String c rest =>
      if has "."%char rest then from_last_dot rest
      else if Ascii.eqb c "."%char then s else EmptyString
  end.

Definition extension (s : string) : string :=
  let f := filename s in
  if (f =? ".")%string || (f =? "..")%string then EmptyString
  else match f with
       | EmptyString => EmptyString
       | String _ rest => from_last_dot rest
       end.

Definition replace_extension (s ext : string) : string :=
  String.substring 0 (String.length s - String.length (extension s)) s ++ ext.

Definition is_relative (s : string) : bool :=
  match s with
  | String c _ => negb (Ascii.eqb c "/"%char)
  | EmptyString => true
  end.

Definition append (a b : string) : string :=
  if negb (is_relative b) then b
  else if empty a || has "/"%char (String.substring (String.length a - 1) 1 a)
  then a ++ b
  else a ++ "/" ++ b.

Definition platform (sdk : bool) : Platform :=
  {| path := string;
     path_of_string := fun s => s;
     path_of_wstring := narrow;
     path_string := fun p => p;
     path_is_relative := is_relative;
     path_append := append;
     path_filename := filename;
     path_remove_filename := remove_filename;
     path_parent_path := parent_path;
     path_extension := extension;
     path_replace_extension := replace_extension;
     show_double := fun q => show_int (Qnum q / Zpos (Qden q));
     macro_DATE := "Jan  1 2025";
     macro_TIME := "00:00:00";
     CSPRO_SDK_AVAILABLE := sdk |}.

(** A run in which every external call answers as given, the file system
    has every file and opens every stream. *)
Definition environment (P : Platform) (bootstrap open : outcome unit)
  (load : outcome bool) (messages : list ParserMessage) : Environment :=
  {| AfxGetApp := false;
     AfxWinInit := bootstrap;
     SystemMessages_LoadMessages := Normal tt;
     Application_new := Normal tt;
     Versioning_SetCompiledLogicVersion := Normal tt;
     fs_current_path := Normal tt;
     fs_canonical := fun p => Normal p;
     fs_set_current_path := fun _ => Normal tt;
     Application_Open := fun _ => open;
     Application_LogicSettings := Normal tt;
     BuildApplication := Normal tt;
     CSourceCode_new := Normal tt;
     CSourceCode_Load := load;
     Application_SetAppSrcCode := Normal tt;
     CCompiler_new := Normal tt;
     CCompiler_FullCompile := Normal tt;
     GetParserMessages := Normal messages;
     clock_elapsed_ms := 0%Q;
     fs_exists := fun _ => Normal true;
     ofstream_is_open := fun _ => true;
     indeterminate_line := 0;
     indeterminate_column := 0 |}.

(** A freshly started process in directory [d]. *)
Definition process (P : Platform) (d : path) : World :=
  {| cwd := d; locale_user_default := false; mbcp_locale := false;
     AfxWinInit_calls := 0; LoadMessages_calls := 0; stdout := ""; stderr := "";
     opened := []; written := [] |}.

Definition options (f : string) : CompilerOptions :=
  {| inputFile := f; outputDirectory := ""; checkSyntaxOnly := false;
     verboseOutput := false; generateDebugInfo := true |}.

End Sample.

(** ** Reading JSON text (RFC 8259)

    The reader against which the output of [outputJson] is judged.  It is
    not part of the program: it follows the grammar of the RFC and takes
    the text as UTF-8 (section 8.1), so a byte sequence that is not
    well-formed UTF-8 is a syntax error.  Numbers are kept as the text that
    denotes them; a [\u] escape is stored in UTF-8. *)

Module Json.

#[local] Set Warnings "-register-all".

Inductive value :=
  | Null
  | Bool (b : bool)
  | Number (text : string)
  | Str (s : string)
  | Array (elements : list value)
  | Object (members : list (string * value)).

Inductive read (A : Type) :=
  | Read (a : A) (rest : list ascii)
  | SyntaxError
  | OutOfFuel.
Arguments Read {A} a rest.
Arguments SyntaxError {A}.
Arguments OutOfFuel {A}.

Definition code (c : ascii) : N := N_of_ascii c.

Definition is_ws (c : ascii) : bool :=
  (code c =? 32)%N || (code c =? 9)%N || (code c =? 10)%N || (code c =? 13)%N.

Fixpoint skip_ws (s : list ascii) : list ascii :=
  match s with
  | c :: rest => if is_ws c then skip_ws rest else s
  | [] => []
  end.

Definition is_digit (c : ascii) : bool := (48 <=? code c)%N && (code c <=? 57)%N.

Definition hex (c : ascii) : option N :=
  let n := code c in
  if (48 <=? n)%N && (n <=? 57)%N then Some (n - 48)%N
  else if (65 <=? n)%N && (n <=? 70)%N then Some (n - 55)%N
  else if (97 <=? n)%N && (n <=? 102)%N then Some (n - 87)%N
  else None.

Definition hex4 (a b c d : ascii) : option N :=
  match hex a, hex b, hex c, hex d with
  | Some x, Some y, Some z, Some t => Some (((x * 16 + y) * 16 + z) * 16 + t)%N
  | _, _, _, _ => None
  end.

Definition utf8 (n : N) : list ascii :=
  if (n <? 128)%N then [ascii_of_N n]
  else if (n <? 2048)%N then
    [ascii_of_N (192 + n / 64); ascii_of_N (128 + n mod 64)]
  else
    [ascii_of_N (224 + n / 4096); ascii_of_N (128 + (n / 64) mod 64);
     ascii_of_N (128 + n mod 64)].

Definition simple_escape (c : ascii) : option ascii :=
  let n := code c in
  if (n =? 34)%N || (n =? 92)%N || (n =? 47)%N then Some c
  else if (n =? 98)%N then Some (ascii_of_N 8)
  else if (n =? 102)%N then Some (ascii_of_N 12)
  else if (n =? 110)%N then Some (ascii_of_N 10)
  else if (n =? 114)%N then Some (ascii_of_N 13)
  else if (n =? 116)%N then Some (ascii_of_N 9)
  else None.

(** Well-formed UTF-8 (RFC 3629, section 4): the bytes that may follow a
    lead byte above 127. *)
Definition continuation (c : ascii) : bool :=
  (128 <=? code c)%N && (code c <=? 191)%N.

Definition two_bytes (c c1 : ascii) : bool :=
  (194 <=? code c)%N && (code c <=? 223)%N && continuation c1.

Definition three_bytes (c c1 c2 : ascii) : bool :=
  ((code c =? 224)%N && (160 <=? code c1)%N && (code c1 <=? 191)%N
   || (225 <=? code c)%N && (code c <=? 236)%N && continuation c1
   || (code c =? 237)%N && (128 <=? code c1)%N && (code c1 <=? 159)%N
   || (238 <=? code c)%N && (code c <=? 239)%N && continuation c1)
  && continuation c2.

Definition four_bytes (c c1 c2 c3 : ascii) : bool :=
  ((code c =? 240)%N && (144 <=? code c1)%N && (code c1 <=? 191)%N
   || (241 <=? code c)%N && (code c <=? 243)%N && continuation c1
   || (code c =? 244)%N && (128 <=? code c1)%N && (code c1 <=? 143)%N)
  && continuation c2 && continuation c3.

(** The characters of a string after its opening quote, up to and
    including its closing quote.  A byte above 127 must start a
    well-formed UTF-8 sequence. *)
Fixpoint string_body (s : list ascii) : option (list ascii * list ascii) :=
  match s with
  | [] => None
  | c :: rest =>
      if (code c =? 34)%N then Some ([], rest)
      else if (code c =? 92)%N then
        match rest with
        | e :: rest' =>
            if (code e =? 117)%N then
              match rest' with
              | h1 :: h2 :: h3 :: h4 :: rest'' =>
                  match hex4 h1 h2 h3 h4, string_body rest'' with
                  | Some n, Some (body, r) => Some (utf8 n ++ body, r)
                  | _, _ => None
                  end
              | _ => None
              end
            else
              match simple_escape e, string_body rest' with
              | Some x, Some (body, r) => Some (x :: body, r)
              | _, _ => None
              end
        | [] => None
        end
      else if (code c <? 32)%N then None
      else if (code c <? 128)%N then
        match string_body rest with
        | Some (body, r) => Some (c :: body, r)
        | None => None
        end
      else
        match rest with
        | c1 :: rest1 =>
            if two_bytes c c1 then
              match string_body rest1 with
              | Some (body, r) => Some (c :: c1 :: body, r)
              | None => None
              end
            else
              match rest1 with
              | c2 :: rest2 =>
                  if three_bytes c c1 c2 then
                    match string_body rest2 with
                    | Some (body, r) => Some (c :: c1 :: c2 :: body, r)
                    | None => None
                    end
                  else
                    match rest2 with
                    | c3 :: rest3 =>
                        if four_bytes c c1 c2 c3 then
                          match string_body rest3 with
                          | Some (body, r) => Some (c :: c1 :: c2 :: c3 :: body, r)
                          | None => None
                          end
                        else None
                    | [] => None
                    end
              | [] => None
              end
        | [] => None
        end
  end.

Fixpoint digits (s : list ascii) : list ascii * list ascii :=
  match s with
  | c :: rest =>
      if is_digit c then let '(d, r) := digits rest in (c :: d, r) else ([], s)
  | [] => ([], [])
  end.

(** [int frac? exp?] after an optional minus sign. *)
Definition number (s : list ascii) : option (list ascii * list ascii) :=
  let '(sign, s) :=
    match s with
    | c :: rest => if (code c =? 45)%N then ([c], rest) else ([], s)
    | [] => ([], s)
    end in
  let '(int, s) := digits s in
  match int with
  | [] => None
  | d :: more =>
      if (code d =? 48)%N && negb (match more with [] => true | _ => false end)
      then None
      else
        let frac :=
          match s with
          | c :: rest =>
              if (code c =? 46)%N then
                match digits rest with
                | ([], _) => None
                | (f, r) => Some (c :: f, r)
                end
              else Some ([], s)
          | [] => Some ([], s)
          end in
        match frac with
        | None => None
        | Some (f, s) =>
            let exp :=
              match s with
              | c :: rest =>
                  if (code c =? 101)%N || (code c =? 69)%N then
                    let '(sg, rest) :=
                      match rest with
                      | g :: rest' =>
                          if (code g =? 43)%N || (code g =? 45)%N
                          then ([g], rest') else ([], rest)
                      | [] => ([], rest)
                      end in
                    match digits rest with
                    | ([], _) => None
                    | (x, r) => Some (c :: sg ++ x, r)
                    end
                  else Some ([], s)
              | [] => Some ([], s)
              end in
            match exp with
            | None => None
            | Some (x, r) => Some (sign ++ int ++ f ++ x, r)
            end
        end
  end.

Fixpoint literal (word s : list ascii) : option (list ascii) :=
  match word, s with
  | [], _ => Some s
  | w :: word', c :: rest => if Ascii.eqb w c then literal word' rest else None
  | _ :: _, [] => None
  end.

Fixpoint value_ (fuel : nat) (s : list ascii) : read value :=
  match fuel with
  | O => OutOfFuel
  | S fuel =>
      match skip_ws s with
      | [] => SyntaxError
      | c :: rest =>
          if (code c =? 123)%N then                       (* an object *)
            match skip_ws rest with
            | c' :: rest' =>
                if (code c' =? 125)%N then Read (Object []) rest'
                else
                  match members fuel (skip_ws rest) with
                  | Read ms r => Read (Object ms) r
                  | SyntaxError => SyntaxError
                  | OutOfFuel => OutOfFuel
                  end
            | [] => SyntaxError
            end
          else if (code c =? 91)%N then                   (* an array *)
            match skip_ws rest with
            | c' :: rest' =>
                if (code c' =? 93)%N then Read (Array []) rest'
                else
                  match elements fuel rest with
                  | Read vs r => Read (Array vs) r
                  | SyntaxError => SyntaxError
                  | OutOfFuel => OutOfFuel
                  end
            | [] => SyntaxError
            end
          else if (code c =? 34)%N then
            match string_body rest with
            | Some (body, r) => Read (Str (string_of_list_ascii body)) r
            | None => SyntaxError
            end
          else if (code c =? 116)%N then
            match literal (list_ascii_of_string "true") (c :: rest) with
            | Some r => Read (Bool true) r
            | None => SyntaxError
            end
          else if (code c =? 102)%N then
            match literal (list_ascii_of_string "false") (c :: rest) with
            | Some r => Read (Bool false) r
            | None => SyntaxError
            end
          else if (code c =? 110)%N then
            match literal (list_ascii_of_string "null") (c :: rest) with
            | Some r => Read Null r
            | None => SyntaxError
            end
          else
            match number (c :: rest) with
            | Some (text, r) => Read (Number (string_of_list_ascii text)) r
            | None => SyntaxError
            end
      end
  end

(** One or more values separated by commas, then the closing bracket. *)
with elements (fuel : nat) (s : list ascii) : read (list value) :=
  match fuel with
  | O => OutOfFuel
  | S fuel =>
      match value_ fuel s with
      | Read v r =>
          match skip_ws r with
          | c :: rest =>
              if (code c =? 93)%N then Read [v] rest
              else if (code c =? 44)%N then
                match elements fuel rest with
                | Read vs r' => Read (v :: vs) r'
                | SyntaxError => SyntaxError
                | OutOfFuel => OutOfFuel
                end
              else SyntaxError
          | [] => SyntaxError
          end
      | SyntaxError => SyntaxError
      | OutOfFuel => OutOfFuel
      end
  end

(** One or more [string : value] members separated by commas, then the
    closing brace; [s] starts at the opening quote of a name. *)
with members (fuel : nat) (s : list ascii) : read (list (string * value)) :=
  match fuel with
  | O => OutOfFuel
  | S fuel =>
      match s with
      | q :: s' =>
          if (code q =? 34)%N then
            match string_body s' with
            | Some (name, r) =>
                match skip_ws r with
                | colon :: r' =>
                    if (code colon =? 58)%N then
                      match value_ fuel r' with
                      | Read v r'' =>
                          match skip_ws r'' with
                          | c :: rest =>
                              if (code c =? 125)%N
                              then Read [(string_of_list_ascii name, v)] rest
                              else if (code c =? 44)%N then
                                match members fuel (skip_ws rest) with
                                | Read ms r3 =>
                                    Read ((string_of_list_ascii name, v) :: ms) r3
                                | SyntaxError => SyntaxError
                                | OutOfFuel => OutOfFuel
                                end
                              else SyntaxError
                          | [] => SyntaxError
                          end
                      | SyntaxError => SyntaxError
                      | OutOfFuel => OutOfFuel
                      end
                    else SyntaxError
                | [] => SyntaxError
                end
            | None => SyntaxError
            end
          else SyntaxError
      | [] => SyntaxError
      end
  end.

(** A JSON text is one value with nothing but white space after it.  Each
    recursive call consumes a character, so the length of the text bounds
    the fuel needed. *)
Definition parse (text : string) : read value :=
  let s := list_ascii_of_string text in
  match value_ (S (length s)) s with
  | Read v rest =>
      match skip_ws rest with
      | [] => Read v []
      | _ :: _ => SyntaxError
      end
  | SyntaxError => SyntaxError
  | OutOfFuel => OutOfFuel
  end.

Fixpoint member (name : string) (ms : list (string * value)) : option value :=
  match ms with
  | [] => None
  | (n, v) :: rest => if (n =? name)%string then Some v else member name rest
  end.

(** The ["severity"] of each element of the ["errors"] array, in order. *)
Definition severity_of (v : value) : option string :=
  match v with
  | Object ms =>
      match member "severity" ms with
      | Some (Str s) => Some s
      | _ => None
      end
  | _ => None
  end.

Fixpoint all_some {A} (l : list (option A)) : option (list A) :=
  match l with
  | [] => Some []
  | Some a :: rest =>
      match all_some rest with Some r => Some (a :: r) | None => None end
  | None :: _ => None
  end.

Definition severities (v : value) : option (list string) :=
  match v with
  | Object ms =>
      match member "errors" ms with
      | Some (Array es) => all_some (map severity_of es)
      | _ => None
      end
  | _ => None
  end.

End Json.

(** The severities a reader of the emitted JSON text sees, entry by
    entry; [None] when the text is not JSON or lacks the array. *)
Definition read_back {P : Platform} (result : CompilationResult)
  : option (list string) :=
  match Json.parse (json_text result) with
  | Json.Read v _ => Json.severities v
  | _ => None
  end.

(** ** The diagnostic test harness ([main] of the minimal MFC test) *)

Section Harness.

Context {P : Platform}.

Local Open Scope cxx_scope.

(** The [try] block of the test: announce, bootstrap, confirm. *)
Definition minimal_test_try_block (env : Environment) : M World flow :=
  modify (cerr ("About to initialize MFC..." ++ endl)) ;;
  (if negb (AfxGetApp env)
   then modify count_AfxWinInit ;; call (AfxWinInit env)
   else ret tt) ;;
  modify (cerr ("MFC initialized successfully!" ++ endl)) ;;
  ret FallThrough.

(** [int main()] of the minimal test. *)
Definition minimal_test_main (env : Environment) : M World Z :=
  modify (cerr ("Starting minimal test..." ++ endl)) ;;
  fl <- try_catch
          (minimal_test_try_block env)
          (fun e =>
             match e with
             | std_exception what_ =>
                 modify (cerr ("Exception: " ++ what_ ++ endl)) ;; ret Return
             | other_exception =>
                 modify (cerr ("Unknown exception!" ++ endl)) ;; ret Return
             end) ;;
  match fl with
  | Return => ret 1
  | FallThrough =>
      modify (cerr ("Test completed successfully!" ++ endl)) ;; ret 0
  end.

(** A run in which the engine bootstraps, every step of [compile] returns
    normally, the source text loads and the compiler session holds
    [msgs]. *)
Definition runs_through (env : Environment) (msgs : list ParserMessage) : Prop :=
  CSPRO_SDK_AVAILABLE = true
  /\ (AfxGetApp env = true \/ AfxWinInit env = Normal tt)
  /\ Application_new env = Normal tt
  /\ Versioning_SetCompiledLogicVersion env = Normal tt
  /\ fs_current_path env = Normal tt
  /\ (forall p, exists d, fs_canonical env p = Normal d)
  /\ (forall p, fs_set_current_path env p = Normal tt)
  /\ (forall p, Application_Open env p = Normal tt)
  /\ Application_LogicSettings env = Normal tt
  /\ BuildApplication env = Normal tt
  /\ CSourceCode_new env = Normal tt
  /\ CSourceCode_Load env = Normal true
  /\ Application_SetAppSrcCode env = Normal tt
  /\ CCompiler_new env = Normal tt
  /\ CCompiler_FullCompile env = Normal tt
  /\ GetParserMessages env = Normal msgs.

End Harness.

(** The options the driver hands to the engine. *)
Definition driver_options (c : CSProCommandLineCompiler) : CompilerOptions :=
  {| inputFile := cl_inputFile c;
     outputDirectory := outputDirectory CompilerOptions_default;
     checkSyntaxOnly := checkOnly c;
     verboseOutput := verboseMode c;
     generateDebugInfo := generateDebugInfo CompilerOptions_default |}.

(** What the driver announces on the standard output before it touches
    the engine. *)
Definition announcement (c : CSProCommandLineCompiler) : string :=
  if verboseMode c then
    "Compiling: " ++ cl_inputFile c ++ endl
      ++ (if checkOnly c then "Mode: Syntax check only" ++ endl else "")
  else "".

(** The extension test of [validateInputFile]. *)
Definition accepted_extension (ext : string) : bool :=
  (ext =? ".ent")%string || (ext =? ".bch")%string || (ext =? ".pff")%string.

(** ** Reading the options off a command line *)

(** Whether [flag] stands on the command line as an argument of its own,
    not as the value that follows [-o]. *)
Fixpoint switch_given (flag : string) (args : list string) : bool :=
  match args with
  | [] => false
  | arg :: rest =>
      if (arg =? "-o")%string then
        match rest with
        | _ :: rest' => switch_given flag rest'
        | [] => false
        end
      else (arg =? flag)%string || switch_given flag rest
  end.

(** The values given to [-o], in order. *)
Fixpoint output_values (args : list string) : list string :=
  match args with
  | [] => []
  | arg :: rest =>
      if (arg =? "-o")%string then
        match rest with
        | value :: rest' => value :: output_values rest'
        | [] => []
        end
      else output_values rest
  end.

(** The message types of a compiler session that are errors. *)
Definition is_Type_Error (m : ParserMessage) : bool :=
  match type m with Type_Error => true | _ => false end.

(** ** Strings that the JSON renderer emits correctly *)

(** A byte that may stand unescaped inside a JSON string. *)
Definition json_safe_char (c : ascii) : bool :=
  (32 <=? Json.code c)%N && negb (Json.code c =? 34)%N
  && negb (Json.code c =? 92)%N.

(** Well-formed UTF-8: every byte above 127 starts or continues a sequence
    of the table of RFC 3629. *)
Fixpoint well_formed_utf8 (s : list ascii) : bool :=
  match s with
  | [] => true
  | c :: rest =>
      if (Json.code c <? 128)%N then well_formed_utf8 rest
      else
        match rest with
        | c1 :: rest1 =>
            if Json.two_bytes c c1 then well_formed_utf8 rest1
            else
              match rest1 with
              | c2 :: rest2 =>
                  if Json.three_bytes c c1 c2 then well_formed_utf8 rest2
                  else
                    match rest2 with
                    | c3 :: rest3 =>
                        if Json.four_bytes c c1 c2 c3 then well_formed_utf8 rest3
                        else false
                    | [] => false
                    end
              | [] => false
              end
        | [] => false
        end
  end.

(** A string that may stand between quotes as it is: UTF-8 text without a
    double quote, a backslash or a control character. *)
Definition json_safe (s : string) : bool :=
  forallb json_safe_char (list_ascii_of_string s)
  && well_formed_utf8 (list_ascii_of_string s).

(** White space only. *)
Definition ws (w : list ascii) : Prop := forallb Json.is_ws w = true.

(** A text that is read as a number when it stands after one blank and
    before a comma, as every number of the rendered object does. *)
Definition number_token (t : string) : Prop :=
  forall (f : nat) (sp c : ascii) (rest : list ascii),
    Json.is_ws sp = true -> Json.code c = 44%N ->
    Json.value_ (S f) (sp :: list_ascii_of_string t ++ c :: rest)%list
      = Json.Read (Json.Number t) (c :: rest).

(** ** Concrete runs used as examples *)

(** An engine that was never initialized, in a process started in
    directory [d]. *)
Definition fresh_machine (P : Platform) (d : path) : Machine :=
  {| self := CSProEngineImpl_new; world := Sample.process P d |}.

(** A run with the SDK in which [Application::Open] rejects the file. *)
Definition env_Open_throws : Environment (P := Sample.platform true) :=
  Sample.environment (Sample.platform true) (Normal tt)
    (Throws (std_exception "Invalid application file")) (Normal true) [].

(** A run with the SDK in which [CSourceCode::Load] fails. *)
Definition env_Load_fails : Environment (P := Sample.platform true) :=
  Sample.environment (Sample.platform true) (Normal tt) (Normal tt)
    (Normal false) [].

(** A run of a build without the SDK. *)
Definition env_no_sdk : Environment (P := Sample.platform false) :=
  Sample.environment (Sample.platform false) (Normal tt) (Normal tt)
    (Normal true) [].

(** A run with the SDK in which the runtime bootstrap throws. *)
Definition env_bootstrap_throws : Environment (P := Sample.platform true) :=
  Sample.environment (Sample.platform true) (Throws other_exception)
    (Normal tt) (Normal true) [].

(** A run with the SDK in which the compiler reports an error in
    procedure [QUEST] and a deprecation in an included unit. *)
Definition env_two_messages : Environment (P := Sample.platform true) :=
  Sample.environment (Sample.platform true) (Normal tt) (Normal tt) (Normal true)
    [ {| line_number := 14; position_in_line := 7; type := Type_Error;
         message_text := widen "Invalid symbol: AGE2";
         what := "Logic - Parser Message";
         proc_name := widen "QUEST"; compilation_unit_name := [] |};
      {| line_number := 3; position_in_line := 0; type := Type_DeprecationMinor;
         message_text := [];
         what := "Function is deprecated";
         proc_name := []; compilation_unit_name := widen "shared.apc" |} ].

(** The driver as [app.ent] alone on the command line configures it. *)
Definition compiler_for (f : string) : CSProCommandLineCompiler :=
  setInputFile f CSProCommandLineCompiler_new.

(** A result whose only diagnostic quotes a keyword in its message. *)
Definition result_with_quote : CompilationResult :=
  {| success := false; errorCount := 1; warningCount := 0;
     diagnostics :=
       [ {| file := "app.ent"; line := 3; column := 9;
            message := "Expected " ++ dquote ++ "endif" ++ dquote;
            procName := "QUEST"; severity := Error |} ];
     compiledOutput := ""; compilationTimeMs := 0%Q |}.

(** A result whose only diagnostic names its file by a Windows path. *)
Definition result_with_backslash : CompilationResult :=
  {| success := false; errorCount := 1; warningCount := 0;
     diagnostics :=
       [ {| file := "C:\census\app.ent"; line := 3; column := 9;
            message := "Invalid symbol"; procName := "QUEST";
            severity := Error |} ];
     compiledOutput := ""; compilationTimeMs := 0%Q |}.

(** A result with an error and a warning in plain words. *)
Definition result_plain : CompilationResult :=
  {| success := false; errorCount := 1; warningCount := 1;
     diagnostics :=
       [ {| file := "app.ent"; line := 3; column := 9;
            message := "Invalid symbol"; procName := "QUEST";
            severity := Error |};
         {| file := "shared.apc"; line := 0; column := 0;
            message := "Function is deprecated"; procName := "";
            severity := Warning |} ];
     compiledOutput := ""; compilationTimeMs := 0%Q |}.

(** A run with the SDK in which the compiler reports nothing. *)
Definition env_no_messages : Environment (P := Sample.platform true) :=
  Sample.environment (Sample.platform true) (Normal tt) (Normal tt)
    (Normal true) [].

(** A run in which the file system cannot tell whether the input file
    exists: [std::filesystem::exists] throws. *)
Definition env_exists_throws : Environment (P := Sample.platform true) :=
  let env := env_no_messages in
  {| AfxGetApp := AfxGetApp env;
     AfxWinInit := AfxWinInit env;
     SystemMessages_LoadMessages := SystemMessages_LoadMessages env;
     Application_new := Application_new env;
     Versioning_SetCompiledLogicVersion := Versioning_SetCompiledLogicVersion env;
     fs_current_path := fs_current_path env;
     fs_canonical := fs_canonical env;
     fs_set_current_path := fs_set_current_path env;
     Application_Open := Application_Open env;
     Application_LogicSettings := Application_LogicSettings env;
     BuildApplication := BuildApplication env;
     CSourceCode_new := CSourceCode_new env;
     CSourceCode_Load := CSourceCode_Load env;
     Application_SetAppSrcCode := Application_SetAppSrcCode env;
     CCompiler_new := CCompiler_new env;
     CCompiler_FullCompile := CCompiler_FullCompile env;
     GetParserMessages := GetParserMessages env;
     clock_elapsed_ms := clock_elapsed_ms env;
     fs_exists := fun _ => Throws (std_exception "filesystem error: status: Access is denied");
     ofstream_is_open := ofstream_is_open env;
     indeterminate_line := indeterminate_line env;
     indeterminate_column := indeterminate_column env |}.

(** A result whose only diagnostic carries the byte 233 alone, as the
    adapter's truncation leaves it of the letter U+00E9. *)
Definition result_with_lone_byte : CompilationResult :=
  {| success := false; errorCount := 1; warningCount := 0;
     diagnostics :=
       [ {| file := "app.ent"; line := 3; column := 9;
            message := narrow (widen "Invalid symbol: " ++ [233%N]);
            procName := "QUEST"; severity := Error |} ];
     compiledOutput := ""; compilationTimeMs := 0%Q |}.

(** The result a call returned, and the messages a run holds. *)
Definition returned (o : outcome CompilationResult) : CompilationResult :=
  match o with Normal r => r | Throws _ => CompilationResult_default end.

Definition messages_of {P : Platform} (env : Environment) : list ParserMessage :=
  match GetParserMessages env with Normal msgs => msgs | Throws _ => [] end.

(** The run of [compile] on a fresh engine in [/home/user] that the
    examples share. *)
Definition example_compile (env : Environment (P := Sample.platform true))
  : outcome CompilationResult * Machine :=
  compile env (Sample.options "/projects/census/app.ent")
    (fresh_machine (Sample.platform true) "/home/user").

(** * Properties *)

(** ** The engine adapter *)

Section Adapter.

Context {P : Platform}.

Ltac unfold_cxx :=
  unfold compile, compile_body, try_block, catch_clauses, current_path,
    set_current_path, on_result, on_machine, initialize, shutdown, on_world,
    on_self, zoom, try_catch, bind, ret, get, modify, call in *;
  cbn in *.

Ltac innermost x :=
  lazymatch x with
  | context [match _ with _ => _ end] => fail
  | _ => idtac
  end.

Ltac case_split :=
  repeat match goal with
         | |- context [match ?x with _ => _ end] =>
             innermost x; destruct x eqn:?; cbn in *
         | H : context [match ?x with _ => _ end] |- _ =>
             innermost x; destruct x eqn:?; cbn in *
         end.

(** [initialize] never throws; it reports success exactly when it leaves
    the engine initialized, it leaves an engine it could not initialize as
    it was, it sets locale and code page, and it never moves the working
    directory. *)
Lemma initialize_returns (env : Environment) (m : Machine) :
  exists b m',
    initialize env m = (Normal b, m')
    /\ m_initialized (self m') = b
    /\ (b = false -> self m' = self m)
    /\ locale_user_default (world m') = true
    /\ mbcp_locale (world m') = true
    /\ cwd (world m') = cwd (world m)
    /\ opened (world m') = opened (world m)
    /\ written (world m') = written (world m).
Proof.
  destruct m as [[i a c] w]. unfold_cxx. case_split;
    eexists; eexists; (split; [reflexivity |]); cbn;
    repeat split; try reflexivity; intros; discriminate.
Qed.

(** On an initialized engine [initialize] only repeats the two locale
    settings. *)
Lemma initialize_initialized (env : Environment) (m : Machine) :
  m_initialized (self m) = true ->
  initialize env m
    = (Normal true,
       {| self := self m;
          world := setmbcp_MB_CP_LOCALE (setlocale_LC_ALL (world m)) |}).
Proof.
  destruct m as [[i a c] w]. cbn. intros ->. reflexivity.
Qed.

(** Whether [initialize] succeeds depends on the engine flag and on the
    answers of the environment only. *)
Lemma initialize_outcome (env : Environment) (m m2 : Machine) :
  m_initialized (self m) = m_initialized (self m2) ->
  fst (initialize env m) = fst (initialize env m2).
Proof.
  destruct m as [[i a c] w], m2 as [[i2 a2 c2] w2]. cbn. intros ->.
  unfold_cxx. case_split; reflexivity.
Qed.

(** The loop appends the translated messages in order and advances each
    counter by the number of messages of its kind. *)
Lemma drain_spec (options : CompilerOptions) (msgs : list ParserMessage)
  (r : CompilationResult) :
  diagnostics (drain options msgs r)
    = diagnostics r ++ map (translate options) msgs
  /\ errorCount (drain options msgs r)
       = errorCount r + count is_Error (map (translate options) msgs)
  /\ warningCount (drain options msgs r)
       = warningCount r + count is_Warning (map (translate options) msgs)
  /\ success (drain options msgs r) = success r
  /\ compiledOutput (drain options msgs r) = compiledOutput r.
Proof.
  unfold drain. revert r.
  induction msgs as [| pm msgs IH]; intros r; cbn [fold_left map].
  - unfold count; cbn. rewrite app_nil_r. repeat split; lia.
  - destruct (IH (drain_one options r pm)) as (Hd & He & Hw & Hs & Ho).
    rewrite Hd, He, Hw, Hs, Ho. unfold drain_one, count, is_Error, is_Warning.
    destruct pm as [ln pos ty txt wh pn cu]; destruct ty; cbn;
      rewrite <- app_assoc; cbn; repeat split; lia.
Qed.

(** The three shapes a returned result can have: the drained messages
    with exact counters; one synthetic [Error] entry with both counters
    left at zero; or, in a build without the SDK entered with an engine
    already marked initialized, nothing at all. *)
Lemma compile_result_shape (env : Environment) (options : CompilerOptions)
  (m : Machine) :
  exists r m',
    compile env options m = (Normal r, m')
    /\ ((exists msgs,
           GetParserMessages env = Normal msgs
           /\ diagnostics r = map (translate options) msgs
           /\ errorCount r = count is_Error (diagnostics r)
           /\ warningCount r = count is_Warning (diagnostics r)
           /\ success r = (errorCount r =? 0)%Z)
        \/ (exists d,
              diagnostics r = [d] /\ severity d = Error
              /\ errorCount r = 0 /\ warningCount r = 0 /\ success r = false)
        \/ (CSPRO_SDK_AVAILABLE = false /\ m_initialized (self m) = true
            /\ diagnostics r = [] /\ errorCount r = 0 /\ warningCount r = 0
            /\ success r = false)).
Proof.
  destruct m as [[[|] a c] w]; unfold_cxx; unfold conclude; case_split;
    eexists; eexists; (split; [reflexivity |]); cbn;
    try (right; left; eexists; cbn; repeat split; reflexivity);
    try (right; right; cbn; repeat split; reflexivity).
  all: left; eexists; split; [reflexivity |];
    match goal with
    | |- context [drain ?o ?l ?r] =>
        destruct (drain_spec o l r) as (Hd & He & Hw & Hs & Ho)
    end;
    cbn in *; rewrite ?Hd, ?He, ?Hw in *; cbn in *;
    repeat split; try reflexivity; try lia; auto.
Qed.

(** Whatever the [try] block had appended to [result] is still there when
    it throws; in fact it throws only before the first append. *)
Lemma try_block_throws_before_any_append (env : Environment)
  (options : CompilerOptions) (fr0 fr : Frame) (e : exception) :
  try_block env options fr0 = (Throws e, fr) -> result fr = result fr0.
Proof.
  destruct fr0 as [r0 [s0 w0]]. unfold_cxx. intros H. case_split;
    inversion H; subst; reflexivity.
Qed.

(** C4. [compile] never lets an exception reach its caller: every call
    returns a result.  When the engine is (or has just been) initialized
    and a step of the [try] block throws [e], the returned result holds
    exactly one diagnostic, a synthetic [Error] entry that describes [e]:
    its message is the text of [what()] after the prefix [Exception: ] for
    a [std::exception] and the fixed text [Unknown exception during
    compilation] for anything else, its file is the input file, its
    position is 0:0 and its procedure name is empty; and [success] is
    false. *)
Theorem compile_absorbs_every_failure (env : Environment)
  (options : CompilerOptions) (m : Machine) :
  (exists r m', compile env options m = (Normal r, m'))
  /\ (forall e fr,
        CSPRO_SDK_AVAILABLE = true ->
        let m1 := if m_initialized (self m) then m else snd (initialize env m) in
        m_initialized (self m1) = true ->
        try_block env options
          {| result := CompilationResult_default; machine := m1 |}
          = (Throws e, fr) ->
        exists r d,
          compile env options m = (Normal r, machine fr)
          /\ diagnostics r = [d]
          /\ message d
             = match e with
               | std_exception what_ => ("Exception: " ++ what_)%string
               | other_exception => "Unknown exception during compilation"
               end
          /\ file d = inputFile options
          /\ line d = 0 /\ column d = 0 /\ procName d = ""
          /\ severity d = Error
          /\ success r = false).
Proof.
  split.
  - destruct (compile_result_shape env options m) as (r & m' & H & _).
    exists r, m'. exact H.
  - intros e fr Hsdk m1 Hinit Htry.
    pose proof (try_block_throws_before_any_append _ _ _ _ _ Htry) as Hres.
    cbn in Hres.
    assert (Hentry :
      (if negb (m_initialized (self m))
       then on_machine (initialize env)
       else ret true)
        {| result := CompilationResult_default; machine := m |}
      = (Normal true, {| result := CompilationResult_default; machine := m1 |})).
    { subst m1. destruct (m_initialized (self m)) eqn:Hi; cbn [negb].
      - reflexivity.
      - destruct (initialize_returns env m) as (b & m' & Hinit' & Hb & _).
        unfold on_machine, zoom. cbn [machine]. rewrite Hinit' in *.
        cbn [snd result] in *. congruence. }
    unfold compile, compile_body, bind, get. cbv beta. cbn [machine].
    rewrite Hentry. cbn [negb]. rewrite Hsdk.
    unfold try_catch. rewrite Htry.
    destruct fr as [r1 m2]. cbn in Hres. subst r1.
    eexists. eexists. split; [reflexivity |]. cbn.
    split; [reflexivity |]. destruct e; repeat split.
Qed.

(** X1. The warning counter is exact on every path. *)
Lemma compile_warningCount_exact (env : Environment) (options : CompilerOptions)
  (m m' : Machine) (r : CompilationResult) :
  compile env options m = (Normal r, m') ->
  warningCount r = count is_Warning (diagnostics r).
Proof.
  intros H. destruct (compile_result_shape env options m) as (r0 & m0 & H0 & Hs).
  rewrite H in H0. inversion H0; subst r0 m0.
  destruct Hs as [(msgs & _ & _ & _ & Hw & _) | [(d & Hd & Hsev & _ & Hw & _) | Hs]].
  - exact Hw.
  - rewrite Hw, Hd. unfold count, is_Warning. cbn. rewrite Hsev. reflexivity.
  - destruct Hs as (_ & _ & Hd & _ & Hw & _). rewrite Hw, Hd. reflexivity.
Qed.

(** X2. A successful result has no [Error] entry and an error counter of
    zero. *)
Lemma compile_success_counts (env : Environment) (options : CompilerOptions)
  (m m' : Machine) (r : CompilationResult) :
  compile env options m = (Normal r, m') ->
  success r = true ->
  errorCount r = 0 /\ count is_Error (diagnostics r) = 0.
Proof.
  intros H Hok. destruct (compile_result_shape env options m) as (r0 & m0 & H0 & Hs).
  rewrite H in H0. inversion H0; subst r0 m0.
  destruct Hs as [(msgs & _ & _ & He & _ & Hs) | [(d & _ & _ & _ & _ & Hs) | Hs]].
  - rewrite Hok in Hs. symmetry in Hs. apply Z.eqb_eq in Hs. lia.
  - congruence.
  - destruct Hs as (_ & _ & _ & _ & _ & Hs). congruence.
Qed.

(** X3. In a build with the SDK, [success] says exactly that no entry of
    [diagnostics] is an [Error]. *)
Lemma compile_success_iff_no_Error (env : Environment) (options : CompilerOptions)
  (m m' : Machine) (r : CompilationResult) :
  CSPRO_SDK_AVAILABLE = true ->
  compile env options m = (Normal r, m') ->
  (success r = true <-> count is_Error (diagnostics r) = 0).
Proof.
  intros Hsdk H.
  destruct (compile_result_shape env options m) as (r0 & m0 & H0 & Hs).
  rewrite H in H0. inversion H0; subst r0 m0.
  destruct Hs as [(msgs & _ & _ & He & _ & Hs) | [(d & Hd & Hsev & _ & _ & Hs) | Hs]].
  - rewrite Hs, <- He. apply Z.eqb_eq.
  - rewrite Hs, Hd. unfold count, is_Error. cbn. rewrite Hsev. cbn.
    split; intros; discriminate.
  - destruct Hs as (Hno & _). congruence.
Qed.

(** X4. The working directory is back at its original value whenever the
    three steps between the two directory changes return normally. *)
Lemma compile_restores_cwd (env : Environment) (options : CompilerOptions)
  (m : Machine) :
  (forall p, Application_Open env p = Normal tt) ->
  Application_LogicSettings env = Normal tt ->
  (forall p, fs_set_current_path env p = Normal tt) ->
  cwd (world (snd (compile env options m))) = cwd (world m).
Proof.
  intros Hopen Hset Hcd. destruct m as [[[|] a c] w]; unfold_cxx;
    rewrite ?Hopen, ?Hset, ?Hcd; cbn; case_split; try reflexivity;
    rewrite ?Hopen, ?Hset, ?Hcd in *; cbn in *; case_split;
    try reflexivity; try discriminate.
Qed.

(** [compile] opens and writes no file. *)
Lemma compile_frame (env : Environment) (options : CompilerOptions) (m : Machine) :
  opened (world (snd (compile env options m))) = opened (world m)
  /\ written (world (snd (compile env options m))) = written (world m).
Proof.
  destruct m as [[i a c] w]. unfold_cxx. case_split; cbn; auto.
Qed.

(** C8. A call of [initialize] on an initialized engine returns success,
    leaves the engine as it is and performs neither the runtime bootstrap
    nor the message-catalog registration again; a second call right after a
    successful one changes nothing at all and succeeds whatever the
    environment would answer; and two calls in a row against the same
    environment end like a single one. *)
Theorem initialize_idempotent (env env' : Environment) (m : Machine) :
  (m_initialized (self m) = true ->
   exists w',
     initialize env m = (Normal true, {| self := self m; world := w' |})
     /\ AfxWinInit_calls w' = AfxWinInit_calls (world m)
     /\ LoadMessages_calls w' = LoadMessages_calls (world m)
     /\ cwd w' = cwd (world m) /\ stdout w' = stdout (world m)
     /\ stderr w' = stderr (world m) /\ opened w' = opened (world m)
     /\ written w' = written (world m))
  /\ (forall m1,
        initialize env m = (Normal true, m1) ->
        initialize env' m1 = (Normal true, m1))
  /\ (forall o m1,
        initialize env m = (o, m1) -> fst (initialize env m1) = o).
Proof.
  repeat split.
  - intros Hi. rewrite (initialize_initialized env m Hi).
    eexists. split; [reflexivity |]. destruct m as [s w]. cbn. repeat split.
  - intros m1 H.
    destruct (initialize_returns env m) as (b & m' & H' & Hb & _ & Hl & Hc & _).
    rewrite H in H'. injection H' as Eb Em.
    rewrite <- Em, <- Eb in *.
    rewrite (initialize_initialized env' m1 Hb).
    destruct m1 as [s [d l cp n1 n2 so se op wr]]. cbn in *. subst. reflexivity.
  - intros o m1 H.
    destruct (initialize_returns env m) as (b & m' & H' & Hb & Hself & _).
    rewrite H in H'. injection H' as Eo Em.
    rewrite <- Em in *. rewrite Eo. destruct b.
    + rewrite (initialize_initialized env m1 Hb). reflexivity.
    + rewrite (initialize_outcome env m1 m), H; [exact Eo |].
      rewrite Hself; reflexivity.
Qed.

End Adapter.

(** *** The adapter at concrete inputs *)

Lemma compile_absorbs_every_failure_witness :
  let P := Sample.platform true in
  let options := Sample.options "/projects/census/app.ent" in
  let m := fresh_machine P "/home/user" in
  let e := std_exception "Invalid application file" in
  let fr :=
    snd (try_block env_Open_throws options
           {| result := CompilationResult_default;
              machine := snd (initialize env_Open_throws m) |}) in
  exists r d,
    compile env_Open_throws options m = (Normal r, machine fr)
    /\ diagnostics r = [d]
    /\ message d = "Exception: Invalid application file"
    /\ file d = "/projects/census/app.ent"
    /\ line d = 0 /\ column d = 0 /\ procName d = ""
    /\ severity d = Error
    /\ success r = false.
Proof.
  cbv zeta.
  apply (proj2 (compile_absorbs_every_failure (P := Sample.platform true)
                  env_Open_throws
                  (Sample.options "/projects/census/app.ent")
                  (fresh_machine (Sample.platform true) "/home/user"))
           (std_exception "Invalid application file"));
    vm_compute; reflexivity.
Defined.

Lemma initialize_idempotent_witness :
  let P := Sample.platform true in
  let m := fresh_machine P "/home/user" in
  let m1 := snd (initialize env_Open_throws m) in
  m_initialized (self m1) = true
  /\ initialize env_Open_throws m = (Normal true, m1)
  /\ initialize env_Load_fails m1 = (Normal true, m1)
  /\ fst (initialize env_Open_throws m1) = Normal true
  /\ AfxWinInit_calls (world m1) = 1%nat
  /\ (exists w',
        initialize env_bootstrap_throws m1
          = (Normal true, {| self := self m1; world := w' |})
        /\ AfxWinInit_calls w' = 1%nat /\ LoadMessages_calls w' = 1%nat).
Proof.
  cbv zeta. split; [vm_compute; reflexivity |].
  split; [vm_compute; reflexivity |]. split.
  - apply (proj1 (proj2 (initialize_idempotent (P := Sample.platform true)
                           env_Open_throws env_Load_fails
                           (fresh_machine (Sample.platform true) "/home/user")))).
    vm_compute; reflexivity.
  - split.
    + apply (proj2 (proj2 (initialize_idempotent (P := Sample.platform true)
                             env_Open_throws env_Load_fails
                             (fresh_machine (Sample.platform true) "/home/user")))).
      vm_compute; reflexivity.
    + split; [vm_compute; reflexivity |].
      destruct (proj1 (initialize_idempotent (P := Sample.platform true)
                         env_bootstrap_throws env_Load_fails
                         (snd (initialize env_Open_throws
                                 (fresh_machine (Sample.platform true) "/home/user"))))
                  eq_refl)
        as (w' & Hcall & Hafx & Hload & _).
      exists w'. split; [exact Hcall |]. split; [exact Hafx | exact Hload].
Defined.

(** C1. When the source text cannot be loaded, [compile] returns a result
    whose only diagnostic is an [Error] while [errorCount] is still 0: the
    synthetic entry is appended without the counter being incremented. *)
Theorem compile_Load_failure_leaves_errorCount_zero :
  let P := Sample.platform true in
  let options := Sample.options "/projects/census/app.ent" in
  exists r m',
    compile env_Load_fails options (fresh_machine P "/home/user") = (Normal r, m')
    /\ diagnostics r = [Failed_to_load options]
    /\ count is_Error (diagnostics r) = 1
    /\ errorCount r = 0
    /\ warningCount r = count is_Warning (diagnostics r).
Proof.
  cbv zeta. eexists. eexists. split; [vm_compute; reflexivity |].
  vm_compute. repeat split.
Qed.

(** C2. When the engine cannot be initialized - the runtime bootstrap
    throws in a build with the SDK, or the build has no SDK at all -
    [compile] returns a result with [success] false and [errorCount] 0, so
    [success] is not equivalent to [errorCount == 0]. *)
Theorem compile_failure_with_errorCount_zero :
  let options := Sample.options "/projects/census/app.ent" in
  (exists r m',
      compile env_bootstrap_throws options
        (fresh_machine (Sample.platform true) "/home/user") = (Normal r, m')
      /\ diagnostics r = [Failed_to_initialize]
      /\ success r = false
      /\ errorCount r = 0)
  /\ (exists r m',
        compile env_no_sdk options
          (fresh_machine (Sample.platform false) "/home/user") = (Normal r, m')
        /\ diagnostics r = [Failed_to_initialize]
        /\ success r = false
        /\ errorCount r = 0).
Proof.
  cbv zeta. split; eexists; eexists; (split; [vm_compute; reflexivity |]);
    vm_compute; repeat split.
Qed.

(** C3. When [Application::Open] throws, control leaves the [try] block
    between the two directory changes: [compile] returns with the process
    still in the directory of the input file. *)
Theorem compile_Open_failure_leaves_cwd_changed :
  let P := Sample.platform true in
  let options := Sample.options "/projects/census/app.ent" in
  let m := fresh_machine P "/home/user" in
  exists r m',
    compile env_Open_throws options m = (Normal r, m')
    /\ cwd (world m) = "/home/user"
    /\ cwd (world m') = "/projects/census/"
    /\ cwd (world m') <> cwd (world m).
Proof.
  cbv zeta. eexists. eexists. split; [vm_compute; reflexivity |].
  vm_compute. repeat split. discriminate.
Qed.

(** ** The command line *)

Section CommandLine.

Context {P : Platform}.

(** A positional argument is none of the options. *)
Lemma positional_is_no_option (arg : string) :
  first_is_not_dash arg = true ->
  (arg =? "-h")%string = false /\ (arg =? "--help")%string = false
  /\ (arg =? "-v")%string = false /\ (arg =? "--check-only")%string = false
  /\ (arg =? "--json")%string = false /\ (arg =? "-o")%string = false.
Proof.
  destruct arg as [| c rest]; cbn; [repeat split |].
  intros H. apply negb_true_iff in H. rewrite H. repeat split.
Qed.

(** A positional argument replaces the stored input file and the loop
    goes on. *)
Lemma parse_arguments_positional (programName : string)
  (compiler : CSProCommandLineCompiler) (arg : string) (rest : list string) :
  first_is_not_dash arg = true ->
  parse_arguments programName compiler (arg :: rest)
    = parse_arguments programName (setInputFile arg compiler) rest.
Proof.
  intros H. destruct (positional_is_no_option arg H) as (H1 & H2 & H3 & H4 & H5 & H6).
  cbn [parse_arguments]. rewrite H1, H2, H3, H4, H5, H6, H. reflexivity.
Qed.

(** The last element of a non-empty list does not depend on the default. *)
Lemma last_nonempty {A} (l : list A) :
  forall (p d1 d2 : A), last (p :: l) d1 = last (p :: l) d2.
Proof.
  induction l as [| q l IH]; intros p d1 d2; [reflexivity |].
  change (last (q :: l) d1 = last (q :: l) d2). apply IH.
Qed.

(** Induction over an argument list in which one step may consume two
    arguments. *)
Lemma args_ind (Q : list string -> Prop) :
  Q [] ->
  (forall a, Q [a]) ->
  (forall a b l, Q l -> Q (b :: l) -> Q (a :: b :: l)) ->
  forall l, Q l.
Proof.
  intros H0 H1 H2.
  assert (H : forall l, Q l /\ forall a, Q (a :: l)).
  { induction l as [| b l [IHl IHbl]]; split; auto. }
  intros l. apply H.
Qed.

(** A loop that runs to the end of the arguments has printed nothing, and
    the stored input file is the last positional argument (or the one
    stored before, when there is none). *)
Lemma parse_arguments_configured (programName : string) (args : list string) :
  forall (compiler compiler' : CSProCommandLineCompiler) (w w' : World),
    parse_arguments programName compiler args w = (Normal (Configured compiler'), w') ->
    w' = w
    /\ cl_inputFile compiler' = last (positionals args) (cl_inputFile compiler).
Proof.
  induction args as [| a | a b l IHl IHbl] using args_ind; intros c c' w w'.
  - cbn. intros H; inversion H; auto.
  - cbn [parse_arguments positionals].
    destruct (String.eqb_spec a "-h") as [-> | ?]; [cbn; intros H; inversion H |].
    destruct (String.eqb_spec a "--help") as [-> | ?]; [cbn; intros H; inversion H |]. cbn [orb].
    destruct (String.eqb_spec a "-v") as [-> | ?]; [cbn; intros H; inversion H; auto |].
    destruct (String.eqb_spec a "--check-only") as [-> | ?]; [cbn; intros H; inversion H; auto |].
    destruct (String.eqb_spec a "--json") as [-> | ?]; [cbn; intros H; inversion H; auto |].
    destruct (String.eqb_spec a "-o") as [-> | ?]; [cbn; intros H; inversion H |].
    destruct (first_is_not_dash a); cbn; intros H; inversion H; auto.
  - assert (Hpos : positionals (a :: b :: l)
                   = if (a =? "-o")%string then positionals l
                     else if first_is_not_dash a then a :: positionals (b :: l)
                          else positionals (b :: l)) by reflexivity.
    rewrite Hpos. clear Hpos. cbn [parse_arguments].
    set (pl := positionals (b :: l)) in *.
    destruct (String.eqb_spec a "-h") as [-> | ?]; [cbn; intros H; inversion H |].
    destruct (String.eqb_spec a "--help") as [-> | ?]; [cbn; intros H; inversion H |].
    cbn [orb].
    destruct (String.eqb_spec a "-v") as [-> | ?];
      [intros H; apply IHbl in H; exact H |].
    destruct (String.eqb_spec a "--check-only") as [-> | ?];
      [intros H; apply IHbl in H; exact H |].
    destruct (String.eqb_spec a "--json") as [-> | ?];
      [intros H; apply IHbl in H; exact H |].
    destruct (String.eqb_spec a "-o") as [-> | ?];
      [intros H; apply IHl in H; exact H |].
    destruct (first_is_not_dash a) eqn:Ha.
    + intros H. apply IHbl in H. destruct H as [Hw Hf]. split; [exact Hw |].
      rewrite Hf. cbn [setInputFile cl_inputFile].
      destruct pl as [| p ps]; [reflexivity |].
      change (last (a :: p :: ps) (cl_inputFile c))
        with (last (p :: ps) (cl_inputFile c)).
      apply last_nonempty.
    + cbn. intros H; inversion H.
Qed.

(** What follows a prefix that the loop runs through is handled from the
    configuration the prefix leaves. *)
Lemma parse_arguments_app (programName : string) (pre rest : list string) :
  forall (compiler compiler' : CSProCommandLineCompiler) (w w' : World),
    parse_arguments programName compiler pre w = (Normal (Configured compiler'), w') ->
    parse_arguments programName compiler (pre ++ rest) w
      = parse_arguments programName compiler' rest w.
Proof.
  induction pre as [| a | a b l IHl IHbl] using args_ind; intros c c' w w'.
  - cbn. intros H; inversion H; reflexivity.
  - cbn [parse_arguments app].
    destruct (String.eqb_spec a "-h") as [-> | ?]; [cbn; intros H; inversion H |].
    destruct (String.eqb_spec a "--help") as [-> | ?]; [cbn; intros H; inversion H |]. cbn [orb].
    destruct (String.eqb_spec a "-v") as [-> | ?]; [cbn; intros H; inversion H; auto |].
    destruct (String.eqb_spec a "--check-only") as [-> | ?]; [cbn; intros H; inversion H; auto |].
    destruct (String.eqb_spec a "--json") as [-> | ?]; [cbn; intros H; inversion H; auto |].
    destruct (String.eqb_spec a "-o") as [-> | ?]; [cbn; intros H; inversion H |].
    destruct (first_is_not_dash a); cbn; intros H; inversion H; auto.
  - change ((a :: b :: l) ++ rest) with (a :: (b :: l) ++ rest).
    cbn [parse_arguments].
    destruct (String.eqb_spec a "-h") as [-> | ?]; [cbn; intros H; inversion H |].
    destruct (String.eqb_spec a "--help") as [-> | ?]; [cbn; intros H; inversion H |]. cbn [orb].
    destruct (String.eqb_spec a "-v") as [-> | ?]; [apply IHbl |].
    destruct (String.eqb_spec a "--check-only") as [-> | ?]; [apply IHbl |].
    destruct (String.eqb_spec a "--json") as [-> | ?]; [apply IHbl |].
    destruct (String.eqb_spec a "-o") as [-> | ?]; [cbn [app]; apply IHl |].
    destruct (first_is_not_dash a); [apply IHbl |].
    cbn. intros H; inversion H.
Qed.

(** An unrecognized flag fails every test of the loop. *)
Lemma unrecognized_is_no_case (arg : string) :
  unrecognized arg = true ->
  (arg =? "-h")%string = false /\ (arg =? "--help")%string = false
  /\ (arg =? "-v")%string = false /\ (arg =? "--check-only")%string = false
  /\ (arg =? "--json")%string = false /\ (arg =? "-o")%string = false
  /\ first_is_not_dash arg = false.
Proof.
  unfold unrecognized. intros H.
  repeat (apply andb_true_iff in H; destruct H as [H ?]).
  repeat match goal with
         | H : negb _ = true |- _ => apply negb_true_iff in H
         end.
  repeat split; assumption.
Qed.

(** The loop runs through a list of arguments exactly when each of them is
    a recognized option ([-o] with the argument after it) or a positional
    argument; it has then printed nothing. *)
Lemma passed_over_runs_through (programName : string) (args : list string) :
  forall (compiler : CSProCommandLineCompiler) (w : World),
    passed_over args = true
    <-> exists compiler',
          parse_arguments programName compiler args w
            = (Normal (Configured compiler'), w).
Proof.
  induction args as [| a | a b l IHl IHbl] using args_ind; intros c w.
  - cbn. split; [intros _; eexists; reflexivity | reflexivity].
  - cbn [parse_arguments passed_over].
    destruct (String.eqb_spec a "-h") as [-> | ?];
      [cbn; split; [discriminate | intros [c' H]; discriminate H] |].
    destruct (String.eqb_spec a "--help") as [-> | ?];
      [cbn; split; [discriminate | intros [c' H]; discriminate H] |].
    cbn [orb].
    destruct (String.eqb_spec a "-v") as [-> | ?];
      [cbn; split; [intros _; eexists; reflexivity | reflexivity] |].
    destruct (String.eqb_spec a "--check-only") as [-> | ?];
      [cbn; split; [intros _; eexists; reflexivity | reflexivity] |].
    destruct (String.eqb_spec a "--json") as [-> | ?];
      [cbn; split; [intros _; eexists; reflexivity | reflexivity] |].
    destruct (String.eqb_spec a "-o") as [-> | ?];
      [cbn; split; [discriminate | intros [c' H]; discriminate H] |].
    cbn [orb]. destruct (first_is_not_dash a); cbn;
      (split; [first [discriminate | intros _; eexists; reflexivity]
              | first [reflexivity | intros [c' H]; discriminate H]]).
  - assert (Hpo : passed_over (a :: b :: l)
                  = if (a =? "-o")%string then passed_over l
                    else ((a =? "-v")%string || (a =? "--check-only")%string
                          || (a =? "--json")%string || first_is_not_dash a)
                         && passed_over (b :: l)) by reflexivity.
    rewrite Hpo. clear Hpo. cbn [parse_arguments].
    set (po := passed_over (b :: l)) in *.
    destruct (String.eqb_spec a "-h") as [-> | ?];
      [cbn; split; [discriminate | intros [c' H]; discriminate H] |].
    destruct (String.eqb_spec a "--help") as [-> | ?];
      [cbn; split; [discriminate | intros [c' H]; discriminate H] |].
    cbn [orb].
    destruct (String.eqb_spec a "-v") as [-> | ?]; [cbn; apply IHbl |].
    destruct (String.eqb_spec a "--check-only") as [-> | ?]; [cbn; apply IHbl |].
    destruct (String.eqb_spec a "--json") as [-> | ?]; [cbn; apply IHbl |].
    destruct (String.eqb_spec a "-o") as [-> | ?]; [apply IHl |].
    cbn [orb]. destruct (first_is_not_dash a); cbn [andb]; [apply IHbl |].
    cbn. split; [discriminate | intros [c' H]; discriminate H].
Qed.

(** C9 (amended). [main] examines the arguments from left to right and the
    first decisive one ends the run.  After arguments each of which is a
    recognized option ([-v], [--check-only], [--json], or [-o] together
    with the argument after it, which is not examined) or a positional
    argument, [-h] or [--help] prints the usage text on the standard output
    and exits with code 0, whatever follows; and after such arguments an
    unrecognized flag reports [Unknown option], prints the usage text and
    exits with code 1, whatever follows. *)
Theorem main_first_decisive_argument (env : Environment) (programName : string)
  (pre post : list string) (w : World) :
  passed_over pre = true ->
  (forall h,
      h = "-h" \/ h = "--help" ->
      main env programName (pre ++ h :: post) w
        = (Normal 0, cout (usage programName) w))
  /\ (forall u,
        unrecognized u = true ->
        main env programName (pre ++ u :: post) w
          = (Normal 1,
             cout (usage programName) (cerr ("Unknown option: " ++ u ++ endl) w))).
Proof.
  intros Hpre.
  apply (passed_over_runs_through programName pre CSProCommandLineCompiler_new w)
    in Hpre.
  destruct Hpre as [compiler' Hp].
  assert (Hmain : forall a,
    main env programName (pre ++ a :: post) w
    = try_catch
        (bind (parse_arguments programName compiler' (a :: post))
           (fun p =>
              match p with
              | Exit code => ret code
              | Configured compiler =>
                  bind (validateInputFile env compiler) (fun valid =>
                    if negb valid then ret 1
                    else
                      bind (driver_compile env compiler) (fun result =>
                        bind (outputResults env compiler result) (fun _ =>
                          ret (if success result then 0 else 1))))
              end))
        main_catch_clauses w).
  { intros a. unfold main, main_try_block, try_catch.
    destruct (pre ++ a :: post) as [| x xs] eqn:Happ.
    - destruct pre; discriminate.
    - rewrite <- Happ. unfold bind at 1 3.
      rewrite (parse_arguments_app _ _ _ _ _ _ _ Hp). reflexivity. }
  split.
  - intros h [-> | ->]; rewrite Hmain; reflexivity.
  - intros u Hu. rewrite Hmain.
    destruct (unrecognized_is_no_case u Hu) as (H1 & H2 & H3 & H4 & H5 & H6 & H7).
    unfold try_catch, bind at 1. cbn [parse_arguments].
    rewrite H1, H2, H3, H4, H5, H6, H7. reflexivity.
Qed.

(** C10. Whenever the argument loop runs through the whole command line,
    the input file handed on is the last positional argument, the
    positional arguments before it have been overwritten, and nothing has
    been printed; each positional argument is stored over the previous one
    and the loop goes on. *)
Theorem last_positional_becomes_input_file (programName : string)
  (args : list string) (compiler' : CSProCommandLineCompiler) (w w' : World) :
  parse_arguments programName CSProCommandLineCompiler_new args w
    = (Normal (Configured compiler'), w') ->
  cl_inputFile compiler' = last (positionals args) ""
  /\ w' = w
  /\ (forall arg rest compiler,
        first_is_not_dash arg = true ->
        parse_arguments programName compiler (arg :: rest)
          = parse_arguments programName (setInputFile arg compiler) rest).
Proof.
  intros H. apply parse_arguments_configured in H. destruct H as [Hw Hf].
  repeat split; [exact Hf | exact Hw |].
  intros arg rest compiler. apply parse_arguments_positional.
Qed.

End CommandLine.

(** *** The command line at concrete inputs *)

Lemma main_first_decisive_argument_witness :
  let P := Sample.platform true in
  let w := Sample.process P "/home/user" in
  main env_Open_throws "CSProCompile"
    (["app.ent"; "-o"; "-h"; "--json"] ++ "--help" :: ["--frobnicate"]) w
    = (Normal 0, cout (usage "CSProCompile") w)
  /\ main env_Open_throws "CSProCompile"
       (["app.ent"; "-o"; "-h"; "--json"] ++ "--frobnicate" :: ["--help"]) w
     = (Normal 1,
        cout (usage "CSProCompile")
          (cerr ("Unknown option: " ++ "--frobnicate" ++ endl) w)).
Proof.
  cbv zeta.
  pose proof (main_first_decisive_argument (P := Sample.platform true)
                env_Open_throws "CSProCompile"
                ["app.ent"; "-o"; "-h"; "--json"] ["--frobnicate"]
                (Sample.process (Sample.platform true) "/home/user")
                eq_refl) as H1.
  pose proof (main_first_decisive_argument (P := Sample.platform true)
                env_Open_throws "CSProCompile"
                ["app.ent"; "-o"; "-h"; "--json"] ["--help"]
                (Sample.process (Sample.platform true) "/home/user")
                eq_refl) as H2.
  split.
  - apply (proj1 H1). right. reflexivity.
  - apply (proj2 H2). reflexivity.
Defined.

(** C9, as stated, fails in both halves: in [--frobnicate -h] the unknown
    flag comes first and the run exits with code 1 although [-h] is
    present; in [-h --frobnicate] the help flag comes first and the run
    exits with code 0 although an unrecognized flag is present. *)
Lemma help_and_unknown_flag_depend_on_order :
  let P := Sample.platform true in
  let w := Sample.process P "/home/user" in
  ~ (forall args,
       In "-h" args \/ In "--help" args ->
       fst (main env_Open_throws "CSProCompile" args w) = Normal 0)
  /\ ~ (forall args,
          (exists u, In u args /\ unrecognized u = true) ->
          fst (main env_Open_throws "CSProCompile" args w) = Normal 1).
Proof.
  cbv zeta. split; intros H.
  - specialize (H ["--frobnicate"; "-h"]).
    assert (Hin : In "-h" ["--frobnicate"; "-h"] \/ In "--help" ["--frobnicate"; "-h"])
      by (left; right; left; reflexivity).
    apply H in Hin. vm_compute in Hin. discriminate Hin.
  - specialize (H ["-h"; "--frobnicate"]).
    assert (Hin : exists u, In u ["-h"; "--frobnicate"] /\ unrecognized u = true)
      by (exists "--frobnicate"; split; [right; left; reflexivity | reflexivity]).
    apply H in Hin. vm_compute in Hin. discriminate Hin.
Qed.

Lemma last_positional_becomes_input_file_witness :
  let P := Sample.platform true in
  let w := Sample.process P "/home/user" in
  cl_inputFile
    (setInputFile "second.ent"
       (setVerboseMode true
          (setInputFile "first.ent" CSProCommandLineCompiler_new)))
    = last (positionals ["first.ent"; "-v"; "second.ent"]) ""
  /\ last (positionals ["first.ent"; "-v"; "second.ent"]) "" = "second.ent"
  /\ parse_arguments "CSProCompile" CSProCommandLineCompiler_new
       ["first.ent"; "second.ent"]
     = parse_arguments "CSProCompile"
         (setInputFile "first.ent" CSProCommandLineCompiler_new) ["second.ent"].
Proof.
  cbv zeta.
  destruct (last_positional_becomes_input_file (P := Sample.platform true)
              "CSProCompile" ["first.ent"; "-v"; "second.ent"]
              (setInputFile "second.ent"
                 (setVerboseMode true
                    (setInputFile "first.ent" CSProCommandLineCompiler_new)))
              (Sample.process (Sample.platform true) "/home/user")
              (Sample.process (Sample.platform true) "/home/user")
              eq_refl) as (Hfile & _ & Hstep).
  split; [exact Hfile |]. split; [reflexivity |].
  apply Hstep. reflexivity.
Defined.

(** ** The log writers *)

Local Open Scope string_scope.

Lemma count_nl_app (s t : string) :
  count_nl (s ++ t) = (count_nl s + count_nl t)%nat.
Proof.
  induction s as [| c s IH]; cbn; [reflexivity |].
  rewrite IH. destruct (Ascii.eqb c _); reflexivity.
Qed.

Lemma count_nl_uint (d : Decimal.uint) :
  count_nl (NilEmpty.string_of_uint d) = 0%nat.
Proof. induction d; cbn; auto. Qed.

(** A printed integer holds no line feed. *)
Lemma count_nl_show_int (z : Z) : count_nl (show_int z) = 0%nat.
Proof.
  unfold show_int, NilZero.string_of_int, NilZero.string_of_uint.
  destruct (Z.to_int z) as [d | d]; destruct d; cbn;
    try apply count_nl_uint; reflexivity.
Qed.

Lemma SEVERITY_cases (d : DiagnosticMessage) :
  (severity d = Error /\ SEVERITY d = "ERROR")
  \/ (severity d <> Error /\ SEVERITY d = "WARNING").
Proof.
  unfold SEVERITY. destruct (severity d); [left | right | right];
    split; try reflexivity; discriminate.
Qed.

(** Without a line feed in its message or procedure name, a diagnostic
    makes exactly one line of the editor-compatible log. *)
Lemma count_nl_formatted_line (d : DiagnosticMessage) :
  count_nl (message d) = 0%nat -> count_nl (procName d) = 0%nat ->
  count_nl (formatted_line d) = 1%nat.
Proof.
  intros Hm Hp. unfold formatted_line.
  assert (Hs : count_nl (SEVERITY d) = 0%nat)
    by (destruct (SEVERITY_cases d) as [[_ ->] | [_ ->]]; reflexivity).
  destruct (negb (empty (procName d)) && (line d >? 0)%Z);
    [| destruct (negb (empty (procName d))); [| destruct (line d >? 0)%Z]];
    repeat rewrite count_nl_app; rewrite ?Hm, ?Hp, ?Hs, ?count_nl_show_int;
    reflexivity.
Qed.

(** C6. The editor-compatible log is the concatenation, in order, of one
    text per diagnostic; that text ends with a line feed and has one of
    four shapes, chosen by whether [procName] is non-empty and whether
    [line] is greater than 0; its severity literal is [ERROR] for an
    [Error] and [WARNING] otherwise; when no message or procedure name
    contains a line feed the log has exactly one line per diagnostic.  The
    two examples of the specification render as stated. *)
Theorem formatted_log_four_shapes (result : CompilationResult) :
  formatted_log result = String.concat "" (map formatted_line (diagnostics result))
  /\ (forall d,
        (procName d <> "" -> line d > 0 ->
         formatted_line d
           = SEVERITY d ++ "(" ++ procName d ++ ", " ++ show_int (line d)
               ++ "): " ++ message d ++ nl)
        /\ (procName d <> "" -> line d <= 0 ->
            formatted_line d
              = SEVERITY d ++ "(" ++ procName d ++ "): " ++ message d ++ nl)
        /\ (procName d = "" -> line d > 0 ->
            formatted_line d
              = SEVERITY d ++ "(" ++ show_int (line d) ++ "): " ++ message d ++ nl)
        /\ (procName d = "" -> line d <= 0 ->
            formatted_line d = SEVERITY d ++ ": " ++ message d ++ nl)
        /\ (severity d = Error -> SEVERITY d = "ERROR")
        /\ (severity d <> Error -> SEVERITY d = "WARNING"))
  /\ ((forall d, In d (diagnostics result) ->
         count_nl (message d) = 0%nat /\ count_nl (procName d) = 0%nat) ->
      count_nl (formatted_log result) = length (diagnostics result))
  /\ (forall f c,
        formatted_line
          {| file := f; line := 5; column := c; message := "bad token";
             procName := "INPUT"; severity := Error |}
          = "ERROR(INPUT, 5): bad token" ++ nl)
  /\ (forall f c,
        formatted_line
          {| file := f; line := 0; column := c; message := "bad token";
             procName := ""; severity := Error |}
          = "ERROR: bad token" ++ nl).
Proof.
  split; [reflexivity |]. split; [| split; [| split; reflexivity]].
  - intros d. unfold formatted_line.
    assert (He : procName d = "" <-> empty (procName d) = true)
      by (destruct (procName d); cbn; split; intros; congruence).
    destruct (empty (procName d)) eqn:Hp; cbn [negb andb];
      destruct (Z.gtb_spec (line d) 0);
      (repeat split; intros; try reflexivity; try lia;
       try (exfalso; apply He in H; discriminate);
       try (exfalso; intuition congruence)).
    + destruct (SEVERITY_cases d) as [[_ ->] | [? _]]; [reflexivity | contradiction].
    + destruct (SEVERITY_cases d) as [[? _] | [_ ->]]; [contradiction | reflexivity].
    + destruct (SEVERITY_cases d) as [[_ ->] | [? _]]; [reflexivity | contradiction].
    + destruct (SEVERITY_cases d) as [[? _] | [_ ->]]; [contradiction | reflexivity].
    + destruct (SEVERITY_cases d) as [[_ ->] | [? _]]; [reflexivity | contradiction].
    + destruct (SEVERITY_cases d) as [[? _] | [_ ->]]; [contradiction | reflexivity].
    + destruct (SEVERITY_cases d) as [[_ ->] | [? _]]; [reflexivity | contradiction].
    + destruct (SEVERITY_cases d) as [[? _] | [_ ->]]; [contradiction | reflexivity].
  - unfold formatted_log. induction (diagnostics result) as [| d ds IH]; intros H.
    + reflexivity.
    + assert (Hc : String.concat "" (map formatted_line (d :: ds))
                   = formatted_line d ++ String.concat "" (map formatted_line ds)).
      { cbn [map String.concat]. destruct (map formatted_line ds); cbn.
        - induction (formatted_line d); cbn; congruence.
        - reflexivity. }
      rewrite Hc, count_nl_app.
      rewrite count_nl_formatted_line by (apply H; left; reflexivity).
      rewrite IH by (intros d' Hd'; apply H; right; exact Hd'). reflexivity.
Qed.

Lemma formatted_log_four_shapes_witness :
  let d1 :=
    {| file := "app.ent"; line := 12; column := 3;
       message := "Invalid symbol"; procName := "HOUSEHOLD";
       severity := Warning |} in
  let d2 :=
    {| file := "app.ent"; line := 0; column := 0;
       message := "Failed to load application source code"; procName := "";
       severity := Error |} in
  let d3 :=
    {| file := "app.ent"; line := 0; column := 0;
       message := "Unused function"; procName := "GLOBAL";
       severity := Info |} in
  let d4 :=
    {| file := "app.ent"; line := 40; column := 1;
       message := "Missing end"; procName := "";
       severity := Error |} in
  let result :=
    {| success := false; errorCount := 2; warningCount := 1;
       diagnostics := [d1; d2; d3; d4]; compiledOutput := "";
       compilationTimeMs := 0%Q |} in
  formatted_line d1 = "WARNING(HOUSEHOLD, 12): Invalid symbol" ++ nl
  /\ formatted_line d2 = "ERROR: Failed to load application source code" ++ nl
  /\ formatted_line d3 = "WARNING(GLOBAL): Unused function" ++ nl
  /\ formatted_line d4 = "ERROR(40): Missing end" ++ nl
  /\ SEVERITY d2 = "ERROR" /\ SEVERITY d3 = "WARNING"
  /\ count_nl (formatted_log result) = 4%nat.
Proof.
  intros d1 d2 d3 d4 result.
  pose proof (formatted_log_four_shapes result) as (_ & Hshape & Hcount & _).
  split; [| split; [| split; [| split; [| split; [| split]]]]].
  - rewrite (proj1 (Hshape d1)); [reflexivity | discriminate | reflexivity].
  - destruct (Hshape d2) as (_ & _ & _ & H4 & _).
    rewrite H4; [reflexivity | reflexivity | discriminate].
  - destruct (Hshape d3) as (_ & H2 & _).
    rewrite H2; [reflexivity | discriminate | discriminate].
  - destruct (Hshape d4) as (_ & _ & H3 & _).
    rewrite H3; [reflexivity | reflexivity | reflexivity].
  - destruct (Hshape d2) as (_ & _ & _ & _ & H5 & _). apply H5. reflexivity.
  - destruct (Hshape d3) as (_ & _ & _ & _ & _ & H6). apply H6. discriminate.
  - apply Hcount. intros d [<- | [<- | [<- | [<- | []]]]]; split; reflexivity.
Defined.

Section Driver.

Context {P : Platform}.

(** What the guarded block does to the files: nothing for an empty
    sequence; otherwise it opens the two logs in the directory of the input
    file, in this order, and writes each one that opened. *)
Lemma save_errors_spec (env : Environment) (c : CSProCommandLineCompiler)
  (r : CompilationResult) (w : World) :
  exists w',
    save_errors env c r w = (Normal tt, w')
    /\ match diagnostics r with
       | [] => opened w' = opened w /\ written w' = written w
       | _ :: _ =>
           opened w' = (opened w ++ [errorFilePath c; formattedFilePath c])%list
           /\ written w'
              = (written w
                 ++ (if ofstream_is_open env (errorFilePath c)
                     then [(errorFilePath c, detailed_log c r)] else [])
                 ++ (if ofstream_is_open env (formattedFilePath c)
                     then [(formattedFilePath c, formatted_log r)] else []))%list
       end.
Proof.
  unfold save_errors. destruct (diagnostics r) as [| d ds].
  - eexists. split; [reflexivity |]. split; reflexivity.
  - unfold bind, modify, ret.
    destruct (ofstream_is_open env (errorFilePath c)),
             (ofstream_is_open env (formattedFilePath c)),
             (verboseMode c);
      eexists; (split; [reflexivity |]); cbn;
      rewrite <- ?app_assoc, ?app_nil_r; cbn; split; reflexivity.
Qed.

(** C5 (amended). When the engine initializes, the driver invokes the two
    log writers exactly when the result of the compilation has at least one
    diagnostic: both logs are then opened under their fixed names in the
    directory of the input file, and each one that opens receives its text;
    with no diagnostic neither is opened.  This does not depend on the JSON
    or verbose mode.  When the engine does not initialize, the driver
    returns its own one-diagnostic result and invokes neither writer. *)
Theorem driver_compile_saves_errors (env : Environment)
  (c : CSProCommandLineCompiler) (w : World) :
  exists r w',
    driver_compile env c w = (Normal r, w')
    /\ (fst (initialize env {| self := CSProEngineImpl_new; world := w |})
          = Normal true ->
        match diagnostics r with
        | [] => opened w' = opened w /\ written w' = written w
        | _ :: _ =>
            opened w' = (opened w ++ [errorFilePath c; formattedFilePath c])%list
            /\ written w'
               = (written w
                  ++ (if ofstream_is_open env (errorFilePath c)
                      then [(errorFilePath c, detailed_log c r)] else [])
                  ++ (if ofstream_is_open env (formattedFilePath c)
                      then [(formattedFilePath c, formatted_log r)] else []))%list
        end)
    /\ (fst (initialize env {| self := CSProEngineImpl_new; world := w |})
          = Normal false ->
        r = Failed_to_initialize_compiler env
        /\ diagnostics r <> []
        /\ opened w' = opened w /\ written w' = written w).
Proof.
  unfold driver_compile, zoom, driver_compile_on_engine.
  set (m0 := {| self := CSProEngineImpl_new; world := w |}).
  set (prelude :=
         if verboseMode c
         then bind (on_world (cout ("Compiling: " ++ cl_inputFile c ++ endl)))
                (fun _ => if checkOnly c
                          then on_world (cout ("Mode: Syntax check only" ++ endl))
                          else ret tt)
         else ret tt).
  assert (Hpre : exists w1,
            prelude m0 = (Normal tt, {| self := CSProEngineImpl_new; world := w1 |})
            /\ opened w1 = opened w /\ written w1 = written w).
  { subst prelude m0. destruct (verboseMode c), (checkOnly c);
      eexists; (split; [reflexivity |]); split; reflexivity. }
  destruct Hpre as (w1 & Hpre & Ho1 & Hw1).
  unfold bind at 1. rewrite Hpre.
  set (m1 := {| self := CSProEngineImpl_new; world := w1 |}).
  assert (Hsame : fst (initialize env m0) = fst (initialize env m1))
    by (apply initialize_outcome; reflexivity).
  rewrite Hsame.
  destruct (initialize_returns env m1)
    as (b & m2 & Hi & Hb & _ & _ & _ & _ & Ho2 & Hw2).
  unfold bind at 1. rewrite Hi. cbn [fst].
  destruct b; cbn [negb].
  - set (options := {| inputFile := cl_inputFile c;
                       outputDirectory := outputDirectory CompilerOptions_default;
                       checkSyntaxOnly := checkOnly c;
                       verboseOutput := verboseMode c;
                       generateDebugInfo := generateDebugInfo CompilerOptions_default |}).
    destruct (compile_result_shape env options m2) as (r & m3 & Hc & _).
    destruct (compile_frame env options m2) as [Ho3 Hw3].
    rewrite Hc in Ho3, Hw3. cbn [snd] in Ho3, Hw3.
    unfold bind at 1. rewrite Hc.
    assert (Hsh : exists m4, shutdown m3 = (Normal tt, m4) /\ world m4 = world m3).
    { unfold shutdown, bind, on_self, modify, ret.
      destruct CSPRO_SDK_AVAILABLE; eexists; split; reflexivity. }
    destruct Hsh as (m4 & Hsh & Hw4).
    unfold bind at 1. rewrite Hsh.
    destruct (save_errors_spec env c r (world m4)) as (w5 & Hs & Hfiles).
    unfold bind at 1, zoom. rewrite Hs. unfold ret.
    exists r, w5. split; [reflexivity |]. split.
    + intros _. rewrite Hw4, Ho3, Hw3, Ho2, Hw2 in Hfiles.
      subst m1. cbn [world] in Hfiles.
      rewrite Ho1, Hw1 in Hfiles. exact Hfiles.
    + intros H; discriminate H.
  - unfold ret. eexists. eexists. split; [reflexivity |]. split.
    + intros H; discriminate H.
    + intros _. subst m1. cbn in *. repeat split; try congruence; discriminate.
Qed.

End Driver.

(** *** The driver at concrete inputs *)

Lemma driver_compile_saves_errors_witness :
  let P := Sample.platform true in
  let c := compiler_for "/projects/census/app.ent" in
  let w := Sample.process P "/home/user" in
  (exists r w',
      driver_compile env_two_messages c w = (Normal r, w')
      /\ fst (initialize env_two_messages {| self := CSProEngineImpl_new; world := w |})
           = Normal true
      /\ length (diagnostics r) = 2%nat
      /\ opened w'
           = ["/projects/census/compileErrors.txt";
              "/projects/census/compileErrorsFormatted.txt"])
  /\ (exists r w',
        driver_compile env_bootstrap_throws c w = (Normal r, w')
        /\ fst (initialize env_bootstrap_throws
                  {| self := CSProEngineImpl_new; world := w |})
             = Normal false
        /\ r = Failed_to_initialize_compiler env_bootstrap_throws
        /\ opened w' = []).
Proof.
  cbv zeta. split.
  - destruct (driver_compile_saves_errors (P := Sample.platform true)
                env_two_messages (compiler_for "/projects/census/app.ent")
                (Sample.process (Sample.platform true) "/home/user"))
      as (r & w' & H & Hok & _).
    exists r, w'. split; [exact H |]. split; [vm_compute; reflexivity |].
    assert (Hinit : fst (initialize env_two_messages
                           {| self := CSProEngineImpl_new;
                              world := Sample.process (Sample.platform true) "/home/user" |})
                    = Normal true) by (vm_compute; reflexivity).
    specialize (Hok Hinit). vm_compute in H. injection H as Hr Hw.
    rewrite <- Hr in Hok |- *. cbn in Hok. destruct Hok as [Ho _].
    split; [reflexivity | exact Ho].
  - destruct (driver_compile_saves_errors (P := Sample.platform true)
                env_bootstrap_throws (compiler_for "/projects/census/app.ent")
                (Sample.process (Sample.platform true) "/home/user"))
      as (r & w' & H & _ & Hfail).
    exists r, w'. split; [exact H |]. split; [vm_compute; reflexivity |].
    assert (Hinit : fst (initialize env_bootstrap_throws
                           {| self := CSProEngineImpl_new;
                              world := Sample.process (Sample.platform true) "/home/user" |})
                    = Normal false) by (vm_compute; reflexivity).
    destruct (Hfail Hinit) as (Hr & _ & Ho & _).
    split; [exact Hr | exact Ho].
Defined.

(** C5, as stated, fails when the engine cannot be initialized: the
    driver returns a result that holds one diagnostic, and it has opened no
    log file. *)
Lemma init_failure_has_a_diagnostic_and_no_log :
  let P := Sample.platform true in
  ~ (forall (env : Environment) (c : CSProCommandLineCompiler) (w : World)
            (r : CompilationResult) (w' : World),
        driver_compile env c w = (Normal r, w') ->
        (diagnostics r = [] -> opened w' = opened w)
        /\ (diagnostics r <> [] ->
            opened w' = (opened w ++ [errorFilePath c; formattedFilePath c])%list)).
Proof.
  cbv zeta. intros H.
  destruct (H env_bootstrap_throws (compiler_for "/projects/census/app.ent")
              (Sample.process (Sample.platform true) "/home/user")
              _ _ eq_refl) as [_ Hlogs].
  assert (Hne : diagnostics
                  (Failed_to_initialize_compiler (P := Sample.platform true)
                     env_bootstrap_throws) <> []) by (vm_compute; discriminate).
  apply Hlogs in Hne. vm_compute in Hne. discriminate Hne.
Qed.

(** ** The JSON renderer *)

(** The reader accepts what [outputJson] emits for a result in plain
    words and gives back its severities in order. *)
Example read_back_plain :
  read_back (P := Sample.platform true) result_plain = Some ["error"; "warning"].
Proof. vm_compute. reflexivity. Qed.

(** The reader takes the text as UTF-8.  The byte 233 alone, which is what
    the adapter's truncation leaves of the letter U+00E9, is not UTF-8:
    such a message is not [json_safe], and the reader rejects the text.
    The same letter in UTF-8 (the bytes 195 and 169) is read back. *)
Example read_back_needs_utf8 :
  let P := Sample.platform true in
  let accented (bytes : list N) :=
    {| success := false; errorCount := 1; warningCount := 0;
       diagnostics :=
         [ {| file := "app.ent"; line := 3; column := 9;
              message := narrow bytes; procName := "QUEST";
              severity := Error |} ];
       compiledOutput := ""; compilationTimeMs := 0%Q |} in
  json_safe (narrow [233%N]) = false
  /\ read_back result_with_lone_byte = None
  /\ read_back (accented [233%N]) = None
  /\ json_safe (narrow [195%N; 169%N]) = true
  /\ read_back (accented [195%N; 169%N]) = Some ["error"].
Proof. vm_compute. repeat split. Qed.

(** C7. [outputJson] copies [file] and [message] between quotes without
    escaping them.  A message that contains a double quote, or a file name
    that contains a backslash, is emitted as it is, and the text is not
    JSON: the reader rejects it, so nothing can be read back. *)
Theorem json_text_does_not_escape :
  let P := Sample.platform true in
  Json.parse (json_text result_with_quote) = Json.SyntaxError
  /\ read_back result_with_quote = None
  /\ Json.parse (json_text result_with_backslash) = Json.SyntaxError
  /\ read_back result_with_backslash = None
  /\ json_entry
       {| file := "app.ent"; line := 3; column := 9;
          message := "Expected " ++ dquote ++ "endif" ++ dquote;
          procName := "QUEST"; severity := Error |}
     = "    {" ++ nl
       ++ "      " ++ dquote ++ "file" ++ dquote ++ ": "
            ++ dquote ++ "app.ent" ++ dquote ++ "," ++ nl
       ++ "      " ++ dquote ++ "line" ++ dquote ++ ": 3," ++ nl
       ++ "      " ++ dquote ++ "column" ++ dquote ++ ": 9," ++ nl
       ++ "      " ++ dquote ++ "message" ++ dquote ++ ": "
            ++ dquote ++ "Expected " ++ dquote ++ "endif" ++ dquote ++ dquote
            ++ "," ++ nl
       ++ "      " ++ dquote ++ "severity" ++ dquote ++ ": "
            ++ dquote ++ "error" ++ dquote ++ nl
       ++ "    }".
Proof.
  cbv zeta. repeat split; vm_compute; reflexivity.
Qed.

(** ** The JSON renderer on strings that need no escaping *)

Section JsonRoundTrip.

Import Json.

Local Abbreviation L := list_ascii_of_string.

Lemma L_app (s t : string) : L (s ++ t) = (L s ++ L t)%list.
Proof. induction s; cbn; congruence. Qed.

(** Reading a run of bytes that need no escape and are well-formed UTF-8
    gives the bytes back, up to the closing quote. *)
Lemma string_body_safe_bytes (n : nat) :
  forall (l : list ascii) (q : ascii) (rest : list ascii),
    (length l <= n)%nat ->
    forallb json_safe_char l = true -> well_formed_utf8 l = true ->
    code q = 34%N ->
    string_body (l ++ q :: rest)%list = Some (l, rest).
Proof.
  induction n as [| n IH]; intros l q rest Hlen Hsafe Hwf Hq.
  - destruct l; [| cbn in Hlen; lia]. cbn. rewrite Hq. reflexivity.
  - destruct l as [| c l]; [cbn; rewrite Hq; reflexivity |].
    cbn [forallb] in Hsafe. apply andb_true_iff in Hsafe.
    destruct Hsafe as [Hc Hs]. unfold json_safe_char in Hc.
    apply andb_true_iff in Hc. destruct Hc as [Hc H92].
    apply andb_true_iff in Hc. destruct Hc as [H32 H34].
    apply negb_true_iff in H92, H34. apply N.leb_le in H32.
    cbn [well_formed_utf8] in Hwf. cbn [app string_body].
    rewrite H34, H92.
    destruct (N.ltb_spec (code c) 32); [lia |].
    cbn [length] in Hlen.
    destruct (code c <? 128)%N.
    { rewrite (IH l q rest) by (first [lia | assumption]). reflexivity. }
    destruct l as [| c1 l1]; [discriminate Hwf |].
    cbn [forallb] in Hs. apply andb_true_iff in Hs. destruct Hs as [_ Hs].
    cbn [length] in Hlen. cbn [app].
    destruct (two_bytes c c1).
    { rewrite (IH l1 q rest) by (first [lia | assumption]). reflexivity. }
    destruct l1 as [| c2 l2]; [discriminate Hwf |].
    cbn [forallb] in Hs. apply andb_true_iff in Hs. destruct Hs as [_ Hs].
    cbn [length] in Hlen. cbn [app].
    destruct (three_bytes c c1 c2).
    { rewrite (IH l2 q rest) by (first [lia | assumption]). reflexivity. }
    destruct l2 as [| c3 l3]; [discriminate Hwf |].
    cbn [forallb] in Hs. apply andb_true_iff in Hs. destruct Hs as [_ Hs].
    cbn [length] in Hlen. cbn [app].
    destruct (four_bytes c c1 c2 c3); [| discriminate Hwf].
    rewrite (IH l3 q rest) by (first [lia | assumption]). reflexivity.
Qed.

Lemma string_body_safe (s : string) (q : ascii) (rest : list ascii) :
  json_safe s = true -> code q = 34%N ->
  string_body (L s ++ q :: rest)%list = Some (L s, rest).
Proof.
  unfold json_safe. intros Hsafe Hq.
  apply andb_true_iff in Hsafe. destruct Hsafe as [Hs Hwf].
  apply (string_body_safe_bytes (length (L s))); auto.
Qed.

(** A printed positive number starts with a digit other than zero. *)
Lemma to_uint_head (p : positive) :
  Pos.to_uint p <> Decimal.Nil /\ forall d, Pos.to_uint p <> Decimal.D0 d.
Proof.
  split; [apply DecimalPos.Unsigned.to_uint_nonnil |].
  intros d H.
  assert (Hn : Decimal.unorm (Pos.to_uint p) = Pos.to_uint p).
  { rewrite <- (DecimalPos.Unsigned.to_of (Pos.to_uint p)), DecimalPos.Unsigned.of_to. reflexivity. }
  destruct (Decimal.nzhead (Pos.to_uint p)) eqn:Hz;
    [ apply DecimalFacts.unorm_0 in Hz; rewrite Hn in Hz;
      exact (DecimalPos.Unsigned.to_uint_nonzero p Hz)
    | exact (DecimalFacts.nzhead_nonzero _ _ Hz)
    | rewrite DecimalFacts.unorm_nzhead in Hn by (rewrite Hz; discriminate);
      rewrite Hz, H in Hn; discriminate .. ].
Qed.

Lemma digits_all (ds rest : list ascii) :
  forallb is_digit ds = true ->
  match rest with c :: _ => is_digit c = false | [] => True end ->
  digits (ds ++ rest)%list = (ds, rest).
Proof.
  intros Hds Hrest. induction ds as [| d ds IH]; cbn [app forallb] in *.
  - destruct rest as [| c rest]; [reflexivity |]. cbn [digits]. rewrite Hrest.
    reflexivity.
  - apply andb_true_iff in Hds. destruct Hds as [Hd Hds].
    cbn [digits]. rewrite Hd, (IH Hds). reflexivity.
Qed.

(** A run of digits without a superfluous leading zero, with or without
    a minus sign, is read whole as a number in front of a comma. *)
Lemma number_digits (d : ascii) (more : list ascii) (c : ascii) (rest : list ascii) :
  forallb is_digit (d :: more) = true ->
  (code d =? 48)%N && negb (match more with [] => true | _ => false end) = false ->
  code c = 44%N ->
  number ((d :: more) ++ c :: rest)%list = Some (d :: more, c :: rest)
  /\ forall minus, code minus = 45%N ->
       number (minus :: (d :: more) ++ c :: rest)%list
         = Some (minus :: d :: more, c :: rest).
Proof.
  intros Hds Hzero Hc.
  assert (Hnd : match c :: rest with x :: _ => is_digit x = false | [] => True end).
  { unfold is_digit. rewrite Hc. reflexivity. }
  assert (Hd : is_digit d = true)
    by (cbn [forallb] in Hds; apply andb_true_iff in Hds; tauto).
  assert (Hd45 : (code d =? 45)%N = false).
  { unfold is_digit in Hd. apply andb_true_iff in Hd. destruct Hd as [H1 H2].
    apply N.leb_le in H1, H2. apply N.eqb_neq. lia. }
  pose proof (digits_all (d :: more) (c :: rest) Hds Hnd) as Hdig.
  assert (Hc46 : (code c =? 46)%N = false) by (rewrite Hc; reflexivity).
  assert (Hc101 : (code c =? 101)%N = false) by (rewrite Hc; reflexivity).
  assert (Hc69 : (code c =? 69)%N = false) by (rewrite Hc; reflexivity).
  split.
  - unfold number. cbn [app] in *. rewrite Hd45, Hdig, Hzero, Hc46, Hc101, Hc69.
    cbn [orb app]. rewrite List.app_nil_r. reflexivity.
  - intros minus Hm. unfold number. cbn [app] in *. rewrite Hm.
    change (45 =? 45)%N with true. cbn iota.
    rewrite Hdig, Hzero, Hc46, Hc101, Hc69.
    cbn [orb app]. rewrite List.app_nil_r. reflexivity.
Qed.

Lemma uint_all_digits (d : Decimal.uint) :
  forallb is_digit (L (NilEmpty.string_of_uint d)) = true.
Proof. induction d; cbn; auto. Qed.

(** A printed integer is a JSON number: read in front of a comma, it is
    taken whole. *)
Lemma number_show_int (z : Z) (c : ascii) (rest : list ascii) :
  code c = 44%N ->
  number (L (show_int z) ++ c :: rest)%list = Some (L (show_int z), c :: rest).
Proof.
  intros Hc.
  assert (Hpos : forall p,
    exists d more,
      L (NilEmpty.string_of_uint (Pos.to_uint p)) = d :: more
      /\ forallb is_digit (d :: more) = true
      /\ (code d =? 48)%N = false
      /\ NilZero.string_of_uint (Pos.to_uint p)
           = NilEmpty.string_of_uint (Pos.to_uint p)).
  { intros p. destruct (to_uint_head p) as [Hnil Hzero].
    pose proof (uint_all_digits (Pos.to_uint p)) as Hall.
    unfold NilZero.string_of_uint.
    destruct (Pos.to_uint p) as [| d | d | d | d | d | d | d | d | d | d];
      [contradiction | exfalso; exact (Hzero d eq_refl) | ..];
      cbn [NilEmpty.string_of_uint L] in *;
      eexists; eexists; (split; [reflexivity |]); (split; [exact Hall |]);
      split; reflexivity. }
  unfold show_int. destruct z as [| p | p]; cbn [Z.to_int NilZero.string_of_int].
  - apply (number_digits "0"%char [] c rest); auto.
  - destruct (Hpos p) as (d & more & HL & Hall & H48 & Hs).
    rewrite Hs, HL.
    apply (number_digits d more c rest); auto. rewrite H48. reflexivity.
  - destruct (Hpos p) as (d & more & HL & Hall & H48 & Hs).
    rewrite Hs. cbn [L]. rewrite HL.
    apply (number_digits d more c rest); auto. rewrite H48. reflexivity.
Qed.

Lemma show_int_head (z : Z) :
  exists x more, L (show_int z) = x :: more
    /\ (is_digit x = true \/ code x = 45%N).
Proof.
  unfold show_int. destruct z as [| p | p]; cbn [Z.to_int NilZero.string_of_int].
  - exists "0"%char, []. split; [reflexivity | left; reflexivity].
  - destruct (to_uint_head p) as [Hnil _].
    pose proof (uint_all_digits (Pos.to_uint p)) as Hall.
    unfold NilZero.string_of_uint.
    destruct (Pos.to_uint p); try contradiction;
      cbn [NilEmpty.string_of_uint L] in *;
      eexists; eexists; (split; [reflexivity |]); left; reflexivity.
  - eexists; eexists. cbn [L]. split; [reflexivity | right; reflexivity].
Qed.

Lemma skip_ws_ws_app (w r : list ascii) :
  ws w -> skip_ws (w ++ r)%list = skip_ws r.
Proof.
  unfold ws. intros Hw. induction w as [| c w IH]; cbn [app forallb] in *.
  - reflexivity.
  - apply andb_true_iff in Hw. destruct Hw as [Hc Hw].
    cbn [skip_ws]. rewrite Hc. apply IH. exact Hw.
Qed.

(** *** How the reader takes each construct, given how it takes the parts *)

Lemma value_object_rel (f : nat) (s rest0 rest' : list ascii) (lb c' : ascii)
  (ms : list (string * value)) (r : list ascii) :
  skip_ws s = lb :: rest0 -> code lb = 123%N ->
  skip_ws rest0 = c' :: rest' -> (code c' =? 125)%N = false ->
  members f (skip_ws rest0) = Read ms r ->
  value_ (S f) s = Read (Object ms) r.
Proof.
  intros Hs Hlb Hr Hc Hm. cbn [value_]. rewrite Hs, Hlb. cbn.
  rewrite Hr in *. rewrite Hc, Hm. reflexivity.
Qed.

Lemma value_array_nil_rel (f : nat) (s rest0 rest' : list ascii) (lb rb : ascii) :
  skip_ws s = lb :: rest0 -> code lb = 91%N ->
  skip_ws rest0 = rb :: rest' -> code rb = 93%N ->
  value_ (S f) s = Read (Array []) rest'.
Proof.
  intros Hs Hlb Hr Hrb. cbn [value_]. rewrite Hs, Hlb. cbn.
  rewrite Hr, Hrb. reflexivity.
Qed.

Lemma value_array_rel (f : nat) (s rest0 rest' : list ascii) (lb c' : ascii)
  (vs : list value) (r : list ascii) :
  skip_ws s = lb :: rest0 -> code lb = 91%N ->
  skip_ws rest0 = c' :: rest' -> (code c' =? 93)%N = false ->
  elements f rest0 = Read vs r ->
  value_ (S f) s = Read (Array vs) r.
Proof.
  intros Hs Hlb Hr Hc He. cbn [value_]. rewrite Hs, Hlb. cbn.
  rewrite Hr, Hc, He. reflexivity.
Qed.

Lemma value_string_rel (f : nat) (s s' body rest : list ascii) (q : ascii) :
  skip_ws s = q :: s' -> code q = 34%N ->
  string_body s' = Some (body, rest) ->
  value_ (S f) s = Read (Str (string_of_list_ascii body)) rest.
Proof.
  intros Hs Hq Hb. cbn [value_]. rewrite Hs, Hq. cbn. rewrite Hb. reflexivity.
Qed.

Lemma value_bool_rel (f : nat) (s rest : list ascii) (b : bool) :
  skip_ws s = (L (if b then "true" else "false") ++ rest)%list ->
  value_ (S f) s = Read (Bool b) rest.
Proof.
  intros Hs. cbn [value_]. rewrite Hs. destruct b; cbn; reflexivity.
Qed.

Lemma value_number_rel (f : nat) (s s' text rest : list ascii) (x : ascii) :
  skip_ws s = x :: s' -> is_digit x = true \/ code x = 45%N ->
  number (x :: s') = Some (text, rest) ->
  value_ (S f) s = Read (Number (string_of_list_ascii text)) rest.
Proof.
  intros Hs Hx Hn. cbn [value_]. rewrite Hs.
  assert (H : (code x =? 123)%N = false /\ (code x =? 91)%N = false
              /\ (code x =? 34)%N = false /\ (code x =? 116)%N = false
              /\ (code x =? 102)%N = false /\ (code x =? 110)%N = false).
  { destruct Hx as [Hd | Hm].
    - unfold is_digit in Hd. apply andb_true_iff in Hd. destruct Hd as [H1 H2].
      apply N.leb_le in H1, H2. repeat split; apply N.eqb_neq; lia.
    - rewrite Hm. repeat split; reflexivity. }
  destruct H as (H1 & H2 & H3 & H4 & H5 & H6).
  rewrite H1, H2, H3, H4, H5, H6, Hn. reflexivity.
Qed.

Lemma elements_last_rel (f : nat) (s r rest : list ascii) (v : value) (rb : ascii) :
  value_ f s = Read v r -> skip_ws r = rb :: rest -> code rb = 93%N ->
  elements (S f) s = Read [v] rest.
Proof.
  intros Hv Hr Hrb. cbn [elements]. rewrite Hv, Hr, Hrb. reflexivity.
Qed.

Lemma elements_more_rel (f : nat) (s r rest r' : list ascii) (v : value)
  (comma : ascii) (vs : list value) :
  value_ f s = Read v r -> skip_ws r = comma :: rest -> code comma = 44%N ->
  elements f rest = Read vs r' ->
  elements (S f) s = Read (v :: vs) r'.
Proof.
  intros Hv Hr Hc He. cbn [elements]. rewrite Hv, Hr, Hc, He. reflexivity.
Qed.

Lemma members_last_rel (f : nat) (s' name r body r2 rest : list ascii)
  (q colon rb : ascii) (v : value) :
  code q = 34%N -> string_body s' = Some (name, r) ->
  skip_ws r = colon :: body -> code colon = 58%N ->
  value_ f body = Read v r2 ->
  skip_ws r2 = rb :: rest -> code rb = 125%N ->
  members (S f) (q :: s') = Read [(string_of_list_ascii name, v)] rest.
Proof.
  intros Hq Hn Hr Hc Hv Hr2 Hrb. cbn [members].
  rewrite Hq. cbn. rewrite Hn, Hr, Hc. cbn. rewrite Hv, Hr2, Hrb. reflexivity.
Qed.

Lemma members_more_rel (f : nat) (s' name r body r2 rest r3 : list ascii)
  (q colon comma : ascii) (v : value) (ms : list (string * value)) :
  code q = 34%N -> string_body s' = Some (name, r) ->
  skip_ws r = colon :: body -> code colon = 58%N ->
  value_ f body = Read v r2 ->
  skip_ws r2 = comma :: rest -> code comma = 44%N ->
  members f (skip_ws rest) = Read ms r3 ->
  members (S f) (q :: s') = Read ((string_of_list_ascii name, v) :: ms) r3.
Proof.
  intros Hq Hn Hr Hc Hv Hr2 Hcm Hm. cbn [members].
  rewrite Hq. cbn. rewrite Hn, Hr, Hc. cbn. rewrite Hv, Hr2, Hcm. cbn.
  rewrite Hm. reflexivity.
Qed.

Lemma number_token_show_int (z : Z) : number_token (show_int z).
Proof.
  intros f sp c rest Hsp Hc.
  destruct (show_int_head z) as (x & more & HL & Hx).
  pose proof (number_show_int z c rest Hc) as Hn. rewrite HL in Hn |- *.
  rewrite <- (string_of_list_ascii_of_string (show_int z)), HL.
  apply (value_number_rel f _ (more ++ c :: rest)%list (x :: more) (c :: rest) x).
  - cbn [skip_ws]. rewrite Hsp. cbn [app skip_ws].
    destruct Hx as [Hd | Hm]; unfold is_ws.
    + unfold is_digit in Hd. apply andb_true_iff in Hd. destruct Hd as [H1 H2].
      apply N.leb_le in H1, H2.
      destruct (N.eqb_spec (code x) 32); [lia |].
      destruct (N.eqb_spec (code x) 9); [lia |].
      destruct (N.eqb_spec (code x) 10); [lia |].
      destruct (N.eqb_spec (code x) 13); [lia |]. reflexivity.
    + rewrite Hm. reflexivity.
  - exact Hx.
  - exact Hn.
Qed.

Ltac norm_text :=
  repeat rewrite L_app; repeat rewrite <- List.app_assoc;
  cbn -[show_int severity_lower json_entry json_entries value_ members elements].

Ltac lit := cbn -[show_int severity_lower json_entry json_entries]; reflexivity.

(** Evaluate the white space in front of the text a reader is applied to. *)
Ltac eval_arg :=
  match goal with
  | |- members ?f ?s = ?rhs =>
      let s' := eval cbn -[show_int severity_lower json_entry json_entries] in s in
      change (members f s' = rhs)
  end.

Lemma json_safe_severity_lower (d : DiagnosticMessage) :
  json_safe (severity_lower d) = true.
Proof. unfold severity_lower. destruct (severity d); reflexivity. Qed.

(** One rendered element is read back as an object whose severity is the
    lower-case literal. *)
Lemma value_entry (d : DiagnosticMessage) (f : nat) (w rest : list ascii) :
  ws w -> json_safe (file d) = true -> json_safe (message d) = true ->
  exists v,
    value_ (7 + f) (w ++ L (json_entry d) ++ rest)%list = Read v rest
    /\ severity_of v = Some (severity_lower d).
Proof.
  intros Hw Hfile Hmsg. unfold json_entry. norm_text.
  eexists. split.
  - eapply value_object_rel.
    + rewrite skip_ws_ws_app by assumption. lit.
    + reflexivity.
    + lit.
    + reflexivity.
    + eval_arg.
      eapply members_more_rel;
        [ reflexivity | lit | lit | reflexivity
        | eapply value_string_rel;
            [lit | reflexivity | apply string_body_safe; [exact Hfile | reflexivity]]
        | lit | reflexivity | ].
      eval_arg.
      eapply members_more_rel;
        [ reflexivity | lit | lit | reflexivity
        | apply number_token_show_int; reflexivity
        | lit | reflexivity | ].
      eval_arg.
      eapply members_more_rel;
        [ reflexivity | lit | lit | reflexivity
        | apply number_token_show_int; reflexivity
        | lit | reflexivity | ].
      eval_arg.
      eapply members_more_rel;
        [ reflexivity | lit | lit | reflexivity
        | eapply value_string_rel;
            [lit | reflexivity | apply string_body_safe; [exact Hmsg | reflexivity]]
        | lit | reflexivity | ].
      eval_arg.
      eapply members_last_rel;
        [ reflexivity | lit | lit | reflexivity
        | eapply value_string_rel;
            [ lit | reflexivity
            | apply string_body_safe;
                [apply json_safe_severity_lower | reflexivity] ]
        | lit | reflexivity ].
  - cbn. rewrite string_of_list_ascii_of_string. reflexivity.
Qed.

(** The rendered elements of a non-empty array are read back in order,
    each with its severity. *)
Lemma elements_entries (ds : list DiagnosticMessage) :
  ds <> [] ->
  (forall d, In d ds -> json_safe (file d) = true /\ json_safe (message d) = true) ->
  forall (f : nat) (w tail tail' : list ascii) (rb : ascii),
    ws w -> skip_ws tail = rb :: tail' -> code rb = 93%N ->
    exists vs,
      elements (7 + (length ds + f)) (w ++ L (json_entries ds) ++ tail)%list
        = Read vs tail'
      /\ all_some (map severity_of vs) = Some (map severity_lower ds).
Proof.
  induction ds as [| d ds IH]; intros Hne Hsafe f w tail tail' rb Hw Htail Hrb;
    [contradiction |].
  destruct (Hsafe d (or_introl eq_refl)) as [Hf Hm].
  destruct ds as [| d2 ds].
  - destruct (value_entry d f w (L nl ++ tail)%list Hw Hf Hm) as (v & Hv & Hsev).
    exists [v]. split.
    + cbn [json_entries]. norm_text.
      eapply elements_last_rel; [exact Hv | | exact Hrb].
      cbn [skip_ws]. exact Htail.
    + cbn. rewrite Hsev. reflexivity.
  - destruct (value_entry d (length (d2 :: ds) + f) w
                (L "," ++ L nl ++ L (json_entries (d2 :: ds)) ++ tail)%list Hw Hf Hm)
      as (v & Hv & Hsev).
    destruct (IH (fun H => ltac:(discriminate H))
                (fun d' Hd' => Hsafe d' (or_intror Hd'))
                f (L nl) tail tail' rb eq_refl Htail Hrb)
      as (vs & Hvs & Hsevs).
    exists (v :: vs). split.
    + change (json_entries (d :: d2 :: ds))
        with (json_entry d ++ "," ++ nl ++ json_entries (d2 :: ds)).
      norm_text.
      eapply elements_more_rel; [exact Hv | lit | reflexivity | exact Hvs].
    + cbn [map all_some]. rewrite Hsev.
      cbn [map] in Hsevs. rewrite Hsevs. reflexivity.
Qed.

Lemma length_json_entries (ds : list DiagnosticMessage) :
  (length ds <= length (L (json_entries ds)))%nat.
Proof.
  induction ds as [| d ds IH]; [apply Nat.le_refl |].
  cbn [json_entries length]. rewrite !L_app, !length_app.
  change (length (L nl)) with 1%nat. lia.
Qed.

Lemma skip_ws_entries (ds : list DiagnosticMessage) (w tail : list ascii) :
  ds <> [] -> ws w ->
  exists c rest,
    skip_ws (w ++ L (json_entries ds) ++ tail)%list = c :: rest
    /\ (code c =? 93)%N = false.
Proof.
  intros Hne Hw. destruct ds as [| d ds]; [contradiction |].
  cbn [json_entries]. unfold json_entry. norm_text.
  rewrite skip_ws_ws_app by assumption.
  eexists. eexists. split; [lit | reflexivity].
Qed.

Context {P : Platform}.

Lemma length_json_text (result : CompilationResult) :
  (11 + length (diagnostics result) <= length (L (json_text result)))%nat.
Proof.
  unfold json_text. rewrite !L_app, !length_app.
  pose proof (length_json_entries (diagnostics result)) as H.
  cbn -[show_double json_entries]. lia.
Qed.

(** When every file name and every message is UTF-8 text in which nothing
    needs escaping and the duration is printed as a JSON number, the
    emitted text is JSON and a reader gets back one severity per
    diagnostic, in order, as the lower-case literal of that diagnostic. *)
Theorem read_back_safe (result : CompilationResult) :
  (forall d, In d (diagnostics result) ->
     json_safe (file d) = true /\ json_safe (message d) = true) ->
  number_token (show_double (compilationTimeMs result / 1000)%Q) ->
  read_back result = Some (map severity_lower (diagnostics result)).
Proof.
  intros Hsafe Hnum.
  assert (Hv : exists v,
    value_ (S (length (L (json_text result)))) (L (json_text result))
      = Read v (L nl)
    /\ severities v = Some (map severity_lower (diagnostics result))).
  { pose proof (length_json_text result) as Hlen.
    assert (Hfuel : exists f,
      S (length (L (json_text result)))
      = (5 + (7 + (length (diagnostics result) + f)))%nat).
    { exists (length (L (json_text result)) - (11 + length (diagnostics result)))%nat.
      lia. }
    destruct Hfuel as [f Hf]. rewrite Hf. clear Hf Hlen.
    unfold json_text.
    set (t := show_double (compilationTimeMs result / 1000)%Q) in *.
    destruct (diagnostics result) as [| d ds] eqn:Hds.
    - destruct (success result); norm_text; eexists; (split; [
        eapply value_object_rel; [lit | reflexivity | lit | reflexivity |];
        eval_arg;
        eapply members_more_rel;
          [ reflexivity | lit | lit | reflexivity
          | first [ eapply (value_bool_rel _ _ _ true); lit
                  | eapply (value_bool_rel _ _ _ false); lit ]
          | lit | reflexivity | ];
        eval_arg;
        eapply members_more_rel;
          [ reflexivity | lit | lit | reflexivity
          | apply Hnum; reflexivity
          | lit | reflexivity | ];
        eval_arg;
        eapply members_last_rel;
          [ reflexivity | lit | lit | reflexivity
          | eapply value_array_nil_rel; [lit | reflexivity | lit | reflexivity]
          | lit | reflexivity ]
      | reflexivity ]).
    - set (tail := (L "  ]" ++ L nl ++ L "}" ++ L nl)%list).
      assert (Hne : d :: ds <> []) by discriminate.
      destruct (elements_entries (d :: ds) Hne Hsafe f (L nl) tail
                  (L nl ++ L "}" ++ L nl)%list "]"%char eq_refl eq_refl eq_refl)
        as (vs & Hvs & Hsevs).
      destruct (skip_ws_entries (d :: ds) (L nl) tail Hne eq_refl)
        as (c & rest & Hskip & Hc93).
      destruct (success result); norm_text; eexists; (split; [
        eapply value_object_rel; [lit | reflexivity | lit | reflexivity |];
        eval_arg;
        eapply members_more_rel;
          [ reflexivity | lit | lit | reflexivity
          | first [ eapply (value_bool_rel _ _ _ true); lit
                  | eapply (value_bool_rel _ _ _ false); lit ]
          | lit | reflexivity | ];
        eval_arg;
        eapply members_more_rel;
          [ reflexivity | lit | lit | reflexivity
          | apply Hnum; reflexivity
          | lit | reflexivity | ];
        eval_arg;
        eapply members_last_rel;
          [ reflexivity | lit | lit | reflexivity
          | eapply value_array_rel;
              [lit | reflexivity | exact Hskip | exact Hc93 | exact Hvs]
          | lit | reflexivity ]
      | cbn; exact Hsevs ]). }
  destruct Hv as (v & Hv & Hsev).
  unfold read_back, parse. rewrite Hv. cbn. exact Hsev.
Qed.

End JsonRoundTrip.

(** On the sample platform, which prints the duration as an integer, the
    condition on the strings is the only one. *)
Corollary read_back_safe_sample (sdk : bool) (result : CompilationResult) :
  (forall d, In d (diagnostics result) ->
     json_safe (file d) = true /\ json_safe (message d) = true) ->
  read_back (P := Sample.platform sdk) result
    = Some (map severity_lower (diagnostics result)).
Proof.
  intros Hsafe. apply read_back_safe; [exact Hsafe |].
  apply number_token_show_int.
Qed.

(** * Further properties of the code *)

(** ** The engine adapter: a run that goes through *)

Section AdapterRuns.

Context {P : Platform}.

Ltac unfold_cxx :=
  unfold compile, compile_body, try_block, catch_clauses, current_path,
    set_current_path, on_result, on_machine, initialize, shutdown, on_world,
    on_self, zoom, try_catch, bind, ret, get, modify, call in *;
  cbn in *.

Ltac innermost x :=
  lazymatch x with
  | context [match _ with _ => _ end] => fail
  | _ => idtac
  end.

Ltac case_split :=
  repeat match goal with
         | |- context [match ?x with _ => _ end] =>
             innermost x; destruct x eqn:?; cbn in *
         | H : context [match ?x with _ => _ end] |- _ =>
             innermost x; destruct x eqn:?; cbn in *
         end.

(** The translated severities mirror the message types. *)
Lemma count_translated (options : CompilerOptions) (msgs : list ParserMessage) :
  count is_Error (map (translate options) msgs)
    = Z.of_nat (length (filter is_Type_Error msgs))
  /\ count is_Warning (map (translate options) msgs)
    = Z.of_nat (length (filter (fun m => negb (is_Type_Error m)) msgs)).
Proof.
  unfold count. induction msgs as [| pm msgs [IHe IHw]]; [split; reflexivity |].
  cbn [map filter]. unfold is_Error, is_Warning, is_Type_Error in *.
  cbn [translate severity]. destruct (type pm); cbn [translate_severity negb length];
    split; lia.
Qed.

(** What [compile] returns when nothing fails on the way. *)
Lemma compile_runs_through (env : Environment) (options : CompilerOptions)
  (m : Machine) (msgs : list ParserMessage) :
  runs_through env msgs ->
  exists m',
    compile env options m
      = (Normal (set_compilationTimeMs (clock_elapsed_ms env)
                   (conclude options
                      (drain options msgs CompilationResult_default))), m')
    /\ cwd (world m') = cwd (world m)
    /\ m_initialized (self m') = true
    /\ opened (world m') = opened (world m)
    /\ written (world m') = written (world m)
    /\ stdout (world m') = stdout (world m)
    /\ stderr (world m') = stderr (world m).
Proof.
  intros (Hsdk & Hboot & H1 & H2 & H3 & Hcanon & Hcd & Hopen & H4 & H5 & H6 & H7
          & H8 & H9 & H10 & H11).
  destruct m as [[i a c] w].
  destruct (Hcanon
              (if path_is_relative (path_of_wstring (widen (inputFile options)))
               then path_append (cwd w) (path_of_wstring (widen (inputFile options)))
               else path_of_wstring (widen (inputFile options)))) as [d Hd].
  assert (Hinit : i = true
                  \/ AfxGetApp env = true
                  \/ (AfxGetApp env = false /\ AfxWinInit env = Normal tt)).
  { destruct i; [left; reflexivity | right].
    destruct (AfxGetApp env); [left; reflexivity | right].
    destruct Hboot; [discriminate | split; [reflexivity | assumption]]. }
  destruct (SystemMessages_LoadMessages env) eqn:Hl;
    destruct Hinit as [-> | [Hg | [Hg Hb]]];
    unfold_cxx;
    repeat (progress (rewrite ?Hsdk, ?Hg, ?Hb, ?Hl, ?H1, ?H2, ?H3, ?H4, ?H5, ?H6,
                        ?H7, ?H8, ?H9, ?H10, ?H11, ?Hd, ?Hcd, ?Hopen); cbn);
    try (destruct i; cbn;
         repeat (progress (rewrite ?Hsdk, ?Hg, ?Hb, ?Hl, ?H1, ?H2, ?H3, ?H4, ?H5,
                             ?H6, ?H7, ?H8, ?H9, ?H10, ?H11, ?Hd, ?Hcd, ?Hopen);
                 cbn));
    eexists; (split; [reflexivity |]); cbn; repeat split.
Qed.

Lemma initialize_runs_through (env : Environment) (m : Machine)
  (msgs : list ParserMessage) :
  runs_through env msgs -> fst (initialize env m) = Normal true.
Proof.
  intros (Hsdk & Hboot & _). destruct m as [[i a c] w]. unfold_cxx.
  rewrite Hsdk. destruct i; cbn; [reflexivity |].
  destruct (AfxGetApp env); cbn.
  - destruct (SystemMessages_LoadMessages env); reflexivity.
  - destruct Hboot as [Hb | Hb]; [discriminate |]. rewrite Hb. cbn.
    destruct (SystemMessages_LoadMessages env); reflexivity.
Qed.

Lemma no_Type_Error (msgs : list ParserMessage) :
  (Z.of_nat (length (filter is_Type_Error msgs)) =? 0)%Z
    = negb (existsb is_Type_Error msgs).
Proof.
  induction msgs as [| pm msgs IH]; [reflexivity |].
  cbn [filter existsb]. destruct (is_Type_Error pm); cbn [length orb negb].
  - apply Z.eqb_neq. lia.
  - exact IH.
Qed.

(** The result of a run that goes through, field by field. *)
Lemma concluded_drain (options : CompilerOptions) (msgs : list ParserMessage)
  (t : Q) :
  let r := set_compilationTimeMs t
             (conclude options (drain options msgs CompilationResult_default)) in
  diagnostics r = map (translate options) msgs
  /\ errorCount r = Z.of_nat (length (filter is_Type_Error msgs))
  /\ warningCount r
     = Z.of_nat (length (filter (fun pm => negb (is_Type_Error pm)) msgs))
  /\ success r = negb (existsb is_Type_Error msgs)
  /\ compilationTimeMs r = t.
Proof.
  destruct (drain_spec options msgs CompilationResult_default)
    as (Hd & He & Hw & _ & _).
  destruct (count_translated options msgs) as [Hce Hcw].
  cbn in Hd, He, Hw. rewrite Hce in He. rewrite Hcw in Hw.
  cbv zeta. unfold conclude. rewrite He, no_Type_Error.
  destruct (existsb is_Type_Error msgs); cbn; rewrite ?Hd, ?He, ?Hw;
    repeat split.
Qed.

(** X5. When the engine bootstraps and every step of [compile] returns
    normally, the result lists the drained messages translated one by one
    in the order of the session, [errorCount] is the number of messages of
    type [Error], [warningCount] the number of all others (warnings and
    both kinds of deprecation), [success] says that no message is an
    [Error], and the duration is the one the clock measured. *)
Theorem compile_reports_messages_in_order (env : Environment)
  (options : CompilerOptions) (m m' : Machine) (msgs : list ParserMessage)
  (r : CompilationResult) :
  runs_through env msgs ->
  compile env options m = (Normal r, m') ->
  diagnostics r = map (translate options) msgs
  /\ errorCount r = Z.of_nat (length (filter is_Type_Error msgs))
  /\ warningCount r
     = Z.of_nat (length (filter (fun pm => negb (is_Type_Error pm)) msgs))
  /\ success r = negb (existsb is_Type_Error msgs)
  /\ compilationTimeMs r = clock_elapsed_ms env.
Proof.
  intros Hrun H.
  destruct (compile_runs_through env options m msgs Hrun) as (m0 & H0 & _).
  rewrite H in H0. injection H0 as Hr _. subst r.
  apply concluded_drain.
Qed.

(** X6. [compiledOutput] is filled in exactly when the compilation
    succeeds: it is then the input path with its extension replaced by
    [.pen], and it is empty in every failed result. *)
Theorem compile_compiledOutput (env : Environment) (options : CompilerOptions)
  (m m' : Machine) (r : CompilationResult) :
  compile env options m = (Normal r, m') ->
  compiledOutput r
    = if success r
      then path_string
             (path_replace_extension (path_of_string (inputFile options)) ".pen")
      else "".
Proof.
  intros H. destruct m as [[i a c] w]. unfold_cxx. unfold conclude in H.
  repeat match type of H with
         | context [match ?x with _ => _ end] =>
             innermost x; destruct x eqn:?; cbn in H
         end;
    inversion H; subst; cbn; try reflexivity.
  all: match goal with
       | |- context [drain ?o ?l ?r0] =>
           destruct (drain_spec o l r0) as (_ & _ & _ & Hs & Ho)
       end; cbn in *; rewrite ?Hs, ?Ho; reflexivity.
Qed.

(** X7. No diagnostic of a returned result has severity [Info]: every
    entry is an [Error] or a [Warning], so the two counts of entries add up
    to the length of the sequence, and the lower-case literal the renderers
    print for an entry is the one [getSeverityString] gives. *)
Theorem compile_never_reports_Info (env : Environment) (options : CompilerOptions)
  (m m' : Machine) (r : CompilationResult) :
  compile env options m = (Normal r, m') ->
  (forall d, In d (diagnostics r) ->
     severity d <> Info /\ severity_lower d = getSeverityString d)
  /\ count is_Error (diagnostics r) + count is_Warning (diagnostics r)
     = Z.of_nat (length (diagnostics r)).
Proof.
  intros H.
  assert (Hall : forall d, In d (diagnostics r) -> severity d <> Info).
  { destruct (compile_result_shape env options m) as (r0 & m0 & H0 & Hs).
    rewrite H in H0. injection H0 as <- <-.
    destruct Hs as [(msgs & _ & Hd & _) | [(d0 & Hd & Hsev & _) | (_ & _ & Hd & _)]];
      rewrite Hd; intros d Hin.
    - apply in_map_iff in Hin. destruct Hin as (pm & <- & _).
      cbn. destruct (type pm); discriminate.
    - destruct Hin as [<- | []]. rewrite Hsev. discriminate.
    - destruct Hin. }
  split.
  - intros d Hin. split; [exact (Hall d Hin) |].
    specialize (Hall d Hin). unfold severity_lower, getSeverityString.
    destruct (severity d); [reflexivity | reflexivity | contradiction].
  - unfold count. revert Hall.
    induction (diagnostics r) as [| d ds IH]; intros Hall; [reflexivity |].
    assert (Hd : severity d <> Info) by (apply Hall; left; reflexivity).
    assert (IH' := IH (fun d' Hd' => Hall d' (or_intror Hd'))).
    cbn [filter]. unfold is_Error, is_Warning in *.
    destruct (severity d); cbn [length]; [lia | lia | contradiction].
Qed.

(** X8. [compile] does not take an initialized engine out of the
    initialized state, and whatever state it starts from, the engine is
    initialized afterwards unless the result is the one that reports the
    failed initialization. *)
Theorem compile_keeps_initialized (env : Environment) (options : CompilerOptions)
  (m m' : Machine) (r : CompilationResult) :
  compile env options m = (Normal r, m') ->
  (m_initialized (self m) = true -> m_initialized (self m') = true)
  /\ (m_initialized (self m') = true
      \/ (diagnostics r = [Failed_to_initialize]
          /\ success r = false /\ self m' = self m)).
Proof.
  intros H. destruct m as [[[|] a c] w]; unfold_cxx;
    repeat match type of H with
           | context [match ?x with _ => _ end] =>
               innermost x; destruct x eqn:?; cbn in H
           end;
    inversion H; subst; cbn;
    (split;
     [ intros; first [reflexivity | discriminate]
     | first [left; reflexivity | right; repeat split; reflexivity] ]).
Qed.

(** X9. [shutdown] always returns, leaves the process as it is and the
    engine uninitialized, and doing it twice is the same as doing it once;
    a later [initialize] consults the environment again and ends as it
    would on a newly created engine. *)
Theorem shutdown_resets (env : Environment) (m : Machine) :
  exists m1,
    shutdown m = (Normal tt, m1)
    /\ world m1 = world m
    /\ m_initialized (self m1) = false
    /\ shutdown m1 = (Normal tt, m1)
    /\ fst (initialize env m1)
       = fst (initialize env {| self := CSProEngineImpl_new; world := world m |}).
Proof.
  destruct m as [[i a c] w].
  unfold shutdown, bind, on_self, modify, ret.
  destruct CSPRO_SDK_AVAILABLE eqn:Hsdk; cbn -[initialize]; eexists;
    (split; [reflexivity |]); (split; [reflexivity |]);
    (split; [reflexivity |]); (split; [reflexivity |]);
    apply initialize_outcome; reflexivity.
Qed.

End AdapterRuns.

(** *** Wide and narrow strings, positions *)

Lemma narrow_widen_char (c : ascii) : narrow_char (widen_char c) = c.
Proof.
  unfold narrow_char, widen_char. cbv zeta.
  pose proof (N_ascii_bounded c) as Hb.
  destruct (N_of_ascii c <? 128)%N.
  - rewrite N.mod_small by exact Hb. apply ascii_N_embedding.
  - change 65280%N with (255 * 256)%N.
    rewrite N.Div0.mod_add, N.mod_small by exact Hb. apply ascii_N_embedding.
Qed.

(** X10. Widening a narrow string, as [compile] does with the input path,
    and narrowing it again, as it does with the texts of a message, gives
    the string back, also for bytes above 127. *)
Theorem narrow_widen (s : string) : narrow (widen s) = s.
Proof.
  unfold narrow, widen. rewrite map_map.
  induction s as [| c s IH]; [reflexivity |].
  cbn [list_ascii_of_string map string_of_list_ascii].
  rewrite narrow_widen_char, IH. reflexivity.
Qed.

(** X11. A position below 2^31 is copied into the diagnostic as it is;
    any position lands in the range of [int]. *)
Theorem translate_keeps_position (options : CompilerOptions) (pm : ParserMessage) :
  0 <= line_number pm < 2147483648 ->
  0 <= position_in_line pm < 2147483648 ->
  line (translate options pm) = line_number pm
  /\ column (translate options pm) = position_in_line pm
  /\ forall pm', -2147483648 <= line (translate options pm') < 2147483648
               /\ -2147483648 <= column (translate options pm') < 2147483648.
Proof.
  intros Hl Hc. cbn [translate line column]. unfold to_int. repeat split.
  - rewrite Z.mod_small by lia. lia.
  - rewrite Z.mod_small by lia. lia.
  - pose proof (Z.mod_pos_bound (line_number pm' + 2147483648) 4294967296). lia.
  - pose proof (Z.mod_pos_bound (line_number pm' + 2147483648) 4294967296). lia.
  - pose proof (Z.mod_pos_bound (position_in_line pm' + 2147483648) 4294967296). lia.
  - pose proof (Z.mod_pos_bound (position_in_line pm' + 2147483648) 4294967296). lia.
Qed.

(** *** The adapter's further properties at concrete inputs *)

Ltac prove_runs_through :=
  repeat split;
  first [ reflexivity | right; reflexivity | intros; eexists; reflexivity ].

Lemma compile_warningCount_exact_witness :
  warningCount (returned (fst (example_compile env_two_messages)))
    = count is_Warning
        (diagnostics (returned (fst (example_compile env_two_messages)))).
Proof.
  apply (compile_warningCount_exact (P := Sample.platform true)
           env_two_messages (Sample.options "/projects/census/app.ent")
           (fresh_machine (Sample.platform true) "/home/user")
           (snd (example_compile env_two_messages))).
  vm_compute. reflexivity.
Defined.

Lemma compile_success_counts_witness :
  success (returned (fst (example_compile env_no_messages))) = true
  /\ errorCount (returned (fst (example_compile env_no_messages))) = 0
  /\ count is_Error
       (diagnostics (returned (fst (example_compile env_no_messages)))) = 0.
Proof.
  split; [vm_compute; reflexivity |].
  apply (compile_success_counts (P := Sample.platform true)
           env_no_messages (Sample.options "/projects/census/app.ent")
           (fresh_machine (Sample.platform true) "/home/user")
           (snd (example_compile env_no_messages))).
  - vm_compute. reflexivity.
  - vm_compute. reflexivity.
Defined.

Lemma compile_success_iff_no_Error_witness :
  success (returned (fst (example_compile env_Open_throws))) = true
  <-> count is_Error
        (diagnostics (returned (fst (example_compile env_Open_throws)))) = 0.
Proof.
  apply (compile_success_iff_no_Error (P := Sample.platform true)
           env_Open_throws (Sample.options "/projects/census/app.ent")
           (fresh_machine (Sample.platform true) "/home/user")
           (snd (example_compile env_Open_throws))).
  - reflexivity.
  - vm_compute. reflexivity.
Defined.

Lemma compile_restores_cwd_witness :
  cwd (world (snd (example_compile env_Load_fails))) = "/home/user".
Proof.
  apply (compile_restores_cwd (P := Sample.platform true)
           env_Load_fails (Sample.options "/projects/census/app.ent")
           (fresh_machine (Sample.platform true) "/home/user"));
    intros; reflexivity.
Defined.

Lemma compile_reports_messages_in_order_witness :
  let r := returned (fst (example_compile env_two_messages)) in
  diagnostics r
    = map (translate (Sample.options "/projects/census/app.ent"))
        (messages_of env_two_messages)
  /\ errorCount r = 1 /\ warningCount r = 1 /\ success r = false
  /\ compilationTimeMs r = 0%Q.
Proof.
  cbv zeta.
  apply (compile_reports_messages_in_order (P := Sample.platform true)
           env_two_messages (Sample.options "/projects/census/app.ent")
           (fresh_machine (Sample.platform true) "/home/user")
           (snd (example_compile env_two_messages))
           (messages_of env_two_messages)).
  - prove_runs_through.
  - vm_compute. reflexivity.
Defined.

Lemma compile_compiledOutput_witness :
  compiledOutput (returned (fst (example_compile env_no_messages)))
    = "/projects/census/app.pen"
  /\ compiledOutput (returned (fst (example_compile env_two_messages))) = "".
Proof.
  split.
  - apply (compile_compiledOutput (P := Sample.platform true)
             env_no_messages (Sample.options "/projects/census/app.ent")
             (fresh_machine (Sample.platform true) "/home/user")
             (snd (example_compile env_no_messages))).
    vm_compute. reflexivity.
  - apply (compile_compiledOutput (P := Sample.platform true)
             env_two_messages (Sample.options "/projects/census/app.ent")
             (fresh_machine (Sample.platform true) "/home/user")
             (snd (example_compile env_two_messages))).
    vm_compute. reflexivity.
Defined.

Lemma compile_never_reports_Info_witness :
  let r := returned (fst (example_compile env_two_messages)) in
  (forall d, In d (diagnostics r) ->
     severity d <> Info /\ severity_lower d = getSeverityString d)
  /\ count is_Error (diagnostics r) + count is_Warning (diagnostics r) = 2.
Proof.
  cbv zeta.
  apply (compile_never_reports_Info (P := Sample.platform true)
           env_two_messages (Sample.options "/projects/census/app.ent")
           (fresh_machine (Sample.platform true) "/home/user")
           (snd (example_compile env_two_messages))).
  vm_compute. reflexivity.
Defined.

Lemma compile_keeps_initialized_witness :
  m_initialized (self (snd (example_compile env_Load_fails))) = true
  \/ (diagnostics (returned (fst (example_compile env_Load_fails)))
        = [Failed_to_initialize]
      /\ success (returned (fst (example_compile env_Load_fails))) = false
      /\ self (snd (example_compile env_Load_fails))
         = self (fresh_machine (Sample.platform true) "/home/user")).
Proof.
  apply (proj2 (compile_keeps_initialized (P := Sample.platform true)
                  env_Load_fails (Sample.options "/projects/census/app.ent")
                  (fresh_machine (Sample.platform true) "/home/user")
                  (snd (example_compile env_Load_fails))
                  (returned (fst (example_compile env_Load_fails)))
                  ltac:(vm_compute; reflexivity))).
Defined.

Lemma translate_keeps_position_witness :
  let pm :=
    {| line_number := 14; position_in_line := 7; type := Type_Error;
       message_text := []; what := "Invalid symbol"; proc_name := [];
       compilation_unit_name := [] |} in
  line (translate (Sample.options "app.ent") pm) = 14
  /\ column (translate (Sample.options "app.ent") pm) = 7.
Proof.
  cbv zeta.
  destruct (translate_keeps_position (Sample.options "app.ent")
              {| line_number := 14; position_in_line := 7; type := Type_Error;
                 message_text := []; what := "Invalid symbol"; proc_name := [];
                 compilation_unit_name := [] |})
    as (Hl & Hc & _); [simpl; lia | simpl; lia |].
  split; [exact Hl | exact Hc].
Defined.

(** ** The driver *)

Section DriverRuns.

Context {P : Platform}.

Ltac unfold_cxx :=
  unfold compile, compile_body, try_block, catch_clauses, current_path,
    set_current_path, on_result, on_machine, initialize, shutdown, on_world,
    on_self, zoom, try_catch, bind, ret, get, modify, call in *;
  cbn in *.

Ltac innermost x :=
  lazymatch x with
  | context [match _ with _ => _ end] => fail
  | _ => idtac
  end.

Ltac case_split :=
  repeat match goal with
         | |- context [match ?x with _ => _ end] =>
             innermost x; destruct x eqn:?; cbn in *
         end.

(** [initialize] and [compile] write nothing on the standard streams. *)
Lemma initialize_streams (env : Environment) (m : Machine) :
  stdout (world (snd (initialize env m))) = stdout (world m)
  /\ stderr (world (snd (initialize env m))) = stderr (world m).
Proof.
  destruct m as [[i a c] w]. unfold_cxx. case_split; cbn; auto.
Qed.

Lemma compile_streams (env : Environment) (options : CompilerOptions) (m : Machine) :
  stdout (world (snd (compile env options m))) = stdout (world m)
  /\ stderr (world (snd (compile env options m))) = stderr (world m).
Proof.
  destruct m as [[i a c] w]. unfold_cxx. case_split; cbn; auto.
Qed.

(** Everything but the working directory, the locale and the engine
    bookkeeping is as [compile] found it. *)
Lemma string_app_assoc (a b c : string) : ((a ++ b) ++ c = a ++ b ++ c)%string.
Proof. induction a; cbn; congruence. Qed.

Lemma string_app_nil_r (a : string) : (a ++ "" = a)%string.
Proof. induction a; cbn; congruence. Qed.

(** The steps of the driver's [compile]: the announcement, the
    initialization of a new engine and then either the early return or the
    compilation, the shutdown and the saving of the logs. *)
Lemma driver_compile_steps (env : Environment) (c : CSProCommandLineCompiler)
  (w : World) :
  exists b m2,
    initialize env
      {| self := CSProEngineImpl_new; world := cout (announcement c) w |}
      = (Normal b, m2)
    /\ b = (match fst (initialize env {| self := CSProEngineImpl_new; world := w |})
           with Normal x => x | Throws _ => false end)
    /\ if b then
         exists r m3 w5,
           compile env (driver_options c) m2 = (Normal r, m3)
           /\ save_errors env c r (world m3) = (Normal tt, w5)
           /\ driver_compile env c w = (Normal r, w5)
       else
         driver_compile env c w
           = (Normal (Failed_to_initialize_compiler env), world m2).
Proof.
  set (m1 := {| self := CSProEngineImpl_new; world := cout (announcement c) w |}).
  destruct (initialize_returns env m1) as (b & m2 & Hi & _).
  exists b, m2. split; [exact Hi |]. split.
  { rewrite (initialize_outcome env _ m1) by reflexivity. rewrite Hi. reflexivity. }
  assert (Hpre :
    (if verboseMode c
     then bind (on_world (cout ("Compiling: " ++ cl_inputFile c ++ endl)))
            (fun _ => if checkOnly c
                      then on_world (cout ("Mode: Syntax check only" ++ endl))
                      else ret tt)
     else ret tt) {| self := CSProEngineImpl_new; world := w |}
    = (Normal tt, m1)).
  { subst m1. unfold announcement, cout, bind, on_world, modify, ret.
    destruct w. destruct (verboseMode c), (checkOnly c); cbn;
      repeat (progress (rewrite ?string_app_assoc, ?string_app_nil_r; cbn));
      reflexivity. }
  destruct b.
  - destruct (compile_result_shape env (driver_options c) m2) as (r & m3 & Hc & _).
    assert (Hsh : exists m4, shutdown m3 = (Normal tt, m4) /\ world m4 = world m3).
    { unfold shutdown, bind, on_self, modify, ret.
      destruct CSPRO_SDK_AVAILABLE; eexists; split; reflexivity. }
    destruct Hsh as (m4 & Hsh & Hw4).
    destruct (save_errors_spec env c r (world m4)) as (w5 & Hs & _).
    exists r, m3, w5. rewrite <- Hw4. split; [exact Hc |]. split; [exact Hs |].
    unfold driver_compile, zoom, driver_compile_on_engine.
    unfold bind at 1. rewrite Hpre. unfold bind at 1. rewrite Hi. cbn [negb].
    fold (driver_options c). unfold bind at 1. rewrite Hc.
    unfold bind at 1. rewrite Hsh.
    unfold bind at 1, zoom. rewrite Hs. reflexivity.
  - unfold driver_compile, zoom, driver_compile_on_engine.
    unfold bind at 1. rewrite Hpre. unfold bind at 1. rewrite Hi. reflexivity.
Qed.

(** X12. When [std::filesystem::exists] answers, [validateInputFile]
    accepts the file exactly when it exists and its extension is [.ent],
    [.bch] or [.pff] (in this spelling); it then changes nothing.  A
    rejection leaves a non-empty message on the standard error and touches
    nothing else: not the standard output, not the files, not the engine.
    When [exists] throws, the exception leaves [validateInputFile] and
    nothing has been written. *)
Theorem validateInputFile_spec (env : Environment) (c : CSProCommandLineCompiler)
  (w : World) :
  match fs_exists env (cl_inputFile c) with
  | Normal found =>
      exists msg,
        validateInputFile env c w
          = (Normal
               (found
                && accepted_extension
                     (path_string
                        (path_extension (path_of_string (cl_inputFile c))))),
             cerr msg w)
        /\ (msg = ""
            <-> found
                && accepted_extension
                     (path_string
                        (path_extension (path_of_string (cl_inputFile c))))
                = true)
  | Throws e => validateInputFile env c w = (Throws e, w)
  end.
Proof.
  unfold validateInputFile, accepted_extension, bind, call, modify, ret.
  set (ext := path_string (path_extension (path_of_string (cl_inputFile c)))).
  assert (Hnil : cerr "" w = w).
  { destruct w. unfold cerr. cbn. rewrite string_app_nil_r. reflexivity. }
  destruct (fs_exists env (cl_inputFile c)) as [[|] | e]; cbn [negb andb].
  - destruct (ext =? ".ent")%string; cbn [negb andb orb].
    + exists "". rewrite Hnil. split; [reflexivity | split; reflexivity].
    + destruct (ext =? ".bch")%string; cbn [negb andb orb].
      * exists "". rewrite Hnil. split; [reflexivity | split; reflexivity].
      * destruct (ext =? ".pff")%string; cbn [negb andb orb].
        -- exists "". rewrite Hnil. split; [reflexivity | split; reflexivity].
        -- eexists. split; [reflexivity |]. split; intros H; discriminate H.
  - eexists. split; [reflexivity |]. split; intros H; discriminate H.
  - reflexivity.
Qed.

(** X16. [outputJson] writes the report to exactly one place and never to
    the standard error.  Without an output file it goes to the standard
    output.  With one, the standard output stays as it is and the file is
    opened; it receives the text if it opens, and if it does not open the
    report is written nowhere. *)
Theorem outputJson_destination (env : Environment) (c : CSProCommandLineCompiler)
  (r : CompilationResult) (w : World) :
  exists w',
    outputJson env c r w = (Normal tt, w')
    /\ stderr w' = stderr w
    /\ (cl_outputFile c = "" -> w' = cout (json_text r) w)
    /\ (cl_outputFile c <> "" ->
        stdout w' = stdout w
        /\ opened w' = (opened w ++ [path_of_string (cl_outputFile c)])%list
        /\ written w'
           = (written w
              ++ (if ofstream_is_open env (path_of_string (cl_outputFile c))
                  then [(path_of_string (cl_outputFile c), json_text r)]
                  else []))%list).
Proof.
  unfold outputJson, bind, modify, ret.
  destruct (cl_outputFile c) as [| ch rest] eqn:Hf; cbn [empty negb].
  - eexists. split; [reflexivity |]. split; [reflexivity |].
    split; [reflexivity | intros H; contradiction].
  - destruct (ofstream_is_open env (path_of_string (String ch rest)));
      eexists; (split; [reflexivity |]); (split; [reflexivity |]);
      (split; [intros H; discriminate H |]); intros _; cbn;
      rewrite ?app_nil_r; repeat split.
Qed.

Lemma count_nl_text_line (d : DiagnosticMessage) :
  count_nl (file d) = 0%nat -> count_nl (message d) = 0%nat ->
  count_nl (text_line d) = 1%nat.
Proof.
  intros Hf Hm. unfold text_line.
  assert (Hs : count_nl (severity_lower d) = 0%nat)
    by (unfold severity_lower; destruct (severity d); reflexivity).
  repeat rewrite count_nl_app.
  rewrite Hf, Hm, Hs, !count_nl_show_int. reflexivity.
Qed.

Lemma count_nl_concat_map (f : DiagnosticMessage -> string) (k : nat)
  (ds : list DiagnosticMessage) :
  (forall d, In d ds -> count_nl (f d) = k) ->
  count_nl (String.concat "" (map f ds)) = (k * length ds)%nat.
Proof.
  induction ds as [| d ds IH]; intros H; [cbn; lia |].
  assert (Hc : String.concat "" (map f (d :: ds))
               = (f d ++ String.concat "" (map f ds))%string).
  { cbn [map String.concat]. destruct (map f ds); cbn.
    - rewrite string_app_nil_r. reflexivity.
    - reflexivity. }
  rewrite Hc, count_nl_app, (H d (or_introl eq_refl)).
  rewrite IH by (intros d' Hd'; apply H; right; exact Hd').
  cbn [length]. lia.
Qed.

(** X17. [outputText] opens and writes no file.  It reports a success on
    the standard output only ([Compilation successful!] and, in verbose
    mode, the time line) and a failure on the standard error only.  A
    failure is a summary line followed by one line per diagnostic: when no
    file name and no message contains a line feed, the standard error
    grows by exactly that many lines. *)
Theorem outputText_channels (c : CSProCommandLineCompiler) (r : CompilationResult)
  (w : World) :
  exists w',
    outputText c r w = (Normal tt, w')
    /\ opened w' = opened w /\ written w' = written w
    /\ if success r then
         stderr w' = stderr w
         /\ stdout w'
            = stdout w ++ "Compilation successful!" ++ endl
                ++ (if verboseMode c
                    then "Compilation time: "
                           ++ show_double (compilationTimeMs r / 1000)%Q
                           ++ " seconds" ++ endl
                    else "")
       else
         stdout w' = stdout w
         /\ ((forall d, In d (diagnostics r) ->
                count_nl (file d) = 0%nat /\ count_nl (message d) = 0%nat) ->
             count_nl (stderr w')
             = (count_nl (stderr w) + 1 + length (diagnostics r))%nat).
Proof.
  unfold outputText, bind, modify, ret.
  destruct (success r).
  - destruct (verboseMode c); eexists; (split; [reflexivity |]); cbn;
      rewrite ?string_app_assoc; repeat split.
  - destruct (warningCount r >? 0)%Z; eexists; (split; [reflexivity |]);
      cbn [stdout stderr opened written cerr cout];
      (split; [reflexivity |]); (split; [reflexivity |]);
      (split; [reflexivity |]); intros Hnl;
      repeat rewrite count_nl_app; rewrite !count_nl_show_int;
      rewrite (count_nl_concat_map text_line 1)
        by (intros d Hd; apply count_nl_text_line; apply Hnl; exact Hd);
      cbn; lia.
Qed.

(** X18. The detailed log is a header of seven lines followed by four
    lines per diagnostic (when the input path, the build stamps, the
    messages and the file names contain no line feed). *)
Theorem detailed_log_lines (c : CSProCommandLineCompiler) (r : CompilationResult) :
  count_nl (cl_inputFile c) = 0%nat ->
  count_nl macro_DATE = 0%nat -> count_nl macro_TIME = 0%nat ->
  (forall d, In d (diagnostics r) ->
     count_nl (file d) = 0%nat /\ count_nl (message d) = 0%nat) ->
  count_nl (detailed_log c r) = (7 + 4 * length (diagnostics r))%nat.
Proof.
  intros Hf Hd Ht Hnl. unfold detailed_log.
  repeat rewrite count_nl_app.
  rewrite Hf, Hd, Ht, !count_nl_show_int.
  rewrite (count_nl_concat_map detailed_record 4).
  - cbn. lia.
  - intros d Hin. destruct (Hnl d Hin) as [H1 H2]. unfold detailed_record.
    assert (Hs : count_nl (SEVERITY d) = 0%nat)
      by (unfold SEVERITY; destruct (severity d); reflexivity).
    repeat rewrite count_nl_app.
    rewrite H1, H2, Hs, !count_nl_show_int. reflexivity.
Qed.

Lemma save_errors_streams (env : Environment) (c : CSProCommandLineCompiler)
  (r : CompilationResult) (w : World) :
  stderr (snd (save_errors env c r w)) = stderr w
  /\ cwd (snd (save_errors env c r w)) = cwd w
  /\ (verboseMode c = false \/ diagnostics r = [] ->
      stdout (snd (save_errors env c r w)) = stdout w).
Proof.
  unfold save_errors, bind, modify, ret.
  destruct (diagnostics r) as [| d ds]; [cbn; auto |].
  destruct (ofstream_is_open env (errorFilePath c)),
           (ofstream_is_open env (formattedFilePath c)),
           (verboseMode c); cbn; repeat split; auto;
    intros [H | H]; discriminate H.
Qed.

(** X21. The driver's [compile] never writes on the standard error, and
    without the verbose flag it writes nothing on the standard output
    either; with the flag the output starts with the announcement, and that
    is all of it when there is no diagnostic to save. *)
Theorem driver_compile_prints (env : Environment) (c : CSProCommandLineCompiler)
  (w w' : World) (r : CompilationResult) :
  driver_compile env c w = (Normal r, w') ->
  stderr w' = stderr w
  /\ (verboseMode c = false -> stdout w' = stdout w)
  /\ (diagnostics r = [] -> stdout w' = stdout w ++ announcement c).
Proof.
  intros H.
  destruct (driver_compile_steps env c w) as (b & m2 & Hi & _ & Hrest).
  pose proof (initialize_streams env
                {| self := CSProEngineImpl_new; world := cout (announcement c) w |})
    as [Hio Hie].
  rewrite Hi in Hio, Hie. cbn [snd world] in Hio, Hie.
  assert (Hquiet : verboseMode c = false -> announcement c = "")
    by (unfold announcement; intros ->; reflexivity).
  destruct b.
  - destruct Hrest as (r0 & m3 & w5 & Hc & Hs & Hd). rewrite H in Hd.
    injection Hd as <- <-.
    pose proof (compile_streams env (driver_options c) m2) as [Hco Hce].
    rewrite Hc in Hco, Hce. cbn [snd] in Hco, Hce.
    pose proof (save_errors_streams env c r (world m3)) as (Hse & _ & Hso).
    rewrite Hs in Hse, Hso. cbn [snd] in Hse, Hso.
    split; [| split].
    + rewrite Hse, Hce, Hie. destruct w; reflexivity.
    + intros Hv. rewrite (Hso (or_introl Hv)), Hco, Hio.
      destruct w; cbn. rewrite (Hquiet Hv). apply string_app_nil_r.
    + intros Hn. rewrite (Hso (or_intror Hn)), Hco, Hio.
      destruct w; reflexivity.
  - rewrite H in Hrest. injection Hrest as -> ->.
    split; [| split].
    + rewrite Hie. destruct w; reflexivity.
    + intros Hv. rewrite Hio. destruct w; cbn. rewrite (Hquiet Hv).
      apply string_app_nil_r.
    + intros Hn. cbn in Hn. discriminate Hn.
Qed.

End DriverRuns.

(** ** The whole program *)

Section WholeProgram.

Context {P : Platform}.

(** How the argument loop can end. *)
Lemma parse_arguments_outcome (programName : string) (args : list string) :
  forall (compiler : CSProCommandLineCompiler) (w : World),
    (exists compiler',
        parse_arguments programName compiler args w
          = (Normal (Configured compiler'), w))
    \/ parse_arguments programName compiler args w
         = (Normal (Exit 0), cout (usage programName) w)
    \/ (exists w', parse_arguments programName compiler args w
                     = (Normal (Exit 1), w')).
Proof.
  induction args as [| a | a b l IHl IHbl] using args_ind; intros c w.
  - left. eexists. reflexivity.
  - cbn [parse_arguments].
    destruct (a =? "-h")%string; [right; left; reflexivity |].
    destruct (a =? "--help")%string; [right; left; reflexivity |]. cbn [orb].
    destruct (a =? "-v")%string; [left; eexists; reflexivity |].
    destruct (a =? "--check-only")%string; [left; eexists; reflexivity |].
    destruct (a =? "--json")%string; [left; eexists; reflexivity |].
    destruct (a =? "-o")%string; [right; right; eexists; reflexivity |].
    destruct (first_is_not_dash a);
      [left; eexists; reflexivity | right; right; eexists; reflexivity].
  - cbn [parse_arguments].
    destruct (a =? "-h")%string; [right; left; reflexivity |].
    destruct (a =? "--help")%string; [right; left; reflexivity |]. cbn [orb].
    destruct (a =? "-v")%string; [apply IHbl |].
    destruct (a =? "--check-only")%string; [apply IHbl |].
    destruct (a =? "--json")%string; [apply IHbl |].
    destruct (a =? "-o")%string; [apply IHl |].
    destruct (first_is_not_dash a);
      [apply IHbl | right; right; eexists; reflexivity].
Qed.

Lemma validateInputFile_cases (env : Environment) (c : CSProCommandLineCompiler)
  (w : World) :
  let ok found :=
    found
    && accepted_extension
         (path_string (path_extension (path_of_string (cl_inputFile c)))) in
  (exists found,
      fs_exists env (cl_inputFile c) = Normal found /\ ok found = true
      /\ validateInputFile env c w = (Normal true, w))
  \/ (exists found msg,
        fs_exists env (cl_inputFile c) = Normal found /\ ok found = false
        /\ validateInputFile env c w = (Normal false, cerr msg w))
  \/ (exists e,
        fs_exists env (cl_inputFile c) = Throws e
        /\ validateInputFile env c w = (Throws e, w)).
Proof.
  cbv zeta. unfold validateInputFile, accepted_extension, bind, call, modify, ret.
  destruct (fs_exists env (cl_inputFile c)) as [[|] | e]; cbn [negb andb].
  - destruct (_ =? ".ent")%string, (_ =? ".bch")%string, (_ =? ".pff")%string;
      cbn [negb andb orb];
      first [ left; exists true; repeat split; reflexivity
            | right; left; exists true; eexists; repeat split; reflexivity ].
  - right. left. exists false. eexists. repeat split; reflexivity.
  - right. right. exists e. split; reflexivity.
Qed.

Lemma validateInputFile_throws (env : Environment) (c : CSProCommandLineCompiler)
  (w : World) (e : exception) :
  fs_exists env (cl_inputFile c) = Throws e ->
  validateInputFile env c w = (Throws e, w).
Proof.
  intros He. unfold validateInputFile, bind, call. rewrite He. reflexivity.
Qed.

Lemma outputResults_returns (env : Environment) (c : CSProCommandLineCompiler)
  (r : CompilationResult) (w : World) :
  exists w',
    outputResults env c r w = (Normal tt, w')
    /\ cwd w' = cwd w
    /\ opened w'
       = (opened w
          ++ (if jsonOutput c && negb (empty (cl_outputFile c))
              then [path_of_string (cl_outputFile c)] else []))%list.
Proof.
  unfold outputResults, outputJson, outputText, bind, modify, ret.
  destruct (jsonOutput c); cbn [andb].
  - destruct (empty (cl_outputFile c)); cbn [negb].
    + eexists. split; [reflexivity |]. cbn. rewrite app_nil_r. split; reflexivity.
    + destruct (ofstream_is_open env (path_of_string (cl_outputFile c)));
        eexists; (split; [reflexivity |]); cbn; split; reflexivity.
  - destruct (success r); [destruct (verboseMode c) | destruct (warningCount r >? 0)%Z];
      eexists; (split; [reflexivity |]); cbn; rewrite app_nil_r; split; reflexivity.
Qed.

(** [main] once the argument loop has configured the driver. *)
Lemma main_configured (env : Environment) (programName : string)
  (args : list string) (c : CSProCommandLineCompiler) (w : World) :
  args <> [] ->
  fst (parse_arguments programName CSProCommandLineCompiler_new args w)
    = Normal (Configured c) ->
  (validateInputFile env c w = (Normal true, w)
   /\ exists r w3 w4,
        driver_compile env c w = (Normal r, w3)
        /\ outputResults env c r w3 = (Normal tt, w4)
        /\ main env programName args w
           = (Normal (if success r then 0 else 1), w4))
  \/ (exists msg,
        validateInputFile env c w = (Normal false, cerr msg w)
        /\ main env programName args w = (Normal 1, cerr msg w))
  \/ (exists e,
        fs_exists env (cl_inputFile c) = Throws e
        /\ main env programName args w
           = (Normal 1,
              cerr (match e with
                    | std_exception what_ => "Error: " ++ what_ ++ endl
                    | other_exception =>
                        "Error: Unknown exception occurred" ++ endl
                    end) w)).
Proof.
  intros Hne Hp.
  assert (Hparse : parse_arguments programName CSProCommandLineCompiler_new args w
                   = (Normal (Configured c), w)).
  { destruct (parse_arguments_outcome programName args CSProCommandLineCompiler_new w)
      as [(c' & H) | [H | (w' & H)]]; rewrite H in Hp |- *; cbn in Hp;
      congruence. }
  assert (Hmain : main env programName args w
    = try_catch
        (bind (validateInputFile env c) (fun valid =>
           if negb valid then ret 1
           else
             bind (driver_compile env c) (fun result =>
               bind (outputResults env c result) (fun _ =>
                 ret (if success result then 0 else 1)))))
        main_catch_clauses w).
  { unfold main, main_try_block, try_catch.
    destruct args as [| a args]; [contradiction |].
    unfold bind at 1 3. rewrite Hparse. reflexivity. }
  destruct (validateInputFile_cases env c w)
    as [(found & _ & _ & Hv) | [(found & msg & _ & _ & Hv) | (e & He & Hv)]].
  - left. split; [exact Hv |].
    destruct (driver_compile_steps env c w) as (b & m2 & _ & _ & Hd).
    assert (Hdc : exists r w3, driver_compile env c w = (Normal r, w3)).
    { destruct b; [destruct Hd as (r & m3 & w5 & _ & _ & Hd) |];
        eexists; eexists; exact Hd. }
    destruct Hdc as (r & w3 & Hdc).
    destruct (outputResults_returns env c r w3) as (w4 & Ho & _).
    exists r, w3, w4. split; [exact Hdc |]. split; [exact Ho |].
    rewrite Hmain. unfold try_catch, bind at 1. rewrite Hv. cbn [negb].
    unfold bind at 1. rewrite Hdc. unfold bind at 1. rewrite Ho. reflexivity.
  - right. left. exists msg. split; [exact Hv |].
    rewrite Hmain. unfold try_catch, bind at 1. rewrite Hv. reflexivity.
  - right. right. exists e. split; [exact He |].
    rewrite Hmain. unfold try_catch, bind at 1. rewrite Hv.
    destruct e; reflexivity.
Qed.

(** X13. [main] always returns, whatever the command line is and however
    the calls into the file system, the runtime and the SDK end: no
    exception leaves it, and its exit code is 0 or 1.  In particular an
    exception thrown by [std::filesystem::exists] during validation is
    caught by the handlers of [main]: the run ends with exit code 1 and one
    line on the standard error, [Error: ] followed by the text of [what()]
    for a [std::exception] and [Error: Unknown exception occurred] for
    anything else. *)
Theorem main_exit_code (env : Environment) (programName : string)
  (args : list string) (w : World) :
  (exists code w',
      main env programName args w = (Normal code, w') /\ (code = 0 \/ code = 1))
  /\ (forall c e,
        args <> [] ->
        fst (parse_arguments programName CSProCommandLineCompiler_new args w)
          = Normal (Configured c) ->
        fs_exists env (cl_inputFile c) = Throws e ->
        main env programName args w
          = (Normal 1,
             cerr (match e with
                   | std_exception what_ => "Error: " ++ what_ ++ endl
                   | other_exception => "Error: Unknown exception occurred" ++ endl
                   end) w)).
Proof.
  split.
  - destruct args as [| a args].
    { eexists. eexists. split; [reflexivity | right; reflexivity]. }
    destruct (parse_arguments_outcome programName (a :: args)
                CSProCommandLineCompiler_new w) as [(c & H) | [H | (w' & H)]].
    + destruct (main_configured env programName (a :: args) c w)
        as [(_ & r & w3 & w4 & _ & _ & Hm) | [(msg & _ & Hm) | (e & _ & Hm)]];
        [discriminate | rewrite H; reflexivity | | |].
      * eexists. eexists. split; [exact Hm |]. destruct (success r); auto.
      * eexists. eexists. split; [exact Hm | right; reflexivity].
      * eexists. eexists. split; [exact Hm | right; reflexivity].
    + eexists. eexists. split; [| left; reflexivity].
      unfold main, main_try_block, try_catch, bind at 1. rewrite H. reflexivity.
    + eexists. eexists. split; [| right; reflexivity].
      unfold main, main_try_block, try_catch, bind at 1. rewrite H. reflexivity.
  - intros c e Hne Hp He.
    destruct (main_configured env programName args c w Hne Hp)
      as [(Hv & _) | [(msg & Hv & _) | (e' & He' & Hm)]].
    + rewrite (validateInputFile_throws env c w e He) in Hv. discriminate Hv.
    + rewrite (validateInputFile_throws env c w e He) in Hv. discriminate Hv.
    + rewrite He in He'. injection He' as <-. exact Hm.
Qed.

(** X14. Exit code 0 is given in two cases only: the usage text was
    printed because [-h] or [--help] ended the argument loop, or the input
    passed validation and the compilation result says success. *)
Theorem main_exit_0 (env : Environment) (programName : string)
  (args : list string) (w w' : World) :
  main env programName args w = (Normal 0, w') ->
  (parse_arguments programName CSProCommandLineCompiler_new args w
     = (Normal (Exit 0), cout (usage programName) w)
   /\ w' = cout (usage programName) w)
  \/ exists c r w3,
       parse_arguments programName CSProCommandLineCompiler_new args w
         = (Normal (Configured c), w)
       /\ validateInputFile env c w = (Normal true, w)
       /\ driver_compile env c w = (Normal r, w3)
       /\ success r = true.
Proof.
  intros Hm.
  destruct args as [| a args]; [cbn in Hm; discriminate |].
  destruct (parse_arguments_outcome programName (a :: args)
              CSProCommandLineCompiler_new w) as [(c & H) | [H | (w1 & H)]].
  - right.
    destruct (main_configured env programName (a :: args) c w)
      as [(Hv & r & w3 & w4 & Hd & _ & Hm') | [(msg & _ & Hm') | (e & _ & Hm')]];
      [discriminate | rewrite H; reflexivity | | |].
    + exists c, r, w3. repeat split; auto.
      rewrite Hm in Hm'. destruct (success r); [reflexivity | discriminate].
    + rewrite Hm in Hm'. discriminate.
    + rewrite Hm in Hm'. discriminate.
  - left. split; [exact H |].
    unfold main, main_try_block, try_catch, bind at 1 in Hm. rewrite H in Hm.
    cbn -[cout usage] in Hm. injection Hm as Hw. symmetry. exact Hw.
  - unfold main, main_try_block, try_catch, bind at 1 in Hm. rewrite H in Hm.
    cbn in Hm. discriminate.
Qed.

(** X15. When the configured input does not pass validation ([exists]
    answers that the file is missing, or the extension is not an accepted
    one), the run ends with exit code 1 and a message on the standard
    error, and nothing else has happened: no engine bootstrap, no locale
    change, no file opened, nothing on the standard output. *)
Theorem main_rejects_before_engine (env : Environment) (programName : string)
  (args : list string) (c : CSProCommandLineCompiler) (w : World)
  (found : bool) :
  args <> [] ->
  fst (parse_arguments programName CSProCommandLineCompiler_new args w)
    = Normal (Configured c) ->
  fs_exists env (cl_inputFile c) = Normal found ->
  found
    && accepted_extension
         (path_string (path_extension (path_of_string (cl_inputFile c))))
    = false ->
  exists msg, main env programName args w = (Normal 1, cerr msg w).
Proof.
  intros Hne Hp Hfound Hbad.
  destruct (main_configured env programName args c w Hne Hp)
    as [(Hv & _) | [(msg & _ & Hm) | (e & He & _)]].
  - exfalso.
    destruct (validateInputFile_cases env c w)
      as [(f & Hf & Hok & _) | [(f & msg & _ & _ & Hv') | (e & _ & Hv')]].
    + rewrite Hfound in Hf. injection Hf as <-. rewrite Hbad in Hok.
      discriminate Hok.
    + rewrite Hv in Hv'. discriminate Hv'.
    + rewrite Hv in Hv'. discriminate Hv'.
  - exists msg. exact Hm.
  - rewrite Hfound in He. discriminate He.
Qed.

(** X22. End to end.  When the arguments configure the driver, the input
    passes validation, the engine bootstraps and every step of the
    compilation returns normally, the exit code is 1 if the compiler
    session holds a message of type [Error] and 0 otherwise; the two log
    files are opened exactly when the session holds a message at all; the
    only other file opened is the JSON output file, when [--json] and [-o]
    were both given; and the process ends in the directory it started in. *)
Theorem main_end_to_end (env : Environment) (programName : string)
  (args : list string) (c : CSProCommandLineCompiler) (w : World)
  (msgs : list ParserMessage) :
  args <> [] ->
  fst (parse_arguments programName CSProCommandLineCompiler_new args w)
    = Normal (Configured c) ->
  fs_exists env (cl_inputFile c) = Normal true ->
  accepted_extension
    (path_string (path_extension (path_of_string (cl_inputFile c))))
    = true ->
  runs_through env msgs ->
  exists w',
    main env programName args w
      = (Normal (if existsb is_Type_Error msgs then 1 else 0), w')
    /\ opened w'
       = (opened w
          ++ (match msgs with
              | [] => []
              | _ :: _ => [errorFilePath c; formattedFilePath c]
              end)
          ++ (if jsonOutput c && negb (empty (cl_outputFile c))
              then [path_of_string (cl_outputFile c)] else []))%list
    /\ cwd w' = cwd w.
Proof.
  intros Hne Hp Hfound Hok Hrun.
  destruct (main_configured env programName args c w Hne Hp)
    as [(_ & r & w3 & w4 & Hd & Ho & Hm) | [(msg & Hv & _) | (e & He & _)]].
  3:{ rewrite Hfound in He. discriminate He. }
  2:{ exfalso.
      destruct (validateInputFile_cases env c w)
        as [(f & _ & _ & Hv') | [(f & msg' & Hf & Hbad & _) | (e & He & _)]].
      - rewrite Hv in Hv'. discriminate Hv'.
      - rewrite Hfound in Hf. injection Hf as <-. cbn [andb] in Hbad.
        rewrite Hok in Hbad. discriminate Hbad.
      - rewrite Hfound in He. discriminate He. }
  destruct (driver_compile_steps env c w) as (b & m2 & Hi & Hb & Hrest).
  rewrite (initialize_runs_through env _ msgs Hrun) in Hb. subst b.
  destruct Hrest as (r0 & m3 & w5 & Hc & Hs & Hd'). rewrite Hd in Hd'.
  injection Hd' as <- <-.
  destruct (compile_runs_through env (driver_options c) m2 msgs Hrun)
    as (m3' & Hc' & Hcwd & _ & Hop & _).
  rewrite Hc in Hc'. injection Hc' as Hr <-.
  destruct (concluded_drain (driver_options c) msgs (clock_elapsed_ms env))
    as (Hdiag & _ & _ & Hsucc & _).
  rewrite <- Hr in Hdiag, Hsucc.
  destruct (initialize_returns env
              {| self := CSProEngineImpl_new; world := cout (announcement c) w |})
    as (b' & m2' & Hi' & _ & _ & _ & _ & Hicwd & Hiop & _).
  rewrite Hi in Hi'. injection Hi' as _ <-. cbn [world] in Hicwd, Hiop.
  destruct (save_errors_spec env c r (world m3)) as (w5' & Hs' & Hfiles).
  rewrite Hs in Hs'. injection Hs' as <-.
  pose proof (save_errors_streams env c r (world m3)) as (_ & Hscwd & _).
  rewrite Hs in Hscwd. cbn [snd] in Hscwd.
  destruct (outputResults_returns env c r w3) as (w4' & Ho' & Hocwd & Hoop).
  rewrite Ho in Ho'. injection Ho' as <-.
  exists w4. split; [| split].
  - rewrite Hm, Hsucc. destruct (existsb is_Type_Error msgs); reflexivity.
  - rewrite Hoop, List.app_assoc. f_equal.
    rewrite Hdiag in Hfiles. destruct msgs as [| pm msgs]; cbn [map] in Hfiles.
    + destruct Hfiles as [Hf _]. rewrite Hf, Hop, Hiop.
      destruct w; cbn. rewrite List.app_nil_r. reflexivity.
    + destruct Hfiles as [Hf _]. rewrite Hf, Hop, Hiop.
      destruct w; reflexivity.
  - rewrite Hocwd, Hscwd, Hcwd, Hicwd. destruct w; reflexivity.
Qed.

(** X19. When the argument loop runs through a command line, each mode is
    on exactly if it was on before or its flag stands on the command line
    (anywhere, any number of times, but not as the value of [-o]), and the
    output file is the value of the last [-o]. *)
Theorem parse_arguments_options (programName : string) (args : list string) :
  forall (compiler compiler' : CSProCommandLineCompiler) (w w' : World),
    parse_arguments programName compiler args w
      = (Normal (Configured compiler'), w') ->
    verboseMode compiler' = verboseMode compiler || switch_given "-v" args
    /\ checkOnly compiler' = checkOnly compiler || switch_given "--check-only" args
    /\ jsonOutput compiler' = jsonOutput compiler || switch_given "--json" args
    /\ cl_outputFile compiler'
       = last (output_values args) (cl_outputFile compiler).
Proof.
  induction args as [| a | a b l IHl IHbl] using args_ind; intros c c' w w'.
  - cbn. intros H; inversion H; subst. rewrite !orb_false_r. auto.
  - cbn [parse_arguments switch_given output_values last].
    destruct (String.eqb_spec a "-h") as [-> | ?]; [cbn; intros H; inversion H |].
    destruct (String.eqb_spec a "--help") as [-> | ?]; [cbn; intros H; inversion H |].
    cbn [orb].
    destruct (String.eqb_spec a "-v") as [-> | ?];
      [cbn; intros H; inversion H; subst; cbn; rewrite ?orb_true_r, ?orb_false_r; auto |].
    destruct (String.eqb_spec a "--check-only") as [-> | ?];
      [cbn; intros H; inversion H; subst; cbn; rewrite ?orb_true_r, ?orb_false_r; auto |].
    destruct (String.eqb_spec a "--json") as [-> | ?];
      [cbn; intros H; inversion H; subst; cbn; rewrite ?orb_true_r, ?orb_false_r; auto |].
    destruct (String.eqb_spec a "-o") as [-> | ?]; [cbn; intros H; inversion H |].
    destruct (first_is_not_dash a); cbn; intros H; inversion H; subst; cbn;
      rewrite ?orb_false_r; auto.
  - assert (Hsw : forall flag,
      switch_given flag (a :: b :: l)
      = if (a =? "-o")%string then switch_given flag l
        else (a =? flag)%string || switch_given flag (b :: l)) by reflexivity.
    assert (Hov : output_values (a :: b :: l)
      = if (a =? "-o")%string then b :: output_values l
        else output_values (b :: l)) by reflexivity.
    rewrite !Hsw, Hov. clear Hsw Hov. cbn [parse_arguments].
    set (sv := switch_given "-v" (b :: l)) in *.
    set (sc := switch_given "--check-only" (b :: l)) in *.
    set (sj := switch_given "--json" (b :: l)) in *.
    set (ov := output_values (b :: l)) in *.
    destruct (String.eqb_spec a "-h") as [-> | ?]; [cbn; intros H; inversion H |].
    destruct (String.eqb_spec a "--help") as [-> | ?]; [cbn; intros H; inversion H |].
    cbn [orb].
    destruct (String.eqb_spec a "-v") as [-> | ?].
    { intros H. apply IHbl in H. cbn in H |- *.
      rewrite ?orb_true_l, ?orb_true_r in *. exact H. }
    destruct (String.eqb_spec a "--check-only") as [-> | ?].
    { intros H. apply IHbl in H. cbn in H |- *.
      rewrite ?orb_true_l, ?orb_true_r in *. exact H. }
    destruct (String.eqb_spec a "--json") as [-> | ?].
    { intros H. apply IHbl in H. cbn in H |- *.
      rewrite ?orb_true_l, ?orb_true_r in *. exact H. }
    destruct (String.eqb_spec a "-o") as [-> | ?].
    { intros H. apply IHl in H. cbn [setOutputFile verboseMode checkOnly
                                       jsonOutput cl_outputFile] in H.
      destruct H as (H1 & H2 & H3 & H4). repeat split; auto.
      rewrite H4. destruct (output_values l) as [| v vs]; [reflexivity |].
      change (last (b :: v :: vs) (cl_outputFile c))
        with (last (v :: vs) (cl_outputFile c)).
      apply last_nonempty. }
    cbn [orb].
    destruct (first_is_not_dash a).
    + intros H. apply IHbl in H. exact H.
    + cbn. intros H; inversion H.
Qed.

(** X20. [-o] as the last argument, with no file name after it, ends the
    run with exit code 1 and one line on the standard error; the usage text
    is not printed and the engine is not touched. *)
Theorem main_output_flag_without_value (env : Environment) (programName : string)
  (pre : list string) (compiler' : CSProCommandLineCompiler) (w : World) :
  fst (parse_arguments programName CSProCommandLineCompiler_new pre w)
    = Normal (Configured compiler') ->
  main env programName (pre ++ ["-o"]) w
    = (Normal 1, cerr ("Error: -o requires an output filename" ++ nl) w).
Proof.
  intros Hp.
  assert (Hparse : parse_arguments programName CSProCommandLineCompiler_new pre w
                   = (Normal (Configured compiler'), w)).
  { destruct (parse_arguments_outcome programName pre CSProCommandLineCompiler_new w)
      as [(c' & H) | [H | (w' & H)]]; rewrite H in Hp |- *; cbn in Hp;
      congruence. }
  unfold main, main_try_block, try_catch.
  destruct (pre ++ ["-o"])%list as [| x xs] eqn:Happ; [destruct pre; discriminate |].
  rewrite <- Happ. unfold bind at 1.
  rewrite (parse_arguments_app _ _ _ _ _ _ _ Hparse). reflexivity.
Qed.

(** X24. The minimal test returns 0 exactly when the runtime is already
    bootstrapped or its bootstrap returns normally, and 1 otherwise; it
    never lets an exception out and writes on the standard error only.  In
    a build with the SDK this is exactly the case in which [initialize] on
    a new engine succeeds. *)
Theorem minimal_test_main_spec (env : Environment) (w : World) :
  exists code w',
    minimal_test_main env w = (Normal code, w')
    /\ (code = 0 \/ code = 1)
    /\ (code = 0 <->
        AfxGetApp env = true \/ exists u, AfxWinInit env = Normal u)
    /\ (CSPRO_SDK_AVAILABLE = true ->
        (code = 0 <->
         fst (initialize env {| self := CSProEngineImpl_new; world := w |})
           = Normal true))
    /\ stdout w' = stdout w /\ opened w' = opened w /\ cwd w' = cwd w.
Proof.
  unfold minimal_test_main, minimal_test_try_block, initialize, try_catch, bind,
    on_world, on_self, modify, ret, call, get. cbn.
  destruct (AfxGetApp env); cbn.
  - eexists. eexists. split; [reflexivity |]. split; [left; reflexivity |].
    split; [split; auto |]. split; [| repeat split].
    intros ->. destruct (SystemMessages_LoadMessages env); cbn; split; auto.
  - destruct (AfxWinInit env) as [u | [what_ |]]; cbn;
      eexists; eexists; (split; [reflexivity |]);
      (split; [first [left; reflexivity | right; reflexivity] |]);
      (split; [split;
               [ intros H; first [discriminate H | right; eexists; reflexivity]
               | intros [H | [u' H]]; first [discriminate H | reflexivity] ] |]);
      (split; [| repeat split]); intros ->;
      try (destruct (SystemMessages_LoadMessages env); cbn);
      split; intros H; first [reflexivity | discriminate H].
Qed.

End WholeProgram.

(** ** From the compiler session to the JSON report *)

Section AdapterToJson.

Context {P : Platform}.


End AdapterToJson.

(** *** The driver and the whole program at concrete inputs *)


Lemma outputText_channels_witness :
  exists w',
    outputText (P := Sample.platform true) (compiler_for "app.ent") result_plain
      (Sample.process (Sample.platform true) "/home/user") = (Normal tt, w')
    /\ opened w' = [] /\ written w' = []
    /\ stdout w' = ""
    /\ count_nl (stderr w') = 3%nat.
Proof.
  destruct (outputText_channels (P := Sample.platform true)
              (compiler_for "app.ent") result_plain
              (Sample.process (Sample.platform true) "/home/user"))
    as (w' & H & Ho & Hw & Hs & Hn).
  exists w'. split; [exact H |]. split; [exact Ho |]. split; [exact Hw |].
  split; [exact Hs |]. apply Hn.
  intros d [<- | [<- | []]]; split; reflexivity.
Defined.

Lemma detailed_log_lines_witness :
  count_nl (detailed_log (P := Sample.platform true)
              (compiler_for "/projects/census/app.ent") result_plain)
    = 15%nat.
Proof.
  apply (detailed_log_lines (P := Sample.platform true)
           (compiler_for "/projects/census/app.ent") result_plain);
    try reflexivity.
  intros d [<- | [<- | []]]; split; reflexivity.
Defined.

Lemma driver_compile_prints_witness :
  let P := Sample.platform true in
  let c := setVerboseMode true (compiler_for "/projects/census/app.ent") in
  let w := Sample.process P "/home/user" in
  let r := returned (fst (driver_compile env_no_messages c w)) in
  let w' := snd (driver_compile env_no_messages c w) in
  stderr w' = ""
  /\ (verboseMode c = false -> stdout w' = "")
  /\ (diagnostics r = [] -> stdout w' = announcement c).
Proof.
  cbv zeta.
  apply (driver_compile_prints (P := Sample.platform true) env_no_messages
           (setVerboseMode true (compiler_for "/projects/census/app.ent"))
           (Sample.process (Sample.platform true) "/home/user")).
  vm_compute. reflexivity.
Defined.

Lemma main_exit_0_witness :
  let P := Sample.platform true in
  let w := Sample.process P "/home/user" in
  let args := ["--check-only"; "/projects/census/app.ent"] in
  (parse_arguments "CSProCompile" CSProCommandLineCompiler_new args w
     = (Normal (Exit 0), cout (usage "CSProCompile") w)
   /\ snd (main env_no_messages "CSProCompile" args w)
      = cout (usage "CSProCompile") w)
  \/ exists c r w3,
       parse_arguments "CSProCompile" CSProCommandLineCompiler_new args w
         = (Normal (Configured c), w)
       /\ validateInputFile env_no_messages c w = (Normal true, w)
       /\ driver_compile env_no_messages c w = (Normal r, w3)
       /\ success r = true.
Proof.
  cbv zeta.
  apply (main_exit_0 (P := Sample.platform true) env_no_messages "CSProCompile"
           ["--check-only"; "/projects/census/app.ent"]
           (Sample.process (Sample.platform true) "/home/user")).
  vm_compute. reflexivity.
Defined.

Lemma main_rejects_before_engine_witness :
  exists msg,
    main (P := Sample.platform true) env_two_messages "CSProCompile"
      ["-v"; "notes.txt"] (Sample.process (Sample.platform true) "/home/user")
    = (Normal 1, cerr msg (Sample.process (Sample.platform true) "/home/user")).
Proof.
  apply (main_rejects_before_engine (P := Sample.platform true)
           env_two_messages "CSProCompile" ["-v"; "notes.txt"]
           (setInputFile "notes.txt"
              (setVerboseMode true CSProCommandLineCompiler_new))
           (Sample.process (Sample.platform true) "/home/user") true).
  - discriminate.
  - reflexivity.
  - reflexivity.
  - vm_compute. reflexivity.
Defined.

Lemma main_exit_code_witness :
  let P := Sample.platform true in
  let w := Sample.process P "/home/user" in
  main env_exists_throws "CSProCompile" ["/projects/census/app.ent"] w
    = (Normal 1,
       cerr ("Error: filesystem error: status: Access is denied" ++ endl) w).
Proof.
  cbv zeta.
  apply (proj2 (main_exit_code (P := Sample.platform true) env_exists_throws
                  "CSProCompile" ["/projects/census/app.ent"]
                  (Sample.process (Sample.platform true) "/home/user"))
           (compiler_for "/projects/census/app.ent")
           (std_exception "filesystem error: status: Access is denied")).
  - discriminate.
  - reflexivity.
  - reflexivity.
Defined.

Lemma main_end_to_end_witness :
  let P := Sample.platform true in
  let w := Sample.process P "/home/user" in
  exists w',
    main env_two_messages "CSProCompile"
      ["/projects/census/app.ent"; "--json"; "-o"; "report.json"] w
      = (Normal 1, w')
    /\ opened w'
       = ["/projects/census/compileErrors.txt";
          "/projects/census/compileErrorsFormatted.txt"; "report.json"]
    /\ cwd w' = "/home/user".
Proof.
  cbv zeta.
  apply (main_end_to_end (P := Sample.platform true) env_two_messages
           "CSProCompile"
           ["/projects/census/app.ent"; "--json"; "-o"; "report.json"]
           (setOutputFile "report.json"
              (setJsonOutput true
                 (setInputFile "/projects/census/app.ent"
                    CSProCommandLineCompiler_new)))
           (Sample.process (Sample.platform true) "/home/user")
           (messages_of env_two_messages)).
  - discriminate.
  - reflexivity.
  - reflexivity.
  - vm_compute. reflexivity.
  - prove_runs_through.
Defined.

Lemma parse_arguments_options_witness :
  let P := Sample.platform true in
  let w := Sample.process P "/home/user" in
  let c' := setInputFile "app.ent"
              (setOutputFile "b.json"
                 (setOutputFile "--json"
                    (setVerboseMode true CSProCommandLineCompiler_new))) in
  verboseMode c' = true /\ checkOnly c' = false /\ jsonOutput c' = false
  /\ cl_outputFile c' = "b.json".
Proof.
  cbv zeta.
  apply (parse_arguments_options (P := Sample.platform true) "CSProCompile"
           ["-v"; "-o"; "--json"; "-o"; "b.json"; "app.ent"]
           CSProCommandLineCompiler_new
           (setInputFile "app.ent"
              (setOutputFile "b.json"
                 (setOutputFile "--json"
                    (setVerboseMode true CSProCommandLineCompiler_new))))
           (Sample.process (Sample.platform true) "/home/user")
           (Sample.process (Sample.platform true) "/home/user")).
  reflexivity.
Defined.

Lemma main_output_flag_without_value_witness :
  let P := Sample.platform true in
  let w := Sample.process P "/home/user" in
  main env_no_messages "CSProCompile" ["/projects/census/app.ent"; "-o"] w
    = (Normal 1, cerr ("Error: -o requires an output filename" ++ nl) w).
Proof.
  cbv zeta.
  apply (main_output_flag_without_value (P := Sample.platform true)
           env_no_messages "CSProCompile" ["/projects/census/app.ent"]
           (compiler_for "/projects/census/app.ent")
           (Sample.process (Sample.platform true) "/home/user")).
  reflexivity.
Defined.
